(** * IntelliRouter Python SDK: the chain-execution client stack

    A shallow embedding of
      - [intellirouter/exceptions.py]      (the error taxonomy),
      - [sdk/python/chains/models.py]      (the pydantic entities),
      - [sdk/python/transport/http.py]     (the HTTP/SSE transport),
      - [intellirouter/chains/api.py]      (the chain client),
    followed by the properties of the chain client that the specification
    states.

    Python values are an inductive type of JSON-like data; a Python [dict]
    is an association list in insertion order; an exception is a record of
    its class, message and [status_code]; a generator is a finite trace of
    yields closed by the end of the iteration or by an exception; the
    transport calls a client method makes are collected in a log that is
    threaded through every method. *)

From Stdlib Require Import String Ascii ZArith List Bool Lia DecimalString.
From Stdlib Require Import Floats.SpecFloat.
Import ListNotations.
Local Open Scope string_scope.
Local Open Scope list_scope.

Set Implicit Arguments.
Set Warnings "-register-all".

(* ===================================================================== *)
(** ** Python values *)
(* ===================================================================== *)

(** What [json.loads] can return, and what callers put into payloads. *)
Inductive pyval : Type :=
| PNone
| PBool (b : bool)
| PInt (z : Z)
| PFloat (f : spec_float)
| PStr (s : string)
| PList (l : list pyval)
| PDict (d : list (string * pyval)).

(** A [dict] with [str] keys, in insertion order. *)
Definition dict : Type := list (string * pyval).

Definition is_none (v : pyval) : bool :=
  match v with PNone => true | _ => false end.

(** [type(v).__name__] *)
Definition type_name (v : pyval) : string :=
  match v with
  | PNone => "NoneType"
  | PBool _ => "bool"
  | PInt _ => "int"
  | PFloat _ => "float"
  | PStr _ => "str"
  | PList _ => "list"
  | PDict _ => "dict"
  end.

(** [k in d] and [d[k]] *)
Fixpoint dict_lookup (d : dict) (k : string) : option pyval :=
  match d with
  | [] => None
  | (k', v) :: rest => if String.eqb k k' then Some v else dict_lookup rest k
  end.

(** [d.get(k, default)] *)
Definition dict_get (d : dict) (k : string) (default : pyval) : pyval :=
  match dict_lookup d k with
  | Some v => v
  | None => default
  end.

(** [d[k] = v]: an existing key keeps its position, a new key goes last. *)
Fixpoint dict_set (d : dict) (k : string) (v : pyval) : dict :=
  match d with
  | [] => [(k, v)]
  | (k', v') :: rest =>
      if String.eqb k k' then (k', v) :: rest else (k', v') :: dict_set rest k v
  end.

(** [list(d.keys())] *)
Definition dict_keys (d : dict) : list string := map fst d.

(** [x or default] on strings: the empty string is falsy. *)
Definition str_or (x default : string) : string :=
  match x with
  | EmptyString => default
  | _ => x
  end.

(* ===================================================================== *)
(** ** intellirouter/exceptions.py *)
(* ===================================================================== *)

Module Exceptions.

(** The classes of the taxonomy, after the built-in and library classes
    that the modelled code catches or lets escape. *)
Inductive exc_class : Type :=
| Exception
| AttributeError
| KeyError
| TypeError
| ValueError
| JSONDecodeError
| PydanticValidationError
| IntelliRouterError
| APIError
| AuthenticationError
| RateLimitError
| ServerError
| ValidationError
| ConfigurationError.

Definition exc_class_eqb (a b : exc_class) : bool :=
  match a, b with
  | Exception, Exception
  | AttributeError, AttributeError
  | KeyError, KeyError
  | TypeError, TypeError
  | ValueError, ValueError
  | JSONDecodeError, JSONDecodeError
  | PydanticValidationError, PydanticValidationError
  | IntelliRouterError, IntelliRouterError
  | APIError, APIError
  | AuthenticationError, AuthenticationError
  | RateLimitError, RateLimitError
  | ServerError, ServerError
  | ValidationError, ValidationError
  | ConfigurationError, ConfigurationError => true
  | _, _ => false
  end.

(** The class named between the parentheses of each [class] statement. *)
Definition base (c : exc_class) : option exc_class :=
  match c with
  | Exception => None
  | AttributeError => Some Exception
  | KeyError => Some Exception
  | TypeError => Some Exception
  | ValueError => Some Exception
  | JSONDecodeError => Some ValueError
  | PydanticValidationError => Some ValueError
  | IntelliRouterError => Some Exception
  | APIError => Some IntelliRouterError
  | AuthenticationError => Some APIError
  | RateLimitError => Some APIError
  | ServerError => Some APIError
  | ValidationError => Some IntelliRouterError
  | ConfigurationError => Some IntelliRouterError
  end.

(** [issubclass(c, d)], walking the chain of bases; the chain is at most
    four classes long. *)
Fixpoint issubclass_fuel (fuel : nat) (c d : exc_class) : bool :=
  exc_class_eqb c d ||
  match fuel with
  | O => false
  | S fuel' =>
      match base c with
      | Some b => issubclass_fuel fuel' b d
      | None => false
      end
  end.

Definition issubclass (c d : exc_class) : bool := issubclass_fuel 4 c d.

(** A raised exception.  [status_code] is the attribute that
    [APIError.__init__] sets; the classes outside [APIError] do not have
    it and carry [None] here. *)
Record exc : Type := mk_exc {
  exc_type : exc_class;
  message : string;
  status_code : option Z
}.

(** [APIError.__init__(self, message, status_code=None)], inherited
    unchanged by the three subclasses ([pass] bodies). *)
Definition new_APIError (cls : exc_class) (msg : string)
           (code : option Z) : exc :=
  {| exc_type := cls; message := msg; status_code := code |}.

(** [Exception.__init__(self, message)] for the other classes. *)
Definition new_exc (cls : exc_class) (msg : string) : exc :=
  {| exc_type := cls; message := msg; status_code := None |}.

(** [isinstance(e, cls)] *)
Definition isinstance (e : exc) (cls : exc_class) : bool :=
  issubclass (exc_type e) cls.

End Exceptions.
Import Exceptions.

(* ===================================================================== *)
(** ** Results and generators *)
(* ===================================================================== *)

(** A call either raises or returns. *)
Definition result (A : Type) : Type := (exc + A)%type.

Definition ret {E A} (a : A) : E + A := inr a.
Definition raise {E A} (e : E) : E + A := inl e.

Definition bind {E A B} (r : E + A) (k : A -> E + B) : E + B :=
  match r with
  | inl e => inl e
  | inr a => k a
  end.

Declare Scope py_scope.
Delimit Scope py_scope with py.
Notation "x <- c ;; k" := (bind c (fun x => k))
  (at level 61, c at next level, right associativity) : py_scope.

(** [try: body  except Exception as e: raise handler(e)]; every class of
    [exc_class] derives from [Exception]. *)
Definition try_except {A} (body : result A) (handler : exc -> exc)
  : result A :=
  match body with
  | inl e => inl (handler e)
  | inr a => inr a
  end.

(** [try: body  except (c1, c2, ...): handler]; an exception of another
    class passes through. *)
Definition try_except_of {A} (body : result A) (classes : list exc_class)
           (handler : result A) : result A :=
  match body with
  | inl e => if existsb (isinstance e) classes then handler else inl e
  | inr a => inr a
  end.

(** What iterating a generator produces: the values yielded, in order, and
    how the iteration stops. *)
Inductive gen (A : Type) : Type :=
| Stop
| Raise (e : exc)
| Yield (a : A) (rest : gen A).
Arguments Stop {A}.
Arguments Raise {A} e.
Arguments Yield {A} a rest.

(** The values a consumer has received when the iteration stops. *)
Fixpoint yielded {A} (g : gen A) : list A :=
  match g with
  | Stop => []
  | Raise _ => []
  | Yield a rest => a :: yielded rest
  end.

(** How the iteration stops: [None] for exhaustion, [Some e] for [e]
    raised out of [next]. *)
Fixpoint outcome {A} (g : gen A) : option exc :=
  match g with
  | Stop => None
  | Raise e => Some e
  | Yield _ rest => outcome rest
  end.

(** The generator that yields [l] and then continues as [g]. *)
Fixpoint yield_all {A} (l : list A) (g : gen A) : gen A :=
  match l with
  | [] => g
  | a :: rest => Yield a (yield_all rest g)
  end.

(* ===================================================================== *)
(** ** sdk/python/chains/models.py *)
(* ===================================================================== *)

Module Models.

(** Why a model class refuses its keyword arguments. *)
Inductive model_error : Type :=
| field_required (loc : string)
| field_invalid (loc : string)
| not_a_mapping (v : pyval).

(** The scalar and container validators of pydantic, which the field
    annotations select.  Which values they coerce differs between the
    pydantic releases that [setup.py] admits ([pydantic>=1.8.0]); what
    all of them do is accept a value that already has the annotated type
    and return it unchanged.  [error_str] is [str(e)] on the exception a
    failed construction raises. *)
Class Pydantic : Type := {
  validate_str : pyval -> option string;
  validate_float : pyval -> option spec_float;
  validate_dict : pyval -> option dict;
  validate_list : pyval -> option (list pyval);
  error_str : model_error -> string;
  validate_str_str : forall s, validate_str (PStr s) = Some s;
  validate_float_float : forall f, validate_float (PFloat f) = Some f;
  validate_dict_dict : forall d, validate_dict (PDict d) = Some d;
  validate_list_list : forall l, validate_list (PList l) = Some l
}.

Section Fields.
Context {pydantic : Pydantic}.

Definition parsed (A : Type) : Type := (model_error + A)%type.

(** A field without a default: [name: T]. *)
Definition required {A} (kwargs : dict) (loc : string)
           (validator : pyval -> option A) : parsed A :=
  match dict_lookup kwargs loc with
  | None => raise (field_required loc)
  | Some v =>
      match validator v with
      | Some a => ret a
      | None => raise (field_invalid loc)
      end
  end.

(** [name: Optional[T] = None]: absent and [None] both give [None]. *)
Definition optional {A} (kwargs : dict) (loc : string)
           (validator : pyval -> option A) : parsed (option A) :=
  match dict_lookup kwargs loc with
  | None => ret None
  | Some PNone => ret None
  | Some v =>
      match validator v with
      | Some a => ret (Some a)
      | None => raise (field_invalid loc)
      end
  end.

(** [name: T = default] and [name: T = Field(default_factory=...)]. *)
Definition defaulted {A} (kwargs : dict) (loc : string)
           (validator : pyval -> option A) (default : A) : parsed A :=
  match dict_lookup kwargs loc with
  | None => ret default
  | Some v =>
      match validator v with
      | Some a => ret a
      | None => raise (field_invalid loc)
      end
  end.

(** [Literal[...]]: the value has to be one of the listed strings. *)
Fixpoint lookup_choice {A} (choices : list (string * A)) (s : string)
  : option A :=
  match choices with
  | [] => None
  | (name, a) :: rest =>
      if String.eqb s name then Some a else lookup_choice rest s
  end.

Definition validate_literal {A} (choices : list (string * A))
           (v : pyval) : option A :=
  match v with
  | PStr s => lookup_choice choices s
  | _ => None
  end.

(** Every element through [f], or nothing. *)
Fixpoint traverse {A B} (f : A -> option B) (l : list A)
  : option (list B) :=
  match l with
  | [] => Some []
  | a :: rest =>
      match f a with
      | None => None
      | Some b =>
          match traverse f rest with
          | None => None
          | Some bs => Some (b :: bs)
          end
      end
  end.

(** [Dict[str, T]] *)
Definition validate_dict_of {A} (f : pyval -> option A) (v : pyval)
  : option (list (string * A)) :=
  match validate_dict v with
  | None => None
  | Some d =>
      traverse (fun kv => match f (snd kv) with
                          | Some a => Some (fst kv, a)
                          | None => None
                          end) d
  end.

(** [List[T]] *)
Definition validate_list_of {A} (f : pyval -> option A) (v : pyval)
  : option (list A) :=
  match validate_list v with
  | None => None
  | Some l => traverse f l
  end.

(** A field whose annotation is a model class. *)
Definition validate_model {A} (parse : dict -> parsed A) (v : pyval)
  : option A :=
  match validate_dict v with
  | None => None
  | Some d =>
      match parse d with
      | inl _ => None
      | inr a => Some a
      end
  end.

(** The exception a failed construction raises: pydantic's own
    [ValidationError] (a [ValueError]), or the [TypeError] of a double
    star applied to something that is not a mapping. *)
Definition exc_of_model_error (e : model_error) : exc :=
  match e with
  | not_a_mapping _ => new_exc TypeError (error_str e)
  | _ => new_exc PydanticValidationError (error_str e)
  end.

(** [Model( **v)] *)
Definition construct {A} (parse : dict -> parsed A) (v : pyval)
  : result A :=
  match v with
  | PDict d =>
      match parse d with
      | inl e => raise (exc_of_model_error e)
      | inr a => ret a
      end
  | _ => raise (exc_of_model_error (not_a_mapping v))
  end.

(** [.dict(exclude_none=True)] drops the fields whose value is [None];
    [.dict()] keeps every field. *)
Definition exclude (exclude_none : bool) (fields : dict) : dict :=
  if exclude_none
  then filter (fun kv => negb (is_none (snd kv))) fields
  else fields.

Definition opt_str (o : option string) : pyval :=
  match o with
  | Some s => PStr s
  | None => PNone
  end.

Definition str_dict (d : list (string * string)) : pyval :=
  PDict (map (fun kv => (fst kv, PStr (snd kv))) d).

End Fields.

Local Notation "x <- c ;; k" := (bind c (fun x => k))
  (at level 61, c at next level, right associativity).

Module ChainStep.
Record t : Type := mk {
  id : string;
  type : string;
  name : option string;
  description : option string;
  inputs : dict;
  outputs : list (string * string);
  config : dict
}.

(** [ChainStep( **kwargs)] *)
Definition parse {pydantic : Pydantic} (kwargs : dict) : parsed t :=
  id <- required kwargs "id" validate_str ;;
  type <- required kwargs "type" validate_str ;;
  name <- optional kwargs "name" validate_str ;;
  description <- optional kwargs "description" validate_str ;;
  inputs <- defaulted kwargs "inputs" validate_dict [] ;;
  outputs <- defaulted kwargs "outputs" (validate_dict_of validate_str) [] ;;
  config <- defaulted kwargs "config" validate_dict [] ;;
  ret (mk id type name description inputs outputs config).

(** [step.dict(exclude_none=...)] *)
Definition to_dict (s : t) (exclude_none : bool) : dict :=
  exclude exclude_none
    [ ("id", PStr (id s));
      ("type", PStr (type s));
      ("name", opt_str (name s));
      ("description", opt_str (description s));
      ("inputs", PDict (inputs s));
      ("outputs", str_dict (outputs s));
      ("config", PDict (config s)) ].
End ChainStep.

Module ChainDependency.
Inductive dependency_type : Type := simple | conditional.

Definition type_choices : list (string * dependency_type) :=
  [ ("simple", simple); ("conditional", conditional) ].

Definition type_str (ty : dependency_type) : string :=
  match ty with
  | simple => "simple"
  | conditional => "conditional"
  end.

Record t : Type := mk {
  dependent_step : string;
  required_step : string;
  type : dependency_type;
  condition : option dict
}.

(** [ChainDependency( **kwargs)] *)
Definition parse {pydantic : Pydantic} (kwargs : dict) : parsed t :=
  dependent_step <- required kwargs "dependent_step" validate_str ;;
  required_step <- required kwargs "required_step" validate_str ;;
  type <- defaulted kwargs "type" (validate_literal type_choices) simple ;;
  condition <- optional kwargs "condition" validate_dict ;;
  ret (mk dependent_step required_step type condition).

(** [dependency.dict(exclude_none=...)] *)
Definition to_dict (s : t) (exclude_none : bool) : dict :=
  exclude exclude_none
    [ ("dependent_step", PStr (dependent_step s));
      ("required_step", PStr (required_step s));
      ("type", PStr (type_str (type s)));
      ("condition", match condition s with
                    | Some c => PDict c
                    | None => PNone
                    end) ].
End ChainDependency.

Module Chain.
Record t : Type := mk {
  id : string;
  name : option string;
  description : option string;
  steps : list (string * ChainStep.t);
  dependencies : list ChainDependency.t;
  config : dict
}.

(** [Chain( **kwargs)] *)
Definition parse {pydantic : Pydantic} (kwargs : dict) : parsed t :=
  id <- required kwargs "id" validate_str ;;
  name <- optional kwargs "name" validate_str ;;
  description <- optional kwargs "description" validate_str ;;
  steps <- defaulted kwargs "steps"
             (validate_dict_of (validate_model ChainStep.parse)) [] ;;
  dependencies <- defaulted kwargs "dependencies"
             (validate_list_of (validate_model ChainDependency.parse)) [] ;;
  config <- defaulted kwargs "config" validate_dict [] ;;
  ret (mk id name description steps dependencies config).
End Chain.

Module ChainExecutionStepResult.
Record t : Type := mk {
  step_id : string;
  outputs : dict;
  error : option string;
  execution_time : option spec_float
}.

(** [ChainExecutionStepResult( **kwargs)] *)
Definition parse {pydantic : Pydantic} (kwargs : dict) : parsed t :=
  step_id <- required kwargs "step_id" validate_str ;;
  outputs <- defaulted kwargs "outputs" validate_dict [] ;;
  error <- optional kwargs "error" validate_str ;;
  execution_time <- optional kwargs "execution_time" validate_float ;;
  ret (mk step_id outputs error execution_time).
End ChainExecutionStepResult.

Module ChainExecution.
Inductive execution_status : Type := running | completed | failed.

Definition status_choices : list (string * execution_status) :=
  [ ("running", running); ("completed", completed); ("failed", failed) ].

Record t : Type := mk {
  chain_id : string;
  status : execution_status;
  step_results : list (string * ChainExecutionStepResult.t);
  outputs : dict;
  error : option string;
  execution_time : option spec_float
}.

(** [ChainExecution( **kwargs)] *)
Definition parse {pydantic : Pydantic} (kwargs : dict) : parsed t :=
  chain_id <- required kwargs "chain_id" validate_str ;;
  status <- required kwargs "status" (validate_literal status_choices) ;;
  step_results <- defaulted kwargs "step_results"
      (validate_dict_of (validate_model ChainExecutionStepResult.parse)) [] ;;
  outputs <- defaulted kwargs "outputs" validate_dict [] ;;
  error <- optional kwargs "error" validate_str ;;
  execution_time <- optional kwargs "execution_time" validate_float ;;
  ret (mk chain_id status step_results outputs error execution_time).
End ChainExecution.

Module ChainExecutionEvent.
Inductive event_kind : Type :=
| step_started
| step_completed
| step_failed
| chain_completed
| chain_failed.

Definition event_type_choices : list (string * event_kind) :=
  [ ("step_started", step_started);
    ("step_completed", step_completed);
    ("step_failed", step_failed);
    ("chain_completed", chain_completed);
    ("chain_failed", chain_failed) ].

Record t : Type := mk {
  event_type : event_kind;
  chain_id : string;
  step_id : option string;
  data : dict
}.

(** [ChainExecutionEvent( **kwargs)] *)
Definition parse {pydantic : Pydantic} (kwargs : dict) : parsed t :=
  event_type <- required kwargs "event_type"
                  (validate_literal event_type_choices) ;;
  chain_id <- required kwargs "chain_id" validate_str ;;
  step_id <- optional kwargs "step_id" validate_str ;;
  data <- defaulted kwargs "data" validate_dict [] ;;
  ret (mk event_type chain_id step_id data).
End ChainExecutionEvent.

End Models.
Import Models.

(* ===================================================================== *)
(** ** What the modelled code takes from the Python runtime *)
(* ===================================================================== *)

(** [str(v)] as an f-string applies it, and [json.loads] ([None] stands
    for [json.JSONDecodeError]).  [json_error_str] is the text of that
    error.  [json_error_is_request_exception] tells whether the error that
    [Response.json()] raises derives from [requests]' [RequestException],
    which depends on the release of [requests] ([requests>=2.25.0] in
    [setup.py]). *)
Class PythonRuntime : Type := {
  py_str : pyval -> string;
  json_loads : string -> option pyval;
  json_error_str : string -> string;
  json_error_is_request_exception : bool;
  py_str_str : forall s, py_str (PStr s) = s
}.

(** [v.get(k, default)]: only a [dict] has the method. *)
Definition py_get (v : pyval) (k : string) (default : pyval)
  : result pyval :=
  match v with
  | PDict d => ret (dict_get d k default)
  | _ => raise (new_exc AttributeError
                  ("'" ++ type_name v ++ "' object has no attribute 'get'"))
  end.

(** [v[k]] for a string [k].  The text of the [TypeError] for a [str] is
    the one of the interpreters up to 3.10; later ones add which type the
    index had.  Nothing below depends on the text. *)
Definition py_getitem (v : pyval) (k : string) : result pyval :=
  match v with
  | PDict d =>
      match dict_lookup d k with
      | Some x => ret x
      | None => raise (new_exc KeyError ("'" ++ k ++ "'"))
      end
  | PStr _ =>
      raise (new_exc TypeError "string indices must be integers")
  | PList _ =>
      raise (new_exc TypeError "list indices must be integers or slices, not str")
  | _ => raise (new_exc TypeError
                  ("'" ++ type_name v ++ "' object is not subscriptable"))
  end.

(** The elements a [for] loop over [v] visits. *)
Definition py_iter (v : pyval) : result (list pyval) :=
  match v with
  | PList l => ret l
  | PDict d => ret (map (fun kv => PStr (fst kv)) d)
  | PStr s => ret (map (fun c => PStr (String c EmptyString))
                       (list_ascii_of_string s))
  | _ => raise (new_exc TypeError
                  ("'" ++ type_name v ++ "' object is not iterable"))
  end.

(** Every element through [f], stopping at the first exception. *)
Fixpoint for_each {A B} (f : A -> result B) (l : list A) : result (list B) :=
  match l with
  | [] => ret []
  | a :: rest =>
      bind (f a) (fun b => bind (for_each f rest) (fun bs => ret (b :: bs)))
  end.

(* ===================================================================== *)
(** ** sdk/python/transport/base.py *)
(* ===================================================================== *)

Module Transport.

Inductive operation : Type := op_request | op_stream.

(** One call of a transport method with its keyword arguments; an
    argument that the caller leaves out is [None]. *)
Record call : Type := mk_call {
  operation_of : operation;
  method : string;
  path : string;
  params : option dict;
  data : option dict
}.

(** The abstract class [Transport], synchronous half.  What a call
    answers may depend on the calls made before it. *)
Record t : Type := mk {
  request : list call -> call -> result pyval;
  stream : list call -> call -> gen pyval
}.

End Transport.

(** A method that uses the transport: from the log of the calls made so
    far to its result and the log afterwards. *)
Definition io (A : Type) : Type :=
  list Transport.call -> result A * list Transport.call.

Definition io_ret {A} (a : A) : io A := fun log => (inr a, log).

Definition io_bind {A B} (m : io A) (k : A -> io B) : io B :=
  fun log =>
    match m log with
    | (inl e, log') => (inl e, log')
    | (inr a, log') => k a log'
    end.

(** A computation that does not touch the transport. *)
Definition lift {A} (r : result A) : io A := fun log => (r, log).

Declare Scope io_scope.
Delimit Scope io_scope with io.
Notation "x <- c ;; k" := (io_bind c (fun x => k))
  (at level 61, c at next level, right associativity) : io_scope.

(** A generator object: nothing of its body runs before the first [next].
    Iterating it from a log gives what it yields and the log afterwards. *)
Definition iterator (A : Type) : Type :=
  list Transport.call -> gen A * list Transport.call.

(** [self.transport.request(method=..., path=..., params=..., data=...)] *)
Definition transport_request (transport : Transport.t) (method path : string)
           (params data : option dict) : io pyval :=
  fun log =>
    let c := Transport.mk_call Transport.op_request method path params data in
    (Transport.request transport log c, log ++ [c]).

(** [self.transport.stream(method=..., path=..., params=..., data=...)] *)
Definition transport_stream (transport : Transport.t) (method path : string)
           (params data : option dict) : iterator pyval :=
  fun log =>
    let c := Transport.mk_call Transport.op_stream method path params data in
    (Transport.stream transport log c, log ++ [c]).

(* ===================================================================== *)
(** ** sdk/python/transport/http.py *)
(* ===================================================================== *)

(** What the client reads from a [requests.Response]: the status, the body
    as text, and for a streamed body the [data] of each server-sent event
    that [sseclient] frames. *)
Module Response.
Record t : Type := mk {
  status_code : Z;
  text : string;
  events : list string
}.
End Response.

Module HTTPTransport.
Section HTTP.
Context {runtime : PythonRuntime}.
Local Open Scope py_scope.
Local Open Scope Z_scope.

(** [response.json()] *)
Definition json (response : Response.t) : result pyval :=
  match json_loads (Response.text response) with
  | Some v => ret v
  | None => raise (new_exc JSONDecodeError
                     (json_error_str (Response.text response)))
  end.

(** The [try] statement at the top of [_handle_error_response]. *)
Definition error_message_of (response : Response.t) : result pyval :=
  try_except_of
    (error_data <- json response ;;
     error <- py_get error_data "error" (PDict []) ;;
     py_get error "message" (PStr "Unknown error"))
    [JSONDecodeError; KeyError]
    (ret (PStr (str_or (Response.text response) "Unknown error"))).

(** [_handle_error_response(self, response)]: every path ends in a
    [raise]; the result is the exception that leaves the method. *)
Definition _handle_error_response (response : Response.t) : exc :=
  match error_message_of response with
  | inl e => e
  | inr error_message =>
      if Response.status_code response =? 401 then
        new_APIError AuthenticationError
          ("Authentication failed: " ++ py_str error_message) None
      else if Response.status_code response =? 429 then
        new_APIError RateLimitError
          ("Rate limit exceeded: " ++ py_str error_message) None
      else if Response.status_code response >=? 500 then
        new_APIError ServerError
          ("Server error: " ++ py_str error_message) None
      else
        new_APIError APIError
          ("API error: " ++ py_str error_message)
          (Some (Response.status_code response))
  end.

(** What [self.session.request(...)] does: it raises a
    [RequestException], given by its text, or returns a response. *)
Definition session_result : Type := (string + Response.t)%type.

(** [request(self, method, path, params, data, stream)] once the
    session has answered; with [stream] the response object itself is
    returned. *)
Definition request (answer : session_result) (stream : bool)
  : result (pyval + Response.t) :=
  match answer with
  | inl e => raise (new_APIError APIError ("Request failed: " ++ e) None)
  | inr response =>
      if stream then ret (inr response)
      else if Response.status_code response >=? 400 then
        raise (_handle_error_response response)
      else
        match json response with
        | inr v => ret (inl v)
        | inl e =>
            if json_error_is_request_exception
            then raise (new_APIError APIError
                          ("Request failed: " ++ message e) None)
            else raise e
        end
  end.

(** The loop of [stream] over [client.events()]. *)
Fixpoint frames (events : list string) : gen pyval :=
  match events with
  | [] => Stop
  | event_data :: rest =>
      if String.eqb event_data "[DONE]" then Stop
      else
        match json_loads event_data with
        | Some v => Yield v (frames rest)
        | None => Raise (new_APIError APIError
                           ("Invalid JSON in stream: " ++ event_data) None)
        end
  end.

(** [stream(self, method, path, params, data)] *)
Definition stream (answer : session_result) : gen pyval :=
  match request answer true with
  | inl e => Raise e
  | inr (inl v) =>
      Raise (new_exc AttributeError
               ("'" ++ type_name v
                    ++ "' object has no attribute 'status_code'"))
  | inr (inr response) =>
      if Response.status_code response >=? 400 then
        Raise (_handle_error_response response)
      else frames (Response.events response)
  end.

(** An [HTTPTransport] over a session, as a [Transport].  Without
    [stream], [request] never returns the response object (lemma
    [request_returns_json] below), so the second branch is not
    reached. *)
Definition transport
           (session : list Transport.call -> Transport.call -> session_result)
  : Transport.t :=
  {| Transport.request := fun log c =>
       r <- request (session log c) false ;;
       match r with
       | inl v => ret v
       | inr response =>
           raise (new_exc TypeError "a response object is not a mapping")
       end;
     Transport.stream := fun log c => stream (session log c) |}.

End HTTP.
End HTTPTransport.

(* ===================================================================== *)
(** ** intellirouter/chains/api.py *)
(* ===================================================================== *)

Module ChainClient.

(** A value of [Union[ChainStep, Dict[str, Any]]] as the caller passes
    it: an entity, or any other Python value (a mapping among them). *)
Inductive step_arg : Type :=
| step_entity (step : ChainStep.t)
| step_value (step : pyval).

(** The same for [Union[ChainDependency, Dict[str, Any]]]. *)
Inductive dependency_arg : Type :=
| dependency_entity (dependency : ChainDependency.t)
| dependency_value (dependency : pyval).

(** [f"{type(v)}"] *)
Definition class_repr (v : pyval) : string :=
  "<class '" ++ type_name v ++ "'>".

(** [raise ValidationError(f"{prefix}{str(e)}")] in an [except] clause. *)
Definition as_validation_error (prefix : string) (e : exc) : exc :=
  new_exc ValidationError (prefix ++ message e).

Section Client.
Context {pydantic : Pydantic}.
Variable transport : Transport.t.

(** The body of the loop over [steps.items()]. *)
Definition format_step (step : step_arg) : result dict :=
  match step with
  | step_entity s => ret (ChainStep.to_dict s true)
  | step_value (PDict d) =>
      try_except
        (bind (construct ChainStep.parse (PDict d))
              (fun s => ret (ChainStep.to_dict s true)))
        (as_validation_error "Invalid chain step: ")
  | step_value v =>
      raise (new_exc ValidationError
               ("Invalid chain step type: " ++ class_repr v))
  end.

Fixpoint format_steps (steps : list (string * step_arg))
         (formatted_steps : dict) : result dict :=
  match steps with
  | [] => ret formatted_steps
  | (step_id, step) :: rest =>
      bind (format_step step) (fun entry =>
      format_steps rest (dict_set formatted_steps step_id (PDict entry)))
  end.

(** The body of the loop over [dependencies]. *)
Definition format_dependency (dependency : dependency_arg) : result dict :=
  match dependency with
  | dependency_entity d => ret (ChainDependency.to_dict d true)
  | dependency_value (PDict d) =>
      try_except
        (bind (construct ChainDependency.parse (PDict d))
              (fun s => ret (ChainDependency.to_dict s true)))
        (as_validation_error "Invalid chain dependency: ")
  | dependency_value v =>
      raise (new_exc ValidationError
               ("Invalid chain dependency type: " ++ class_repr v))
  end.

Fixpoint format_dependencies (dependencies : list dependency_arg)
         (formatted_dependencies : list pyval) : result (list pyval) :=
  match dependencies with
  | [] => ret formatted_dependencies
  | dependency :: rest =>
      bind (format_dependency dependency) (fun entry =>
      format_dependencies rest (formatted_dependencies ++ [PDict entry]))
  end.

(** [if x is not None: data[key] = x] *)
Definition set_if_given {A} (data : dict) (key : string)
           (x : option A) (to_py : A -> pyval) : dict :=
  match x with
  | Some a => dict_set data key (to_py a)
  | None => data
  end.

(** The four optional blocks that [create] and [update] share, from
    [if description is not None] to [data["config"] = config]: they
    extend the [data] that each method starts with. *)
Definition prepare (data : dict) (description : option string)
           (steps : option (list (string * step_arg)))
           (dependencies : option (list dependency_arg))
           (config : option dict) : result dict :=
  let data := set_if_given data "description" description PStr in
  bind (match steps with
        | Some steps =>
            bind (format_steps steps []) (fun formatted_steps =>
            ret (dict_set data "steps" (PDict formatted_steps)))
        | None => ret data
        end) (fun data =>
  bind (match dependencies with
        | Some dependencies =>
            bind (format_dependencies dependencies [])
                 (fun formatted_dependencies =>
            ret (dict_set data "dependencies"
                          (PList formatted_dependencies)))
        | None => ret data
        end) (fun data =>
  ret (set_if_given data "config" config PDict))).

(** The request data of [create]. *)
Definition create_data (name : string) (description : option string)
           (steps : option (list (string * step_arg)))
           (dependencies : option (list dependency_arg))
           (config : option dict) : result dict :=
  prepare [("name", PStr name)] description steps dependencies config.

(** The request data of [update]. *)
Definition update_data (name description : option string)
           (steps : option (list (string * step_arg)))
           (dependencies : option (list dependency_arg))
           (config : option dict) : result dict :=
  prepare (set_if_given [] "name" name PStr)
          description steps dependencies config.

(** [try: return Chain( **response)  except Exception as e: ...] *)
Definition parse_chain (response : pyval) : result Chain.t :=
  try_except (construct Chain.parse response)
             (as_validation_error "Invalid chain response: ").

Local Open Scope io_scope.

Definition create (name : string) (description : option string)
           (steps : option (list (string * step_arg)))
           (dependencies : option (list dependency_arg))
           (config : option dict) : io Chain.t :=
  data <- lift (create_data name description steps dependencies config) ;;
  response <- transport_request transport "POST" "/v1/chains"
                None (Some data) ;;
  lift (parse_chain response).

Definition get (chain_id : string) : io Chain.t :=
  response <- transport_request transport "GET"
                ("/v1/chains/" ++ chain_id) None None ;;
  lift (parse_chain response).

Definition update (chain_id : string) (name description : option string)
           (steps : option (list (string * step_arg)))
           (dependencies : option (list dependency_arg))
           (config : option dict) : io Chain.t :=
  data <- lift (update_data name description steps dependencies config) ;;
  response <- transport_request transport "PATCH"
                ("/v1/chains/" ++ chain_id) None (Some data) ;;
  lift (parse_chain response).

Definition delete (chain_id : string) : io unit :=
  _ <- transport_request transport "DELETE"
         ("/v1/chains/" ++ chain_id) None None ;;
  io_ret tt.

(** The request data of [run] and [stream]. *)
Definition run_data (inputs : dict) (stream : bool)
           (config : option dict) : dict :=
  set_if_given [("inputs", PDict inputs); ("stream", PBool stream)]
               "config" config PDict.

(** The loop body of [stream]: one frame of the transport becomes one
    event, or the iteration ends with [ValidationError]. *)
Fixpoint events_of (frames : gen pyval) : gen ChainExecutionEvent.t :=
  match frames with
  | Stop => Stop
  | Raise e => Raise e
  | Yield event rest =>
      match try_except
              (construct ChainExecutionEvent.parse event)
              (as_validation_error "Invalid chain execution event: ")
      with
      | inr ev => Yield ev (events_of rest)
      | inl e => Raise e
      end
  end.

Definition stream (chain_id : string) (inputs : dict)
           (config : option dict) : iterator ChainExecutionEvent.t :=
  fun log =>
    let data := run_data inputs true config in
    let (frames, log') :=
      transport_stream transport "POST"
        ("/v1/chains/" ++ chain_id ++ "/run") None (Some data) log in
    (events_of frames, log').

(** [self.stream], which the parameter [stream] of [run] hides. *)
Let self_stream := stream.

Definition run (chain_id : string) (inputs : dict)
           (config : option dict) (stream : bool)
  : io (ChainExecution.t + iterator ChainExecutionEvent.t) :=
  let data := run_data inputs stream config in
  if stream then io_ret (inr (self_stream chain_id inputs config))
  else
    response <- transport_request transport "POST"
                  ("/v1/chains/" ++ chain_id ++ "/run") None (Some data) ;;
    execution <- lift (try_except
                         (construct ChainExecution.parse response)
                         (as_validation_error
                            "Invalid chain execution response: ")) ;;
    io_ret (inl execution).

(** [list] comes last here because its name hides the type of lists
    from what follows it. *)
Definition list (limit offset : option Z) : io (list Chain.t) :=
  let params := set_if_given [] "limit" limit PInt in
  let params := set_if_given params "offset" offset PInt in
  response <- transport_request transport "GET" "/v1/chains"
                (Some params) None ;;
  lift (try_except
          (bind (py_getitem response "chains") (fun chains =>
           bind (py_iter chains) (fun chains =>
           for_each (construct Chain.parse) chains)))
          (as_validation_error "Invalid chain list response: ")).

End Client.
End ChainClient.

(* ===================================================================== *)
(** ** A concrete runtime for the examples *)
(* ===================================================================== *)

Module Examples.

(** Validators that coerce nothing: a value passes when it already has
    the annotated type. *)
Definition exact_str (v : pyval) : option string :=
  match v with PStr s => Some s | _ => None end.

Definition exact_float (v : pyval) : option spec_float :=
  match v with PFloat f => Some f | _ => None end.

Definition exact_dict (v : pyval) : option dict :=
  match v with PDict d => Some d | _ => None end.

Definition exact_list (v : pyval) : option (list pyval) :=
  match v with PList l => Some l | _ => None end.

Definition plain_error_str (e : model_error) : string :=
  match e with
  | field_required loc => loc ++ ": field required"
  | field_invalid loc => loc ++ ": value is not valid"
  | not_a_mapping v =>
      "argument after ** must be a mapping, not " ++ type_name v
  end.

#[export] Instance exact_validators : Pydantic :=
  {| validate_str := exact_str;
     validate_float := exact_float;
     validate_dict := exact_dict;
     validate_list := exact_list;
     error_str := plain_error_str;
     validate_str_str := fun s => eq_refl;
     validate_float_float := fun f => eq_refl;
     validate_dict_dict := fun d => eq_refl;
     validate_list_list := fun l => eq_refl |}.

(** The double quote, which a string literal of this file cannot hold. *)
Definition dq : string := String (ascii_of_nat 34) EmptyString.

Definition quoted (s : string) : string := dq ++ s ++ dq.

(** Three server-sent frames and an error body, as text. *)
Definition step_completed_text : string :=
  "{" ++ quoted "event_type" ++ ": " ++ quoted "step_completed" ++ ", "
      ++ quoted "chain_id" ++ ": " ++ quoted "c1" ++ ", "
      ++ quoted "step_id" ++ ": " ++ quoted "step1" ++ "}".

Definition chain_completed_text : string :=
  "{" ++ quoted "event_type" ++ ": " ++ quoted "chain_completed" ++ ", "
      ++ quoted "chain_id" ++ ": " ++ quoted "c1" ++ ", "
      ++ quoted "data" ++ ": {" ++ quoted "outputs" ++ ": {"
      ++ quoted "x" ++ ": 1}}}".

Definition no_event_type_text : string :=
  "{" ++ quoted "chain_id" ++ ": " ++ quoted "c1" ++ "}".

Definition error_body_text : string :=
  "{" ++ quoted "error" ++ ": " ++ quoted "Invalid API key" ++ "}".

Definition step_completed_frame : pyval :=
  PDict [ ("event_type", PStr "step_completed");
          ("chain_id", PStr "c1");
          ("step_id", PStr "step1") ].

Definition chain_completed_frame : pyval :=
  PDict [ ("event_type", PStr "chain_completed");
          ("chain_id", PStr "c1");
          ("data", PDict [ ("outputs", PDict [ ("x", PInt 1) ]) ]) ].

(** The documents that the decoder of the examples knows, with the value
    [json.loads] gives for each; any other text counts as malformed. *)
Definition documents : list (string * pyval) :=
  [ (step_completed_text, step_completed_frame);
    (chain_completed_text, chain_completed_frame);
    (no_event_type_text, PDict [ ("chain_id", PStr "c1") ]);
    (error_body_text, PDict [ ("error", PStr "Invalid API key") ]);
    ("{}", PDict []);
    ("[]", PList []);
    ("null", PNone) ].

(** [str] on the values the examples format; a float, a list or a dict is
    shown by the name of its type. *)
Definition show (v : pyval) : string :=
  match v with
  | PStr s => s
  | PInt z => NilZero.string_of_int (Z.to_int z)
  | PNone => "None"
  | PBool true => "True"
  | PBool false => "False"
  | _ => "<" ++ type_name v ++ ">"
  end.

#[export] Instance table_runtime : PythonRuntime :=
  {| py_str := show;
     json_loads := dict_lookup documents;
     json_error_str := fun _ => "Expecting value";
     json_error_is_request_exception := true;
     py_str_str := fun s => eq_refl |}.

(** A transport that answers every request with the same value and
    streams the same frames. *)
Definition constant_transport (response : pyval) (frames : gen pyval)
  : Transport.t :=
  {| Transport.request := fun _ _ => inr response;
     Transport.stream := fun _ _ => frames |}.

(** A session that answers every call with the same response. *)
Definition constant_session (response : Response.t)
  : list Transport.call -> Transport.call -> HTTPTransport.session_result :=
  fun _ _ => inr response.

End Examples.

(* ===================================================================== *)
(** ** sdk/python/config/settings.py *)
(* ===================================================================== *)

(** [bool(v)]: what [not v] and [v or w] test. *)
Definition truthy (v : pyval) : bool :=
  match v with
  | PNone => false
  | PBool b => b
  | PInt z => negb (z =? 0)%Z
  | PFloat (S754_zero _) => false
  | PFloat _ => true
  | PStr EmptyString => false
  | PStr _ => true
  | PList [] => false
  | PList _ => true
  | PDict [] => false
  | PDict _ => true
  end.

(** [k in v] for a string [k]: a key of a [dict], an element of a
    [list], a substring of a [str]. *)
Definition py_contains (v : pyval) (k : string) : result bool :=
  match v with
  | PDict d =>
      ret (match dict_lookup d k with Some _ => true | None => false end)
  | PList l =>
      ret (existsb (fun x => match x with
                             | PStr s => String.eqb s k
                             | _ => false
                             end) l)
  | PStr s =>
      ret (match index 0 k s with Some _ => true | None => false end)
  | _ => raise (new_exc TypeError
                  ("argument of type '" ++ type_name v
                                        ++ "' is not iterable"))
  end.

(** [v.items()] *)
Definition py_items (v : pyval) : result dict :=
  match v with
  | PDict d => ret d
  | _ => raise (new_exc AttributeError
                  ("'" ++ type_name v ++ "' object has no attribute 'items'"))
  end.

(** What the configuration reads from the process it runs in: the
    environment variables, the home directory, the configuration file a
    path leads to, and the built-in [int] on a string ([60] and [3] for
    the two default texts). *)
Inductive config_file : Type :=
| file_absent
| file_unreadable (e : exc)
| file_content (config_data : pyval).

Class System : Type := {
  environ : list (string * string);
  home : string;
  read_config : string -> config_file;
  int_of_str : string -> result Z;
  int_of_str_60 : int_of_str "60" = inr 60%Z;
  int_of_str_3 : int_of_str "3" = inr 3%Z
}.

(** [os.environ.get(key, default)] *)
Fixpoint getenv (env : list (string * string)) (key default : string)
  : string :=
  match env with
  | [] => default
  | (k, v) :: rest => if String.eqb key k then v else getenv rest key default
  end.

Module Configuration.

Record t : Type := mk {
  api_key : pyval;
  base_url : pyval;
  timeout : pyval;
  max_retries : pyval;
  _settings : dict
}.

Definition set_api_key (self : t) (v : pyval) : t :=
  mk v (base_url self) (timeout self) (max_retries self) (_settings self).

Definition set_base_url (self : t) (v : pyval) : t :=
  mk (api_key self) v (timeout self) (max_retries self) (_settings self).

Definition set_timeout (self : t) (v : pyval) : t :=
  mk (api_key self) (base_url self) v (max_retries self) (_settings self).

Definition set_max_retries (self : t) (v : pyval) : t :=
  mk (api_key self) (base_url self) (timeout self) v (_settings self).

Definition set_settings (self : t) (settings : dict) : t :=
  mk (api_key self) (base_url self) (timeout self) (max_retries self) settings.

(** [x or y] for an optional string argument. *)
Definition str_arg_or (x : option string) (y : string) : string :=
  match x with
  | Some s => str_or s y
  | None => y
  end.

(** [x or int(text)] for an optional integer argument: [int] runs only
    when [x] is [None] or [0]. *)
Definition int_arg_or {system : System} (x : option Z) (text : string)
  : result Z :=
  match x with
  | Some z => if (z =? 0)%Z then int_of_str text else ret z
  | None => int_of_str text
  end.

(** The names of the four attributes. *)
Definition attribute_names : list string :=
  ["api_key"; "base_url"; "timeout"; "max_retries"].

Section File.
Context {system : System}.

(** [if name in config_data and not self.name: self.name = config_data[name]] *)
Definition update_from_file (name : string) (get : t -> pyval)
           (set : t -> pyval -> t) (config_data : pyval) (self : t)
  : result t :=
  bind (py_contains config_data name) (fun present =>
  if present && negb (truthy (get self))
  then bind (py_getitem config_data name) (fun v => ret (set self v))
  else ret self).

(** The loop over [config_data.items()]. *)
Fixpoint update_settings (items : dict) (settings : dict) : dict :=
  match items with
  | [] => settings
  | (key, value) :: rest =>
      if existsb (String.eqb key) attribute_names
      then update_settings rest settings
      else update_settings rest (dict_set settings key value)
  end.

Definition update_settings_from_file (config_data : pyval) (self : t)
  : result t :=
  bind (py_items config_data) (fun items =>
  ret (set_settings self (update_settings items (_settings self)))).

(** The statements of a [try] block one after the other; the first that
    raises ends the block, and what the statements before it assigned
    stays. *)
Fixpoint run_try (statements : list (t -> result t)) (self : t)
  : t * option exc :=
  match statements with
  | [] => (self, None)
  | statement :: rest =>
      match statement self with
      | inl e => (self, Some e)
      | inr self' => run_try rest self'
      end
  end.

(** The path that [_load_from_file] reads. *)
Definition config_file_path : string :=
  getenv environ "INTELLIROUTER_CONFIG_FILE"
         (home ++ "/.intellirouter/config.json").

(** [_load_from_file(self)]; the [except] clause prints the error and
    goes on, so the error is not part of the result. *)
Definition _load_from_file (self : t) : t :=
  match read_config config_file_path with
  | file_absent => self
  | file_unreadable _ => self
  | file_content config_data =>
      fst (run_try
             [ update_from_file "api_key" api_key set_api_key config_data;
               update_from_file "base_url" base_url set_base_url config_data;
               update_from_file "timeout" timeout set_timeout config_data;
               update_from_file "max_retries" max_retries set_max_retries
                                config_data;
               update_settings_from_file config_data ]
             self)
  end.

(** [Configuration(api_key, base_url, timeout, max_retries, **kwargs)] *)
Definition __init__ (api_key base_url : option string)
           (timeout max_retries : option Z) (kwargs : dict) : result t :=
  let api_key := str_arg_or api_key (getenv environ "INTELLIROUTER_API_KEY" "") in
  let base_url :=
    str_arg_or base_url
      (getenv environ "INTELLIROUTER_BASE_URL" "http://localhost:8000") in
  bind (int_arg_or timeout (getenv environ "INTELLIROUTER_TIMEOUT" "60"))
       (fun timeout =>
  bind (int_arg_or max_retries (getenv environ "INTELLIROUTER_MAX_RETRIES" "3"))
       (fun max_retries =>
  ret (_load_from_file
         (mk (PStr api_key) (PStr base_url) (PInt timeout) (PInt max_retries)
             kwargs)))).

End File.

(** [get(self, key, default)] *)
Definition get (self : t) (key : string) (default : pyval) : pyval :=
  dict_get (_settings self) key default.

(** [set(self, key, value)] *)
Definition set (self : t) (key : string) (value : pyval) : t :=
  set_settings self (dict_set (_settings self) key value).

(** [{..., **self._settings}]: a key that is already there keeps its
    place and takes the later value. *)
Fixpoint unpack_into (d : dict) (settings : dict) : dict :=
  match settings with
  | [] => d
  | (k, v) :: rest => unpack_into (dict_set d k v) rest
  end.

(** [to_dict(self)] *)
Definition to_dict (self : t) : dict :=
  unpack_into
    [ ("api_key", api_key self);
      ("base_url", base_url self);
      ("timeout", timeout self);
      ("max_retries", max_retries self) ]
    (_settings self).

End Configuration.

(* ===================================================================== *)
(** ** sdk/python/client.py *)
(* ===================================================================== *)

Module IntelliRouter.

(** The attributes that [__init__] sets; the three sub-clients start as
    [None] and are made from [transport] on first use. *)
Record t : Type := mk {
  config : Configuration.t;
  transport : Transport.t
}.

Definition api_key_required : string :=
  "API key is required. Provide it as an argument, set the INTELLIROUTER_API_KEY "
  ++ "environment variable, or include it in your configuration file.".

(** [IntelliRouter(api_key, base_url, config, transport)].  An instance of
    [Configuration] or of a transport is always truthy, so [or] takes the
    argument whenever one is given.  [http_transport] stands for
    [HTTPTransport(self.config)]. *)
Definition __init__ {system : System}
           (http_transport : Configuration.t -> Transport.t)
           (api_key base_url : option string)
           (config : option Configuration.t)
           (transport : option Transport.t) : result t :=
  bind (match config with
        | Some config => ret config
        | None => Configuration.__init__ api_key base_url None None []
        end) (fun config =>
  if negb (truthy (Configuration.api_key config))
  then raise (new_exc ConfigurationError api_key_required)
  else ret (mk config
               (match transport with
                | Some transport => transport
                | None => http_transport config
                end))).

End IntelliRouter.

(** A system for the examples: two environment variables, and one
    configuration file at the default path. *)
Module SystemExamples.

Definition digits_60_3 (s : string) : result Z :=
  if String.eqb s "60" then inr 60%Z
  else if String.eqb s "3" then inr 3%Z
  else if String.eqb s "30" then inr 30%Z
  else inl (new_exc ValueError
              ("invalid literal for int() with base 10: '" ++ s ++ "'")).

Definition file_data : pyval :=
  PDict [ ("api_key", PStr "file-key");
          ("base_url", PStr "http://file.example");
          ("region", PStr "eu") ].

#[export] Instance bare_system : System :=
  {| environ := [];
     home := "/home/user";
     read_config := fun path =>
       if String.eqb path "/home/user/.intellirouter/config.json"
       then file_content file_data else file_absent;
     int_of_str := digits_60_3;
     int_of_str_60 := eq_refl;
     int_of_str_3 := eq_refl |}.

#[export] Instance env_system : System :=
  {| environ := [ ("INTELLIROUTER_API_KEY", "env-key");
                  ("INTELLIROUTER_TIMEOUT", "30") ];
     home := "/home/user";
     read_config := fun path =>
       if String.eqb path "/home/user/.intellirouter/config.json"
       then file_content (PStr "api_key") else file_absent;
     int_of_str := digits_60_3;
     int_of_str_60 := eq_refl;
     int_of_str_3 := eq_refl |}.

#[export] Instance misconfigured_system : System :=
  {| environ := [ ("INTELLIROUTER_TIMEOUT", "soon") ];
     home := "/home/user";
     read_config := fun _ => file_absent;
     int_of_str := digits_60_3;
     int_of_str_60 := eq_refl;
     int_of_str_3 := eq_refl |}.

End SystemExamples.

(* ===================================================================== *)
(** ** The vocabulary of the properties *)
(* ===================================================================== *)

(** The class that the [if]/[elif] chain of the handler selects. *)
Definition class_for_status (status : Z) : exc_class :=
  if (status =? 401)%Z then AuthenticationError
  else if (status =? 429)%Z then RateLimitError
  else if (status >=? 500)%Z then ServerError
  else APIError.

(** A computation that raises. *)
Definition fails {E A} (r : E + A) : Prop := exists e, r = inl e.

Definition failsb {E A} (r : E + A) : bool :=
  match r with
  | inl _ => true
  | inr _ => false
  end.

Module Import ClientData.

(** An element of [steps] that the loop of [create] refuses: a mapping
    that [ChainStep] does not accept, or a value that is neither an
    entity nor a mapping. *)
Definition invalid_step {pydantic : Pydantic} (step : ChainClient.step_arg) : bool :=
  match step with
  | ChainClient.step_entity _ => false
  | ChainClient.step_value (PDict kwargs) => failsb (ChainStep.parse kwargs)
  | ChainClient.step_value _ => true
  end.

Definition invalid_dependency {pydantic : Pydantic}
           (dependency : ChainClient.dependency_arg) : bool :=
  match dependency with
  | ChainClient.dependency_entity _ => false
  | ChainClient.dependency_value (PDict kwargs) =>
      failsb (ChainDependency.parse kwargs)
  | ChainClient.dependency_value _ => true
  end.

(** Some element of the [steps] or of the [dependencies] argument is
    invalid; an argument left out has no element. *)
Definition has_invalid_element {pydantic : Pydantic}
           (steps : option (list (string * ChainClient.step_arg)))
           (dependencies : option (list ChainClient.dependency_arg)) : bool :=
  match steps with
  | Some steps => existsb (fun kv => invalid_step (snd kv)) steps
  | None => false
  end
  ||
  match dependencies with
  | Some dependencies => existsb invalid_dependency dependencies
  | None => false
  end.

(** The top-level key that a supplied argument contributes. *)
Definition given {A} (key : string) (x : option A) : list string :=
  match x with
  | Some _ => [key]
  | None => []
  end.

(** An entity and a mapping with the same content: the mapping is one
    that the model class reads as the entity. *)
Inductive same_step {pydantic : Pydantic} : ChainClient.step_arg -> ChainClient.step_arg -> Prop :=
| same_step_refl step : same_step step step
| same_step_parsed kwargs s :
    ChainStep.parse kwargs = inr s ->
    same_step (ChainClient.step_entity s) (ChainClient.step_value (PDict kwargs)).

Inductive same_dependency {pydantic : Pydantic}
  : ChainClient.dependency_arg -> ChainClient.dependency_arg -> Prop :=
| same_dependency_refl dependency : same_dependency dependency dependency
| same_dependency_parsed kwargs d :
    ChainDependency.parse kwargs = inr d ->
    same_dependency (ChainClient.dependency_entity d) (ChainClient.dependency_value (PDict kwargs)).

Definition is_validation_error (e : exc) : Prop :=
  exists msg, e = new_exc ValidationError msg.

End ClientData.

(** What the specification says of a serialized step: its payload holds
    only keys that the caller set. *)
Definition payload_has_only_what_was_set {pydantic : Pydantic}
           (kwargs : dict) : Prop :=
  forall payload,
    ChainClient.format_step (ChainClient.step_value (PDict kwargs))
    = inr payload ->
    forall k, In k (dict_keys payload) -> In k (dict_keys kwargs).

Module Import Streaming.

(** The call that [stream] makes. *)
Definition stream_call (chain_id : string) (inputs : dict)
           (config : option dict) : Transport.call :=
  Transport.mk_call Transport.op_stream "POST"
    ("/v1/chains/" ++ chain_id ++ "/run") None
    (Some (ChainClient.run_data inputs true config)).

(** A frame that the event class reads as [ev]. *)
Definition frame_of {pydantic : Pydantic} (frame : pyval)
           (ev : ChainExecutionEvent.t) : Prop :=
  construct ChainExecutionEvent.parse frame = inr ev.

(** The [data] of a server-sent event that is not the end sentinel,
    decodes as JSON, and is read as [ev]. *)
Definition event_text_of {pydantic : Pydantic} {runtime : PythonRuntime}
           (text : string) (ev : ChainExecutionEvent.t) : Prop :=
  text <> "[DONE]" /\
  exists frame, json_loads text = Some frame /\ frame_of frame ev.

End Streaming.

(** What one step of the argument becomes in the payload, and what one
    dependency becomes. *)
Definition step_entry {pydantic : Pydantic}
           (kv : string * ChainClient.step_arg)
           (out : string * pyval) : Prop :=
  fst out = fst kv /\
  exists entry,
    ChainClient.format_step (snd kv) = inr entry /\ snd out = PDict entry.

Definition dependency_entry {pydantic : Pydantic}
           (dependency : ChainClient.dependency_arg)
           (out : pyval) : Prop :=
  exists entry,
    ChainClient.format_dependency dependency = inr entry /\ out = PDict entry.

(** The [data] of a server-sent event that is not the end sentinel and
    decodes as JSON to [frame]. *)
Definition decodes {runtime : PythonRuntime} (text : string) (frame : pyval)
  : Prop :=
  text <> "[DONE]" /\ json_loads text = Some frame.

(** An error body from which the handler can read a message: text that is
    not JSON, or a JSON object whose ["error"] is absent or an object. *)
Definition readable_error_body {runtime : PythonRuntime}
           (response : Response.t) : Prop :=
  json_loads (Response.text response) = None
  \/ exists d,
       json_loads (Response.text response) = Some (PDict d)
       /\ (dict_lookup d "error" = None
           \/ exists e, dict_lookup d "error" = Some (PDict e)).

(** The text that each branch of the handler puts before the message. *)
Definition message_prefix (status : Z) : string :=
  if (status =? 401)%Z then "Authentication failed: "
  else if (status =? 429)%Z then "Rate limit exceeded: "
  else if (status >=? 500)%Z then "Server error: "
  else "API error: ".

(** [x or d] for an optional integer argument and an integer [d]. *)
Definition int_or (x : option Z) (d : Z) : Z :=
  match x with
  | Some z => if (z =? 0)%Z then d else z
  | None => d
  end.

(** The payload that serializing gives a step: the
    [.dict(exclude_none=True)] of the entity, the entity being the
    argument itself or what [ChainStep] reads from the mapping. *)
Inductive serialized_step {pydantic : Pydantic}
  : ChainClient.step_arg -> dict -> Prop :=
| serialized_step_entity s :
    serialized_step (ChainClient.step_entity s) (ChainStep.to_dict s true)
| serialized_step_mapping kwargs s :
    ChainStep.parse kwargs = inr s ->
    serialized_step (ChainClient.step_value (PDict kwargs))
                    (ChainStep.to_dict s true).

Inductive serialized_dependency {pydantic : Pydantic}
  : ChainClient.dependency_arg -> dict -> Prop :=
| serialized_dependency_entity d :
    serialized_dependency (ChainClient.dependency_entity d)
                          (ChainDependency.to_dict d true)
| serialized_dependency_mapping kwargs d :
    ChainDependency.parse kwargs = inr d ->
    serialized_dependency (ChainClient.dependency_value (PDict kwargs))
                          (ChainDependency.to_dict d true).

(** The value of the ["steps"] key of a request body: none when the
    argument is left out, else the mapping from each key of the argument,
    in order, to the payload of its step. *)
Definition serialized_steps {pydantic : Pydantic}
           (steps : option (list (string * ChainClient.step_arg)))
           (value : option pyval) : Prop :=
  match steps with
  | None => value = None
  | Some steps =>
      exists formatted,
        value = Some (PDict formatted)
        /\ Forall2 (fun kv out =>
                      fst out = fst kv
                      /\ exists payload,
                           serialized_step (snd kv) payload
                           /\ snd out = PDict payload)
                   steps formatted
  end.

(** The value of the ["dependencies"] key: none when the argument is left
    out, else the list of the payloads of the dependencies, in order. *)
Definition serialized_dependencies {pydantic : Pydantic}
           (dependencies : option (list ChainClient.dependency_arg))
           (value : option pyval) : Prop :=
  match dependencies with
  | None => value = None
  | Some dependencies =>
      exists formatted,
        value = Some (PList formatted)
        /\ Forall2 (fun dependency out =>
                      exists payload,
                        serialized_dependency dependency payload
                        /\ out = PDict payload)
                   dependencies formatted
  end.

(** One key of a body, present when its value is. *)
Definition entry (key : string) (value : option pyval) : dict :=
  match value with
  | Some v => [(key, v)]
  | None => []
  end.

(** A request body that holds, after the entries of [first], exactly what
    was supplied: the description, the payloads of the steps and of the
    dependencies, and the configuration, each under its key and only when
    its argument was given. *)
Definition supplied_body {pydantic : Pydantic} (first : dict)
           (description : option string)
           (steps : option (list (string * ChainClient.step_arg)))
           (dependencies : option (list ChainClient.dependency_arg))
           (config : option dict) (data : dict) : Prop :=
  exists steps_value dependencies_value,
    serialized_steps steps steps_value
    /\ serialized_dependencies dependencies dependencies_value
    /\ data = first
              ++ entry "description" (option_map PStr description)
              ++ entry "steps" steps_value
              ++ entry "dependencies" dependencies_value
              ++ entry "config" (option_map PDict config).

(** The keys of a [steps] argument are distinct, as the keys of a Python
    [dict] are. *)
Definition unique_keys
           (steps : option (list (string * ChainClient.step_arg))) : Prop :=
  match steps with
  | Some steps => NoDup (map fst steps)
  | None => True
  end.

(** Two [steps] arguments, and two [dependencies] arguments, that differ
    only in the form of their elements, entity or mapping. *)
Definition same_steps {pydantic : Pydantic}
           (a b : option (list (string * ChainClient.step_arg))) : Prop :=
  match a, b with
  | None, None => True
  | Some a, Some b =>
      Forall2 (fun x y => fst x = fst y /\ same_step (snd x) (snd y)) a b
  | _, _ => False
  end.

Definition same_dependencies {pydantic : Pydantic}
           (a b : option (list ChainClient.dependency_arg)) : Prop :=
  match a, b with
  | None, None => True
  | Some a, Some b => Forall2 same_dependency a b
  | _, _ => False
  end.

(* ===================================================================== *)
(** * Properties *)
(* ===================================================================== *)

(** ** The error taxonomy and the error handler of the transport *)

Lemma taxonomy_hierarchy :
  issubclass AuthenticationError APIError = true /\
  issubclass RateLimitError APIError = true /\
  issubclass ServerError APIError = true /\
  issubclass APIError IntelliRouterError = true /\
  issubclass ValidationError IntelliRouterError = true /\
  issubclass ValidationError APIError = false /\
  issubclass AttributeError IntelliRouterError = false.
Proof. repeat split; reflexivity. Qed.

Section ErrorHandler.
Context {runtime : PythonRuntime}.
Import HTTPTransport.

Lemma request_returns_json (answer : session_result) response :
  request answer false <> inr (inr response).
Proof.
  unfold request. destruct answer as [e | r]; [discriminate |].
  destruct (Response.status_code r >=? 400)%Z; [discriminate |].
  destruct (json r); [| discriminate].
  destruct json_error_is_request_exception; discriminate.
Qed.

(** A body that is not JSON: the text of the body is the message. *)
Lemma error_message_of_text response :
  json_loads (Response.text response) = None ->
  error_message_of response
  = inr (PStr (str_or (Response.text response) "Unknown error")).
Proof.
  intros Hj. unfold error_message_of, json. rewrite Hj. reflexivity.
Qed.

(** A JSON object without ["error"]. *)
Lemma error_message_of_no_error response d :
  json_loads (Response.text response) = Some (PDict d) ->
  dict_lookup d "error" = None ->
  error_message_of response = inr (PStr "Unknown error").
Proof.
  intros Hj Hd. unfold error_message_of, json. rewrite Hj. cbn.
  unfold dict_get. rewrite Hd. reflexivity.
Qed.

(** A JSON object whose ["error"] is an object. *)
Lemma error_message_of_object response d e :
  json_loads (Response.text response) = Some (PDict d) ->
  dict_lookup d "error" = Some (PDict e) ->
  error_message_of response
  = inr (dict_get e "message" (PStr "Unknown error")).
Proof.
  intros Hj Hd. unfold error_message_of, json. rewrite Hj. cbn.
  unfold dict_get at 1. rewrite Hd. reflexivity.
Qed.

(** Once the message has been read, the status alone selects the class,
    and the class is inside the taxonomy. *)
Lemma handler_selects_class response m :
  error_message_of response = inr m ->
  exc_type (_handle_error_response response)
  = class_for_status (Response.status_code response)
  /\ isinstance (_handle_error_response response) APIError = true
  /\ isinstance (_handle_error_response response) IntelliRouterError = true.
Proof.
  intros Hm. unfold _handle_error_response, class_for_status. rewrite Hm.
  destruct (Response.status_code response =? 401)%Z; [repeat split |].
  destruct (Response.status_code response =? 429)%Z; [repeat split |].
  destruct (Response.status_code response >=? 500)%Z; repeat split.
Qed.

(** What an error status makes [request] raise. *)
Lemma request_raises_handler response :
  (Response.status_code response >= 400)%Z ->
  request (inr response) false = inl (_handle_error_response response).
Proof.
  intros Hs. unfold request.
  destruct (Response.status_code response >=? 400)%Z eqn:E; [reflexivity |].
  rewrite Z.geb_leb in E. apply Z.leb_gt in E. lia.
Qed.

(** When ["error"] holds anything but an object, the second [.get] of
    the handler fails, and no [except] clause names that failure. *)
Lemma error_message_of_escapes response d v :
  json_loads (Response.text response) = Some (PDict d) ->
  dict_lookup d "error" = Some v ->
  (forall e, v <> PDict e) ->
  error_message_of response
  = inl (new_exc AttributeError
           ("'" ++ type_name v ++ "' object has no attribute 'get'")).
Proof.
  intros Hj Hd Hv. unfold error_message_of, json. rewrite Hj. cbn.
  unfold dict_get at 1. rewrite Hd.
  destruct v; try reflexivity. exfalso. eapply Hv. reflexivity.
Qed.

End ErrorHandler.

(** C2, on the code: an error body whose ["error"] member is a string,
    as in [{"error": "Invalid API key"}], makes [request] raise
    [AttributeError] whatever the status is; the exception is outside the
    taxonomy, so neither [AuthenticationError] nor any other [APIError]
    reaches the caller. *)
Theorem request_error_body_with_string_error {runtime : PythonRuntime}
        (response : Response.t) (d : dict) (msg : string) :
  (Response.status_code response >= 400)%Z ->
  json_loads (Response.text response) = Some (PDict d) ->
  dict_lookup d "error" = Some (PStr msg) ->
  exists e,
    HTTPTransport.request (inr response) false = inl e /\
    exc_type e = AttributeError /\
    message e = "'str' object has no attribute 'get'" /\
    isinstance e APIError = false /\
    isinstance e IntelliRouterError = false.
Proof.
  intros Hs Hj Hd.
  exists (new_exc AttributeError "'str' object has no attribute 'get'").
  rewrite (request_raises_handler _ Hs).
  unfold HTTPTransport._handle_error_response.
  rewrite (error_message_of_escapes response Hj Hd) by discriminate.
  repeat split.
Qed.

Lemma request_error_body_with_string_error_witness :
  exists e,
    HTTPTransport.request (runtime := Examples.table_runtime)
      (inr (Response.mk 401 Examples.error_body_text [])) false = inl e /\
    exc_type e = AttributeError /\
    message e = "'str' object has no attribute 'get'" /\
    isinstance e APIError = false /\
    isinstance e IntelliRouterError = false.
Proof.
  apply (@request_error_body_with_string_error Examples.table_runtime
           (Response.mk 401 Examples.error_body_text [])
           [("error", PStr "Invalid API key")] "Invalid API key").
  - simpl. lia.
  - reflexivity.
  - reflexivity.
Defined.

(** C10: an [AuthenticationError], [RateLimitError] or [ServerError] that
    the error handler raises has [status_code = None]; the plain
    [APIError] of the last branch is the only one that carries the status
    of the response. *)
Theorem specialized_errors_carry_no_status {runtime : PythonRuntime}
        (response : Response.t) :
  (In (exc_type (HTTPTransport._handle_error_response response))
      [AuthenticationError; RateLimitError; ServerError] ->
   status_code (HTTPTransport._handle_error_response response) = None)
  /\
  (exc_type (HTTPTransport._handle_error_response response) = APIError ->
   status_code (HTTPTransport._handle_error_response response)
   = Some (Response.status_code response)).
Proof.
  unfold HTTPTransport._handle_error_response.
  destruct (HTTPTransport.error_message_of response) as [e | m] eqn:Em.
  - (* the message could not be read: the exception that escapes is the
       [AttributeError] of [py_get] *)
    assert (He : exc_type e = AttributeError /\ status_code e = None).
    { unfold HTTPTransport.error_message_of, HTTPTransport.json in Em.
      destruct (json_loads (Response.text response)) as [v |];
        [| discriminate].
      cbn in Em.
      destruct v; cbn in Em; try (injection Em as <-; split; reflexivity).
      destruct (dict_get d "error" (PDict [])); cbn in Em;
        try (injection Em as <-; split; reflexivity).
      discriminate. }
    destruct He as [Ht Hs]. split.
    + intros _. exact Hs.
    + rewrite Ht. discriminate.
  - destruct (Response.status_code response =? 401)%Z.
    { split; [reflexivity | discriminate]. }
    destruct (Response.status_code response =? 429)%Z.
    { split; [reflexivity | discriminate]. }
    destruct (Response.status_code response >=? 500)%Z.
    { split; [reflexivity | discriminate]. }
    split; [| reflexivity].
    cbn. intros [F | [F | [F | []]]]; discriminate.
Qed.

Lemma specialized_errors_carry_no_status_witness :
  let handler :=
    HTTPTransport._handle_error_response (runtime := Examples.table_runtime) in
  exc_type (handler (Response.mk 429 "slow down" [])) = RateLimitError /\
  status_code (handler (Response.mk 429 "slow down" [])) = None /\
  status_code (handler (Response.mk 404 "{}" [])) = Some 404%Z.
Proof.
  split; [reflexivity |]. split.
  - apply (proj1 (@specialized_errors_carry_no_status Examples.table_runtime
                    (Response.mk 429 "slow down" []))).
    simpl. right. left. reflexivity.
  - apply (proj2 (@specialized_errors_carry_no_status Examples.table_runtime
                    (Response.mk 404 "{}" []))).
    reflexivity.
Defined.

(** ** The entities *)

Lemma failsb_fails {E A} (r : E + A) : failsb r = true <-> fails r.
Proof.
  destruct r as [e | a]; cbn; split; intros Hf;
    try discriminate; try (exists e; reflexivity); try reflexivity.
  destruct Hf as [e He]. discriminate.
Qed.

Section Entities.
Context {pydantic : Pydantic}.

Lemma required_absent {A} kwargs loc (validator : pyval -> option A) :
  dict_lookup kwargs loc = None ->
  required kwargs loc validator = inl (field_required loc).
Proof. intros Hl. unfold required. rewrite Hl. reflexivity. Qed.

Lemma lookup_choice_spec {A} (choices : list (string * A)) s a :
  lookup_choice choices s = Some a -> In s (map fst choices).
Proof.
  induction choices as [| [name x] rest IH]; cbn; [discriminate |].
  destruct (String.eqb_spec s name) as [-> | _]; [left; reflexivity |].
  intros Hr. right. exact (IH Hr).
Qed.

(** A value outside the closed set of a [Literal] is refused. *)
Lemma validate_literal_outside {A} (choices : list (string * A)) s :
  ~ In s (map fst choices) ->
  validate_literal choices (PStr s) = None.
Proof.
  intros Hn. cbn. destruct (lookup_choice choices s) eqn:E; [| reflexivity].
  exfalso. apply Hn. eapply lookup_choice_spec. exact E.
Qed.

(** A step mapping without ["id"] is refused. *)
Lemma step_without_id kwargs :
  dict_lookup kwargs "id" = None -> fails (ChainStep.parse kwargs).
Proof.
  intros Hl. exists (field_required "id").
  unfold ChainStep.parse. rewrite required_absent by exact Hl. reflexivity.
Qed.

(** A step mapping without ["type"] is refused. *)
Lemma step_without_type kwargs :
  dict_lookup kwargs "type" = None -> fails (ChainStep.parse kwargs).
Proof.
  intros Hl. unfold ChainStep.parse.
  destruct (required kwargs "id" validate_str) as [e | i];
    [exists e; reflexivity |].
  exists (field_required "type"). cbn.
  rewrite required_absent by exact Hl. reflexivity.
Qed.

(** A dependency whose ["type"] is a string other than the two of the
    [Literal] is refused. *)
Lemma dependency_with_unknown_type kwargs ty :
  dict_lookup kwargs "type" = Some (PStr ty) ->
  ty <> "simple" -> ty <> "conditional" ->
  fails (ChainDependency.parse kwargs).
Proof.
  intros Hl H1 H2. unfold ChainDependency.parse.
  destruct (required kwargs "dependent_step" validate_str) as [e | a];
    [exists e; reflexivity |].
  destruct (required kwargs "required_step" validate_str) as [e | b];
    [exists e; reflexivity |].
  exists (field_invalid "type"). cbn. unfold defaulted. rewrite Hl.
  rewrite validate_literal_outside; [reflexivity |].
  cbn. intros [F | [F | []]]; congruence.
Qed.

(** An event frame without ["event_type"] is refused. *)
Lemma event_without_event_type kwargs :
  dict_lookup kwargs "event_type" = None ->
  fails (ChainExecutionEvent.parse kwargs).
Proof.
  intros Hl. exists (field_required "event_type").
  unfold ChainExecutionEvent.parse.
  rewrite required_absent by exact Hl. reflexivity.
Qed.

(** An event frame whose ["event_type"] is outside the five of the
    [Literal] is refused. *)
Lemma event_with_unknown_event_type kwargs ty :
  dict_lookup kwargs "event_type" = Some (PStr ty) ->
  ~ In ty (map fst ChainExecutionEvent.event_type_choices) ->
  fails (ChainExecutionEvent.parse kwargs).
Proof.
  intros Hl Hn. exists (field_invalid "event_type").
  unfold ChainExecutionEvent.parse, required. rewrite Hl.
  rewrite validate_literal_outside by exact Hn. reflexivity.
Qed.

(** The keys of a serialized step. *)
Lemma step_to_dict_keys (s : ChainStep.t) (k : string) :
  In k (dict_keys (ChainStep.to_dict s true)) <->
  In k ["id"; "type"; "inputs"; "outputs"; "config"]
  \/ (k = "name" /\ ChainStep.name s <> None)
  \/ (k = "description" /\ ChainStep.description s <> None).
Proof.
  destruct s as [i t n d ins outs cfg]. unfold ChainStep.to_dict.
  destruct n, d; cbn; intuition congruence.
Qed.

(** The keys of a serialized dependency. *)
Lemma dependency_to_dict_keys (d : ChainDependency.t) (k : string) :
  In k (dict_keys (ChainDependency.to_dict d true)) <->
  In k ["dependent_step"; "required_step"; "type"]
  \/ (k = "condition" /\ ChainDependency.condition d <> None).
Proof.
  destruct d as [a b ty c]. unfold ChainDependency.to_dict.
  destruct c; cbn; intuition congruence.
Qed.

(** An explicit [None] for an [Optional] field is read like a missing
    key. *)
Lemma step_explicit_none_name kwargs :
  dict_lookup kwargs "name" = None ->
  ChainStep.parse (("name", PNone) :: kwargs) = ChainStep.parse kwargs.
Proof.
  intros Hl. unfold ChainStep.parse, required, optional, defaulted.
  cbn. rewrite Hl. reflexivity.
Qed.

(** A step built from its two mandatory fields. *)
Lemma step_of_id_and_type (i t : string) :
  ChainStep.parse [("id", PStr i); ("type", PStr t)]
  = inr (ChainStep.mk i t None None [] [] []).
Proof.
  unfold ChainStep.parse, required, optional, defaulted. cbn.
  rewrite !validate_str_str. reflexivity.
Qed.

(** A dependency built from its two mandatory fields and a type. *)
Lemma dependency_of_steps_and_type (a b : string) (ty : string)
      (parsed_ty : ChainDependency.dependency_type) :
  lookup_choice ChainDependency.type_choices ty = Some parsed_ty ->
  ChainDependency.parse
    [("dependent_step", PStr a); ("required_step", PStr b);
     ("type", PStr ty)]
  = inr (ChainDependency.mk a b parsed_ty None).
Proof.
  intros Hc.
  unfold ChainDependency.parse, required, optional, defaulted. cbn.
  rewrite !validate_str_str. cbn in Hc |- *. rewrite Hc. reflexivity.
Qed.

End Entities.

(** C9, as the specification states it: a conditional dependency without
    a condition is refused.  The model class has no such rule. *)
Lemma conditional_without_condition_accepted :
  ~ fails (ChainDependency.parse (pydantic := Examples.exact_validators)
             [("dependent_step", PStr "step2");
              ("required_step", PStr "step1");
              ("type", PStr "conditional")]).
Proof. intros [e He]. cbv in He. discriminate. Qed.

(** C9, amended: a dependency with [type = conditional] and no condition
    is constructed, with [condition = None]; so is one with
    [type = simple]; a dependency without [type] gets [simple]; a type
    outside the two literals is refused. *)
Theorem dependency_condition_is_optional {pydantic : Pydantic}
        (a b : string) :
  ChainDependency.parse
    [("dependent_step", PStr a); ("required_step", PStr b);
     ("type", PStr "conditional")]
  = inr (ChainDependency.mk a b ChainDependency.conditional None)
  /\
  ChainDependency.parse
    [("dependent_step", PStr a); ("required_step", PStr b);
     ("type", PStr "simple")]
  = inr (ChainDependency.mk a b ChainDependency.simple None)
  /\
  ChainDependency.parse
    [("dependent_step", PStr a); ("required_step", PStr b)]
  = inr (ChainDependency.mk a b ChainDependency.simple None)
  /\
  (forall ty, ty <> "simple" -> ty <> "conditional" ->
     fails (ChainDependency.parse
              [("dependent_step", PStr a); ("required_step", PStr b);
               ("type", PStr ty)])).
Proof.
  split; [apply dependency_of_steps_and_type; reflexivity |].
  split; [apply dependency_of_steps_and_type; reflexivity |].
  split.
  - unfold ChainDependency.parse, required, optional, defaulted. cbn.
    rewrite !validate_str_str. reflexivity.
  - intros ty H1 H2.
    apply (dependency_with_unknown_type _ (ty := ty)); auto.
Qed.

Lemma dependency_condition_is_optional_witness :
  fails (ChainDependency.parse (pydantic := Examples.exact_validators)
           [("dependent_step", PStr "step2");
            ("required_step", PStr "step1");
            ("type", PStr "sequential")]).
Proof.
  apply (proj2 (proj2 (proj2
           (@dependency_condition_is_optional Examples.exact_validators
              "step2" "step1"))) "sequential");
    discriminate.
Defined.

(** ** The request data of [create] and [update] *)

Section RequestData.
Context {pydantic : Pydantic}.

Lemma format_step_error step e :
  ChainClient.format_step step = inl e -> is_validation_error e.
Proof.
  destruct step as [s | v]; cbn; [discriminate |].
  destruct v; cbn; try (intros [= <-]; eexists; reflexivity).
  destruct (ChainStep.parse d); cbn; [| discriminate].
  intros [= <-]. eexists. reflexivity.
Qed.

Lemma format_step_invalid step :
  invalid_step step = true <-> fails (ChainClient.format_step step).
Proof.
  destruct step as [s | v]; cbn.
  - split; [discriminate | intros [e He]; discriminate].
  - destruct v; cbn;
      try (split; [intros _; eexists; reflexivity | reflexivity]).
    destruct (ChainStep.parse d); cbn.
    + split; [intros _; eexists; reflexivity | reflexivity].
    + split; [discriminate | intros [e He]; discriminate].
Qed.

Lemma format_dependency_error dependency e :
  ChainClient.format_dependency dependency = inl e -> is_validation_error e.
Proof.
  destruct dependency as [s | v]; cbn; [discriminate |].
  destruct v; cbn; try (intros [= <-]; eexists; reflexivity).
  destruct (ChainDependency.parse d); cbn; [| discriminate].
  intros [= <-]. eexists. reflexivity.
Qed.

Lemma format_dependency_invalid dependency :
  invalid_dependency dependency = true <-> fails (ChainClient.format_dependency dependency).
Proof.
  destruct dependency as [s | v]; cbn.
  - split; [discriminate | intros [e He]; discriminate].
  - destruct v; cbn;
      try (split; [intros _; eexists; reflexivity | reflexivity]).
    destruct (ChainDependency.parse d); cbn.
    + split; [intros _; eexists; reflexivity | reflexivity].
    + split; [discriminate | intros [e He]; discriminate].
Qed.

(** The loops: they raise nothing but [ValidationError], and they raise
    exactly when some element is invalid, wherever it stands. *)
Lemma format_steps_error steps :
  forall acc e, ChainClient.format_steps steps acc = inl e -> is_validation_error e.
Proof.
  induction steps as [| [step_id step] rest IH]; intros acc e; cbn;
    [discriminate |].
  destruct (ChainClient.format_step step) as [e' | entry] eqn:E; cbn.
  - intros [= <-]. eapply format_step_error. exact E.
  - apply IH.
Qed.

Lemma format_steps_invalid steps :
  forall acc,
    existsb (fun kv => invalid_step (snd kv)) steps = true
    <-> fails (ChainClient.format_steps steps acc).
Proof.
  induction steps as [| [step_id step] rest IH]; intros acc; cbn.
  - split; [discriminate | intros [e He]; discriminate].
  - rewrite orb_true_iff, format_step_invalid.
    destruct (ChainClient.format_step step) as [e' | entry] eqn:E; cbn.
    + split; [intros _; eexists; reflexivity |].
      intros _. left. eexists. reflexivity.
    + rewrite (IH (dict_set acc step_id (PDict entry))).
      split; [| intros Hf; right; exact Hf].
      intros [[e He] | Hf]; [discriminate | exact Hf].
Qed.

Lemma format_dependencies_error dependencies :
  forall acc e,
    ChainClient.format_dependencies dependencies acc = inl e -> is_validation_error e.
Proof.
  induction dependencies as [| dependency rest IH]; intros acc e; cbn;
    [discriminate |].
  destruct (ChainClient.format_dependency dependency) as [e' | entry] eqn:E; cbn.
  - intros [= <-]. eapply format_dependency_error. exact E.
  - apply IH.
Qed.

Lemma format_dependencies_invalid dependencies :
  forall acc,
    existsb invalid_dependency dependencies = true
    <-> fails (ChainClient.format_dependencies dependencies acc).
Proof.
  induction dependencies as [| dependency rest IH]; intros acc; cbn.
  - split; [discriminate | intros [e He]; discriminate].
  - rewrite orb_true_iff, format_dependency_invalid.
    destruct (ChainClient.format_dependency dependency) as [e' | entry] eqn:E; cbn.
    + split; [intros _; eexists; reflexivity |].
      intros _. left. eexists. reflexivity.
    + rewrite (IH (acc ++ [PDict entry])).
      split; [| intros Hf; right; exact Hf].
      intros [[e He] | Hf]; [discriminate | exact Hf].
Qed.

Lemma prepare_error data description steps dependencies config e :
  ChainClient.prepare data description steps dependencies config = inl e ->
  is_validation_error e.
Proof.
  unfold ChainClient.prepare. destruct steps as [steps |]; cbn.
  - destruct (ChainClient.format_steps steps []) as [e' | fs] eqn:Es; cbn.
    + intros [= <-]. eapply format_steps_error. exact Es.
    + destruct dependencies as [dependencies |]; cbn; [| discriminate].
      destruct (ChainClient.format_dependencies dependencies []) as [e' | fd] eqn:Ed;
        cbn; [| discriminate].
      intros [= <-]. eapply format_dependencies_error. exact Ed.
  - destruct dependencies as [dependencies |]; cbn; [| discriminate].
    destruct (ChainClient.format_dependencies dependencies []) as [e' | fd] eqn:Ed;
      cbn; [| discriminate].
    intros [= <-]. eapply format_dependencies_error. exact Ed.
Qed.

Lemma prepare_invalid data description steps dependencies config :
  has_invalid_element steps dependencies = true
  <-> fails (ChainClient.prepare data description steps dependencies config).
Proof.
  unfold has_invalid_element, ChainClient.prepare. rewrite orb_true_iff.
  destruct steps as [steps |]; cbn.
  - rewrite (format_steps_invalid steps []).
    destruct (ChainClient.format_steps steps []) as [e' | fs] eqn:Es; cbn.
    + split; [intros _; eexists; reflexivity |].
      intros _. left. eexists. reflexivity.
    + destruct dependencies as [dependencies |]; cbn.
      * rewrite (format_dependencies_invalid dependencies []).
        destruct (ChainClient.format_dependencies dependencies []) as [e' | fd]; cbn.
        -- split; [intros _; eexists; reflexivity |].
           intros _. right. eexists. reflexivity.
        -- split; [| intros [e He]; discriminate].
           intros [[e He] | [e He]]; discriminate.
      * split; [| intros [e He]; discriminate].
        intros [[e He] | F]; discriminate.
  - destruct dependencies as [dependencies |]; cbn.
    + rewrite (format_dependencies_invalid dependencies []).
      destruct (ChainClient.format_dependencies dependencies []) as [e' | fd]; cbn.
      * split; [intros _; eexists; reflexivity |].
        intros _. right. eexists. reflexivity.
      * split; [| intros [e He]; discriminate].
        intros [F | [e He]]; discriminate.
    + split; [| intros [e He]; discriminate].
      intros [F | F]; discriminate.
Qed.

(** The violations that the specification names are invalid elements. *)
Lemma contract_violations_are_invalid :
  (forall kwargs,
     dict_lookup kwargs "id" = None \/ dict_lookup kwargs "type" = None ->
     invalid_step (ChainClient.step_value (PDict kwargs)) = true)
  /\
  (forall kwargs ty,
     dict_lookup kwargs "type" = Some (PStr ty) ->
     ty <> "simple" -> ty <> "conditional" ->
     invalid_dependency (ChainClient.dependency_value (PDict kwargs)) = true)
  /\
  (forall v, (forall kwargs, v <> PDict kwargs) ->
     invalid_step (ChainClient.step_value v) = true
     /\ invalid_dependency (ChainClient.dependency_value v) = true).
Proof.
  split; [| split].
  - intros kwargs [Hl | Hl]; cbn; apply failsb_fails.
    + apply step_without_id. exact Hl.
    + apply step_without_type. exact Hl.
  - intros kwargs ty Hl H1 H2. cbn. apply failsb_fails.
    eapply dependency_with_unknown_type; eauto.
  - intros v Hv. destruct v; cbn; try (split; reflexivity).
    exfalso. eapply Hv. reflexivity.
Qed.

(** A method that fails while it prepares its data raises
    [ValidationError] and leaves the log of transport calls as it was. *)
Lemma invalid_data_stops (data : dict) description steps dependencies config
      {A} (k : dict -> io A) log :
  has_invalid_element steps dependencies = true ->
  exists msg,
    io_bind (lift (ChainClient.prepare data description steps dependencies config)) k log
    = (inl (new_exc ValidationError msg), log).
Proof.
  intros Hi.
  destruct (proj1 (prepare_invalid data description steps dependencies
                                   config) Hi) as [e He].
  destruct (prepare_error _ _ _ _ _ He) as [msg ->].
  exists msg. unfold io_bind, lift. rewrite He. reflexivity.
Qed.

End RequestData.

(** The payload of a step does not hold only keys that the caller set:
    [inputs], [outputs] and [config] are in the payload of a step that was
    given its [id] and [type] alone. *)
Lemma unset_mappings_are_serialized :
  ~ payload_has_only_what_was_set (pydantic := Examples.exact_validators)
      [("id", PStr "step1"); ("type", PStr "llm")].
Proof.
  intros Hc.
  specialize (Hc _ eq_refl "inputs"). cbn in Hc.
  destruct Hc as [F | [F | []]]; [| discriminate F | discriminate F].
  right. right. left. reflexivity.
Qed.

(** The rule that [.dict(exclude_none=True)] follows: the payload of a
    step leaves out exactly the fields
    whose value is [None], which only [name] and [description] can be, and
    that of a dependency leaves out [condition] exactly when it is [None];
    [inputs], [outputs] and [config] are always there, empty when the
    caller gave none, so a step with only [id] and [type] has five keys;
    a field set to [None] explicitly is dropped like one never given. *)
Theorem payload_excludes_none_fields {pydantic : Pydantic} :
  (forall (s : ChainStep.t) (k : string),
     In k (dict_keys (ChainStep.to_dict s true)) <->
     In k ["id"; "type"; "inputs"; "outputs"; "config"]
     \/ (k = "name" /\ ChainStep.name s <> None)
     \/ (k = "description" /\ ChainStep.description s <> None))
  /\
  (forall (d : ChainDependency.t) (k : string),
     In k (dict_keys (ChainDependency.to_dict d true)) <->
     In k ["dependent_step"; "required_step"; "type"]
     \/ (k = "condition" /\ ChainDependency.condition d <> None))
  /\
  (forall i t : string,
     ChainClient.format_step
       (ChainClient.step_value (PDict [("id", PStr i); ("type", PStr t)]))
     = inr [ ("id", PStr i); ("type", PStr t); ("inputs", PDict []);
             ("outputs", PDict []); ("config", PDict []) ])
  /\
  (forall kwargs : dict,
     dict_lookup kwargs "name" = None ->
     ChainClient.format_step
       (ChainClient.step_value (PDict (("name", PNone) :: kwargs)))
     = ChainClient.format_step (ChainClient.step_value (PDict kwargs))).
Proof.
  split; [exact step_to_dict_keys |].
  split; [exact dependency_to_dict_keys |].
  split.
  - intros i t. cbn [ChainClient.format_step construct].
    rewrite step_of_id_and_type. reflexivity.
  - intros kwargs Hl. cbn [ChainClient.format_step construct].
    rewrite (step_explicit_none_name _ Hl). reflexivity.
Qed.

Lemma payload_excludes_none_fields_witness :
  ChainClient.format_step (pydantic := Examples.exact_validators)
    (ChainClient.step_value
       (PDict [("name", PNone); ("id", PStr "step1"); ("type", PStr "llm")]))
  = ChainClient.format_step (pydantic := Examples.exact_validators)
      (ChainClient.step_value
         (PDict [("id", PStr "step1"); ("type", PStr "llm")])).
Proof.
  apply (proj2 (proj2 (proj2
           (@payload_excludes_none_fields Examples.exact_validators)))
           [("id", PStr "step1"); ("type", PStr "llm")]).
  reflexivity.
Defined.

Section EntityOrMapping.
Context {pydantic : Pydantic}.

Lemma format_step_same a b :
  same_step a b -> ChainClient.format_step a = ChainClient.format_step b.
Proof.
  intros [step | kwargs s Hp]; [reflexivity |].
  cbn. rewrite Hp. reflexivity.
Qed.

Lemma format_dependency_same a b :
  same_dependency a b ->
  ChainClient.format_dependency a = ChainClient.format_dependency b.
Proof.
  intros [dependency | kwargs d Hp]; [reflexivity |].
  cbn. rewrite Hp. reflexivity.
Qed.

Lemma format_steps_same steps steps' :
  Forall2 (fun x y => fst x = fst y /\ same_step (snd x) (snd y))
          steps steps' ->
  forall acc,
    ChainClient.format_steps steps acc = ChainClient.format_steps steps' acc.
Proof.
  induction 1 as [| [k a] [k' b] rest rest' [Hk Hs] _ IH]; intros acc;
    [reflexivity |].
  cbn in Hk, Hs |- *. subst k'. rewrite (format_step_same Hs).
  destruct (ChainClient.format_step b); cbn; [reflexivity | apply IH].
Qed.

Lemma format_dependencies_same dependencies dependencies' :
  Forall2 same_dependency dependencies dependencies' ->
  forall acc,
    ChainClient.format_dependencies dependencies acc
    = ChainClient.format_dependencies dependencies' acc.
Proof.
  induction 1 as [| a b rest rest' Hs _ IH]; intros acc; [reflexivity |].
  cbn. rewrite (format_dependency_same Hs).
  destruct (ChainClient.format_dependency b); cbn; [reflexivity | apply IH].
Qed.

Lemma prepare_same data description steps steps' dependencies dependencies'
      config :
  Forall2 (fun x y => fst x = fst y /\ same_step (snd x) (snd y))
          steps steps' ->
  Forall2 same_dependency dependencies dependencies' ->
  ChainClient.prepare data description (Some steps) (Some dependencies)
                      config
  = ChainClient.prepare data description (Some steps') (Some dependencies')
                        config.
Proof.
  intros Hs Hd. unfold ChainClient.prepare.
  rewrite (format_steps_same Hs), (format_dependencies_same Hd).
  reflexivity.
Qed.

(** Every entity is what the model class reads from its own full
    [.dict()], so each entity has a mapping with the same content. *)
Lemma traverse_str_dict (outputs : list (string * string)) :
  traverse (fun kv => match validate_str (snd kv) with
                      | Some a => Some (fst kv, a)
                      | None => None
                      end)
           (map (fun kv => (fst kv, PStr (snd kv))) outputs)
  = Some outputs.
Proof.
  induction outputs as [| [k v] rest IH]; [reflexivity |].
  cbn. rewrite validate_str_str, IH. reflexivity.
Qed.

Lemma step_round_trip (s : ChainStep.t) :
  ChainStep.parse (ChainStep.to_dict s false) = inr s.
Proof.
  destruct s as [i t n d ins outs cfg].
  unfold ChainStep.parse, ChainStep.to_dict, required, optional, defaulted,
         validate_dict_of, str_dict.
  cbn. rewrite !validate_str_str. cbn.
  destruct n as [n |], d as [d |]; cbn;
    rewrite ?validate_str_str, !validate_dict_dict; cbn;
    rewrite traverse_str_dict; reflexivity.
Qed.

Lemma dependency_round_trip (d : ChainDependency.t) :
  ChainDependency.parse (ChainDependency.to_dict d false) = inr d.
Proof.
  destruct d as [a b ty c].
  unfold ChainDependency.parse, ChainDependency.to_dict, required, optional,
         defaulted.
  cbn. rewrite !validate_str_str. cbn.
  destruct ty, c as [c |]; cbn; rewrite ?validate_dict_dict; reflexivity.
Qed.

Lemma entity_has_a_mapping (s : ChainStep.t) (d : ChainDependency.t) :
  same_step (ChainClient.step_entity s)
            (ChainClient.step_value (PDict (ChainStep.to_dict s false)))
  /\ same_dependency
       (ChainClient.dependency_entity d)
       (ChainClient.dependency_value
          (PDict (ChainDependency.to_dict d false))).
Proof.
  split.
  - apply same_step_parsed, step_round_trip.
  - apply same_dependency_parsed, dependency_round_trip.
Qed.

End EntityOrMapping.

(** ** Streaming *)

Section StreamLemmas.
Context {pydantic : Pydantic}.


Lemma events_of_bad_frame frame e rest :
  construct ChainExecutionEvent.parse frame = inl e ->
  ChainClient.events_of (Yield frame rest)
  = Raise (new_exc ValidationError
             ("Invalid chain execution event: " ++ message e)).
Proof. intros Hf. cbn. rewrite Hf. reflexivity. Qed.

Lemma stream_unfold transport chain_id inputs config log :
  ChainClient.stream transport chain_id inputs config log
  = (ChainClient.events_of
       (Transport.stream transport log (stream_call chain_id inputs config)),
     log ++ [stream_call chain_id inputs config]).
Proof. reflexivity. Qed.

Context {runtime : PythonRuntime}.

Lemma frames_decoded texts evs :
  Forall2 event_text_of texts evs ->
  forall rest,
    ChainClient.events_of (HTTPTransport.frames (texts ++ rest))
    = yield_all evs (ChainClient.events_of (HTTPTransport.frames rest)).
Proof.
  induction 1 as [| text ev texts evs [Hd [frame [Hj Hf]]] _ IH];
    intros rest; [reflexivity |].
  cbn [app HTTPTransport.frames].
  destruct (String.eqb_spec text "[DONE]") as [-> | _]; [congruence |].
  rewrite Hj. cbn [ChainClient.events_of yield_all].
  unfold frame_of in Hf. rewrite Hf. cbn. rewrite IH. reflexivity.
Qed.

Lemma http_stream_frames response :
  (Response.status_code response < 400)%Z ->
  HTTPTransport.stream (inr response)
  = HTTPTransport.frames (Response.events response).
Proof.
  intros Hs. unfold HTTPTransport.stream. cbn.
  destruct (Response.status_code response >=? 400)%Z eqn:E; [| reflexivity].
  rewrite Z.geb_leb in E. apply Z.leb_le in E. lia.
Qed.

End StreamLemmas.



(** C7: [run] with [stream=True] returns the generator that [stream]
    returns for the same arguments and calls the transport for nothing: the
    log is unchanged when [run] returns.  Iterating that generator makes
    one call, the streaming POST to [/v1/chains/{chain_id}/run] whose body
    has [stream] set to [True]. *)
Theorem run_streaming_is_stream {pydantic : Pydantic}
        (transport : Transport.t) (log : list Transport.call)
        (chain_id : string) (inputs : dict) (config : option dict) :
  ChainClient.run transport chain_id inputs config true log
  = (inr (inr (ChainClient.stream transport chain_id inputs config)), log)
  /\
  snd (ChainClient.stream transport chain_id inputs config log)
  = log ++ [Transport.mk_call Transport.op_stream "POST"
              ("/v1/chains/" ++ chain_id ++ "/run") None
              (Some (ChainClient.run_data inputs true config))]
  /\
  dict_lookup (ChainClient.run_data inputs true config) "stream"
  = Some (PBool true)
  /\
  dict_lookup (ChainClient.run_data inputs true config) "inputs"
  = Some (PDict inputs).
Proof.
  split; [reflexivity |]. split; [reflexivity |].
  destruct config; split; reflexivity.
Qed.

(** C5, as the specification states it: a frame that is not JSON at all
    ends the sequence with [ValidationError].  The transport raises
    [APIError] for such a frame and [stream] lets it pass. *)
Lemma undecodable_frame_raises_api_error :
  ~ (exists e,
       outcome
         (fst (ChainClient.stream (pydantic := Examples.exact_validators)
                 (HTTPTransport.transport (runtime := Examples.table_runtime)
                    (Examples.constant_session
                       (Response.mk 200 "" ["not json"])))
                 "c1" [] None []))
       = Some e
       /\ exc_type e = ValidationError).
Proof.
  intros [e [He Ht]]. cbv in He. injection He as <-. discriminate.
Qed.

(** C5, amended: over the HTTP transport, when the events before a bad
    frame are all read as events, the sequence yields those events in
    order and then raises at the bad frame, nothing of it or after it
    being yielded: [ValidationError] when the frame decodes as JSON and
    the event class refuses it (a missing or unknown [event_type] among
    the reasons), [APIError] when the frame does not decode as JSON. *)
Theorem bad_frame_ends_the_stream {pydantic : Pydantic}
        {runtime : PythonRuntime}
        (session : list Transport.call -> Transport.call
                   -> HTTPTransport.session_result)
        (log : list Transport.call)
        (chain_id : string) (inputs : dict) (config : option dict)
        (response : Response.t)
        (before after : list string) (bad : string)
        (evs : list ChainExecutionEvent.t) :
  session log (stream_call chain_id inputs config) = inr response ->
  (Response.status_code response < 400)%Z ->
  Response.events response = before ++ bad :: after ->
  Forall2 event_text_of before evs ->
  bad <> "[DONE]" ->
  (forall frame e,
     json_loads bad = Some frame ->
     construct ChainExecutionEvent.parse frame = inl e ->
     fst (ChainClient.stream (HTTPTransport.transport session)
                             chain_id inputs config log)
     = yield_all evs
         (Raise (new_exc ValidationError
                   ("Invalid chain execution event: " ++ message e))))
  /\
  (json_loads bad = None ->
     fst (ChainClient.stream (HTTPTransport.transport session)
                             chain_id inputs config log)
     = yield_all evs
         (Raise (new_APIError APIError
                   ("Invalid JSON in stream: " ++ bad) None)))
  /\
  (forall kwargs,
     json_loads bad = Some (PDict kwargs) ->
     dict_lookup kwargs "event_type" = None ->
     exists e, construct ChainExecutionEvent.parse (PDict kwargs) = inl e)
  /\
  (forall kwargs ty,
     json_loads bad = Some (PDict kwargs) ->
     dict_lookup kwargs "event_type" = Some (PStr ty) ->
     ~ In ty (map fst ChainExecutionEvent.event_type_choices) ->
     exists e, construct ChainExecutionEvent.parse (PDict kwargs) = inl e).
Proof.
  intros Hsess Hstatus Hev Hbefore Hbad.
  assert (Hstream :
    fst (ChainClient.stream (HTTPTransport.transport session)
                            chain_id inputs config log)
    = yield_all evs
        (ChainClient.events_of (HTTPTransport.frames (bad :: after)))).
  { rewrite stream_unfold. cbn [fst HTTPTransport.transport Transport.stream].
    rewrite Hsess, (http_stream_frames _ Hstatus), Hev.
    apply frames_decoded. exact Hbefore. }
  assert (Hnd : String.eqb bad "[DONE]" = false).
  { apply String.eqb_neq. exact Hbad. }
  split; [| split; [| split]].
  - intros frame e Hj Hf. rewrite Hstream. f_equal.
    cbn [HTTPTransport.frames]. rewrite Hnd, Hj.
    apply events_of_bad_frame. exact Hf.
  - intros Hj. rewrite Hstream. f_equal.
    cbn [HTTPTransport.frames]. rewrite Hnd, Hj. reflexivity.
  - intros kwargs _ Hl.
    destruct (event_without_event_type kwargs Hl) as [e He].
    eexists. cbn. rewrite He. reflexivity.
  - intros kwargs ty _ Hl Hn.
    destruct (event_with_unknown_event_type kwargs Hl Hn) as [e He].
    eexists. cbn. rewrite He. reflexivity.
Qed.

Lemma bad_frame_ends_the_stream_witness :
  let ev := ChainExecutionEvent.mk ChainExecutionEvent.step_completed
              "c1" (Some "step1") [] in
  let run events :=
    fst (ChainClient.stream (pydantic := Examples.exact_validators)
           (HTTPTransport.transport (runtime := Examples.table_runtime)
              (Examples.constant_session (Response.mk 200 "" events)))
           "c1" [] None []) in
  run [Examples.step_completed_text; Examples.no_event_type_text;
       Examples.chain_completed_text]
  = Yield ev
      (Raise (new_exc ValidationError
                "Invalid chain execution event: event_type: field required"))
  /\
  run [Examples.step_completed_text; "not json";
       Examples.chain_completed_text]
  = Yield ev
      (Raise (new_APIError APIError "Invalid JSON in stream: not json" None)).
Proof.
  intros ev run.
  assert (Hbefore : Forall2 (event_text_of (pydantic := Examples.exact_validators)
                                           (runtime := Examples.table_runtime))
                            [Examples.step_completed_text] [ev]).
  { constructor; [| constructor]. split; [discriminate |].
    exists Examples.step_completed_frame. split; reflexivity. }
  split.
  - refine (proj1
      (@bad_frame_ends_the_stream Examples.exact_validators
         Examples.table_runtime
         (Examples.constant_session
            (Response.mk 200 ""
               [Examples.step_completed_text; Examples.no_event_type_text;
                Examples.chain_completed_text]))
         [] "c1" [] None _
         [Examples.step_completed_text] [Examples.chain_completed_text]
         Examples.no_event_type_text [ev]
         eq_refl _ eq_refl Hbefore _)
      (PDict [("chain_id", PStr "c1")])
      (new_exc PydanticValidationError "event_type: field required")
      eq_refl eq_refl).
    + simpl. lia.
    + discriminate.
  - refine (proj1 (proj2
      (@bad_frame_ends_the_stream Examples.exact_validators
         Examples.table_runtime
         (Examples.constant_session
            (Response.mk 200 ""
               [Examples.step_completed_text; "not json";
                Examples.chain_completed_text]))
         [] "c1" [] None _
         [Examples.step_completed_text] [Examples.chain_completed_text]
         "not json" [ev]
         eq_refl _ eq_refl Hbefore _))
      eq_refl).
    + simpl. lia.
    + discriminate.
Defined.

(* ===================================================================== *)
(** * Further properties of the chain client *)
(* ===================================================================== *)

Section ClientCalls.
Context {pydantic : Pydantic}.
Variable transport : Transport.t.

Lemma for_each_all {A B} (f : A -> result B) (l : list A) (rs : list B) :
  Forall2 (fun a r => f a = inr r) l rs -> for_each f l = inr rs.
Proof.
  induction 1 as [| a r l rs Hf _ IH]; [reflexivity |].
  cbn. rewrite Hf. cbn. rewrite IH. reflexivity.
Qed.

Lemma for_each_fails {A B} (f : A -> result B) (l : list A) (a : A) :
  In a l -> fails (f a) -> fails (for_each f l).
Proof.
  induction l as [| x l IH]; intros Hin Hf; [destruct Hin |].
  cbn. destruct (f x) as [e | r] eqn:E; cbn; [exists e; reflexivity |].
  destruct Hin as [-> | Hin].
  - destruct Hf as [e He]. congruence.
  - destruct (IH Hin Hf) as [e He]. rewrite He. exists e. reflexivity.
Qed.

Lemma create_log name description steps dependencies config log data :
  ChainClient.create_data name description steps dependencies config
  = inr data ->
  ChainClient.create transport name description steps dependencies config log
  = (bind (Transport.request transport log
             (Transport.mk_call Transport.op_request "POST" "/v1/chains"
                                None (Some data)))
          ChainClient.parse_chain,
     log ++ [Transport.mk_call Transport.op_request "POST" "/v1/chains"
                               None (Some data)]).
Proof.
  intros Hd. unfold ChainClient.create, io_bind, lift, transport_request.
  rewrite Hd. destruct (Transport.request transport log _); reflexivity.
Qed.

Lemma update_log chain_id name description steps dependencies config log data :
  ChainClient.update_data name description steps dependencies config
  = inr data ->
  ChainClient.update transport chain_id name description steps dependencies
                     config log
  = (bind (Transport.request transport log
             (Transport.mk_call Transport.op_request "PATCH"
                                ("/v1/chains/" ++ chain_id) None (Some data)))
          ChainClient.parse_chain,
     log ++ [Transport.mk_call Transport.op_request "PATCH"
                               ("/v1/chains/" ++ chain_id) None (Some data)]).
Proof.
  intros Hd. unfold ChainClient.update, io_bind, lift, transport_request.
  rewrite Hd. destruct (Transport.request transport log _); reflexivity.
Qed.

End ClientCalls.

(** X1: no method of the chain client calls the transport twice.  [get],
    [delete], [list] and [run] without [stream] make exactly one request,
    whatever it answers, [list] with a [params] mapping that holds the
    [limit] and the [offset] that were supplied, each with its value, and
    nothing else; [run] with [stream] makes none before it returns;
    [create] and [update] make one or, when their data is refused, none. *)
Theorem methods_call_the_transport_at_most_once {pydantic : Pydantic}
        (transport : Transport.t) (log : list Transport.call)
        (chain_id name : string) (new_name description : option string)
        (steps : option (list (string * ChainClient.step_arg)))
        (dependencies : option (list ChainClient.dependency_arg))
        (inputs : dict) (config : option dict) (limit offset : option Z) :
  snd (ChainClient.get transport chain_id log)
  = log ++ [Transport.mk_call Transport.op_request "GET"
                              ("/v1/chains/" ++ chain_id) None None]
  /\
  snd (ChainClient.delete transport chain_id log)
  = log ++ [Transport.mk_call Transport.op_request "DELETE"
                              ("/v1/chains/" ++ chain_id) None None]
  /\
  snd (ChainClient.list transport limit offset log)
  = log ++ [Transport.mk_call Transport.op_request "GET" "/v1/chains"
              (Some (entry "limit" (option_map PInt limit)
                     ++ entry "offset" (option_map PInt offset)))
              None]
  /\
  snd (ChainClient.run transport chain_id inputs config false log)
  = log ++ [Transport.mk_call Transport.op_request "POST"
                              ("/v1/chains/" ++ chain_id ++ "/run") None
                              (Some (ChainClient.run_data inputs false config))]
  /\
  snd (ChainClient.run transport chain_id inputs config true log) = log
  /\
  (snd (ChainClient.create transport name description steps dependencies
                           config log) = log
   \/ exists data,
       snd (ChainClient.create transport name description steps dependencies
                               config log)
       = log ++ [Transport.mk_call Transport.op_request "POST" "/v1/chains"
                                   None (Some data)])
  /\
  (snd (ChainClient.update transport chain_id new_name description steps
                           dependencies config log) = log
   \/ exists data,
       snd (ChainClient.update transport chain_id new_name description steps
                               dependencies config log)
       = log ++ [Transport.mk_call Transport.op_request "PATCH"
                                   ("/v1/chains/" ++ chain_id) None
                                   (Some data)]).
Proof.
  split.
  { unfold ChainClient.get, io_bind, lift, transport_request.
    destruct (Transport.request transport log _); reflexivity. }
  split.
  { unfold ChainClient.delete, io_bind, io_ret, transport_request.
    destruct (Transport.request transport log _); reflexivity. }
  split.
  { unfold ChainClient.list, io_bind, lift, transport_request.
    destruct limit, offset; cbn;
      destruct (Transport.request transport log _); reflexivity. }
  split.
  { unfold ChainClient.run, io_bind, io_ret, lift, transport_request.
    destruct (Transport.request transport log _) as [e | response];
      [reflexivity |].
    destruct (try_except _ _); reflexivity. }
  split; [reflexivity |].
  split.
  - destruct (ChainClient.create_data name description steps dependencies
                config) as [e | data] eqn:Ed.
    + left. unfold ChainClient.create, io_bind, lift. rewrite Ed. reflexivity.
    + right. exists data. rewrite (create_log _ _ _ _ _ _ _ Ed). reflexivity.
  - destruct (ChainClient.update_data new_name description steps dependencies
                config) as [e | data] eqn:Ed.
    + left. unfold ChainClient.update, io_bind, lift. rewrite Ed. reflexivity.
    + right. exists data. rewrite (update_log _ _ _ _ _ _ _ _ Ed). reflexivity.
Qed.

(** X2: an exception that the transport raises leaves [get], [delete],
    [list], [run], [create] and [update] as it is: the same exception
    with the same class, message and status, not a [ValidationError]. *)
Theorem transport_error_is_not_wrapped {pydantic : Pydantic}
        (transport : Transport.t) (log : list Transport.call) (e : exc)
        (chain_id name : string) (new_name description : option string)
        (steps : option (list (string * ChainClient.step_arg)))
        (dependencies : option (list ChainClient.dependency_arg))
        (inputs : dict) (config : option dict) (limit offset : option Z) :
  (forall c, Transport.request transport log c = inl e) ->
  fst (ChainClient.get transport chain_id log) = inl e
  /\ fst (ChainClient.delete transport chain_id log) = inl e
  /\ fst (ChainClient.list transport limit offset log) = inl e
  /\ fst (ChainClient.run transport chain_id inputs config false log) = inl e
  /\ (has_invalid_element steps dependencies = false ->
      fst (ChainClient.create transport name description steps dependencies
                              config log) = inl e
      /\ fst (ChainClient.update transport chain_id new_name description
                                 steps dependencies config log) = inl e).
Proof.
  intros Ht.
  split.
  { unfold ChainClient.get, io_bind, transport_request. rewrite Ht.
    reflexivity. }
  split.
  { unfold ChainClient.delete, io_bind, transport_request. rewrite Ht.
    reflexivity. }
  split.
  { unfold ChainClient.list, io_bind, transport_request. rewrite Ht.
    reflexivity. }
  split.
  { unfold ChainClient.run, io_bind, transport_request. rewrite Ht.
    reflexivity. }
  intros Hv. split.
  - destruct (ChainClient.create_data name description steps dependencies
                config) as [e' | data] eqn:Ed.
    + exfalso. assert (Hf : fails (ChainClient.create_data name description
                                     steps dependencies config))
        by (exists e'; exact Ed).
      apply prepare_invalid in Hf. congruence.
    + rewrite (create_log _ _ _ _ _ _ _ Ed), Ht. reflexivity.
  - destruct (ChainClient.update_data new_name description steps dependencies
                config) as [e' | data] eqn:Ed.
    + exfalso. assert (Hf : fails (ChainClient.update_data new_name
                                     description steps dependencies config))
        by (exists e'; exact Ed).
      apply prepare_invalid in Hf. congruence.
    + rewrite (update_log _ _ _ _ _ _ _ _ Ed), Ht. reflexivity.
Qed.

Lemma transport_error_is_not_wrapped_witness :
  let e := new_APIError RateLimitError "Rate limit exceeded: slow down" None in
  let transport :=
    {| Transport.request := fun _ _ => inl e;
       Transport.stream := fun _ _ => Raise e |} in
  fst (ChainClient.get (pydantic := Examples.exact_validators)
         transport "c1" []) = inl e
  /\ fst (ChainClient.delete transport "c1" []) = inl e
  /\ fst (ChainClient.list (pydantic := Examples.exact_validators)
            transport (Some 10%Z) None []) = inl e
  /\ fst (ChainClient.run (pydantic := Examples.exact_validators)
            transport "c1" [] None false []) = inl e.
Proof.
  intros e transport.
  destruct (@transport_error_is_not_wrapped Examples.exact_validators
              transport [] e "c1" "chain" None None None None [] None
              (Some 10%Z) None (fun _ => eq_refl))
    as [Hg [Hd [Hl [Hr _]]]].
  repeat split; assumption.
Defined.

(** X3: when the response to [list] is a mapping whose ["chains"] is a
    list of mappings that [Chain] accepts, [list] returns one chain for
    each element, in the order of the response. *)
Theorem list_returns_every_chain_in_order {pydantic : Pydantic}
        (transport : Transport.t) (log : list Transport.call)
        (limit offset : option Z) (response : dict)
        (items : list pyval) (chains : list Chain.t) :
  (forall c, Transport.request transport log c = inr (PDict response)) ->
  dict_lookup response "chains" = Some (PList items) ->
  Forall2 (fun item chain => construct Chain.parse item = inr chain)
          items chains ->
  fst (ChainClient.list transport limit offset log) = inr chains
  /\ length chains = length items.
Proof.
  intros Ht Hl Hf. split.
  - unfold ChainClient.list, io_bind, lift, transport_request. rewrite Ht.
    cbn. rewrite Hl. cbn. rewrite (for_each_all _ Hf). reflexivity.
  - symmetry. eapply Forall2_length. exact Hf.
Qed.

Lemma list_returns_every_chain_in_order_witness :
  fst (ChainClient.list (pydantic := Examples.exact_validators)
         (Examples.constant_transport
            (PDict [("chains", PList [PDict [("id", PStr "test-chain-id")]])])
            Stop)
         (Some 10%Z) None [])
  = inr [Chain.mk "test-chain-id" None None [] [] []].
Proof.
  refine (proj1
    (@list_returns_every_chain_in_order Examples.exact_validators
       (Examples.constant_transport
          (PDict [("chains", PList [PDict [("id", PStr "test-chain-id")]])])
          Stop)
       [] (Some 10%Z) None
       [("chains", PList [PDict [("id", PStr "test-chain-id")]])]
       [PDict [("id", PStr "test-chain-id")]]
       [Chain.mk "test-chain-id" None None [] [] []]
       (fun _ => eq_refl) eq_refl _)).
  constructor; [reflexivity | constructor].
Defined.

(** X4: [list] returns all chains or none.  A response mapping without
    ["chains"], and a ["chains"] list with one element that [Chain]
    refuses, each end the call with [ValidationError], after the one
    request. *)
Theorem list_fails_as_a_whole {pydantic : Pydantic}
        (transport : Transport.t) (log : list Transport.call)
        (limit offset : option Z) (response : dict) :
  (forall c, Transport.request transport log c = inr (PDict response)) ->
  (dict_lookup response "chains" = None ->
   fst (ChainClient.list transport limit offset log)
   = inl (new_exc ValidationError "Invalid chain list response: 'chains'"))
  /\
  (forall items item,
     dict_lookup response "chains" = Some (PList items) ->
     In item items ->
     fails (construct Chain.parse item) ->
     exists msg,
       fst (ChainClient.list transport limit offset log)
       = inl (new_exc ValidationError msg)).
Proof.
  intros Ht. split.
  - intros Hl. unfold ChainClient.list, io_bind, lift, transport_request.
    rewrite Ht. cbn. rewrite Hl. reflexivity.
  - intros items item Hl Hin Hf.
    unfold ChainClient.list, io_bind, lift, transport_request.
    rewrite Ht. cbn. rewrite Hl. cbn.
    destruct (for_each_fails (construct Chain.parse) items _ Hin Hf) as [e He].
    rewrite He. eexists. reflexivity.
Qed.

Lemma list_fails_as_a_whole_witness :
  (exists msg,
     fst (ChainClient.list (pydantic := Examples.exact_validators)
            (Examples.constant_transport
               (PDict [("chains", PList [PDict [("id", PStr "c1")];
                                         PDict [("name", PStr "no id")]])])
               Stop)
            None None [])
     = inl (new_exc ValidationError msg))
  /\
  fst (ChainClient.list (pydantic := Examples.exact_validators)
         (Examples.constant_transport (PDict []) Stop) None None [])
  = inl (new_exc ValidationError "Invalid chain list response: 'chains'").
Proof.
  split.
  - refine (proj2
      (@list_fails_as_a_whole Examples.exact_validators
         (Examples.constant_transport
            (PDict [("chains", PList [PDict [("id", PStr "c1")];
                                      PDict [("name", PStr "no id")]])])
            Stop)
         [] None None _ (fun _ => eq_refl))
      _ (PDict [("name", PStr "no id")]) eq_refl _ _).
    + simpl. right. left. reflexivity.
    + eexists. reflexivity.
  - apply (proj1
      (@list_fails_as_a_whole Examples.exact_validators
         (Examples.constant_transport (PDict []) Stop)
         [] None None [] (fun _ => eq_refl))).
    reflexivity.
Defined.

(** X5: [delete] does not read the response: whatever value the
    transport returns, [delete] returns [None] and raises nothing. *)
Theorem delete_ignores_the_response
        (transport : Transport.t) (log : list Transport.call)
        (chain_id : string) (response : pyval) :
  (forall c, Transport.request transport log c = inr response) ->
  ChainClient.delete transport chain_id log
  = (inr tt,
     log ++ [Transport.mk_call Transport.op_request "DELETE"
                               ("/v1/chains/" ++ chain_id) None None]).
Proof.
  intros Ht. unfold ChainClient.delete, io_bind, io_ret, transport_request.
  rewrite Ht. reflexivity.
Qed.

Lemma delete_ignores_the_response_witness :
  ChainClient.delete (Examples.constant_transport (PList [PInt 1]) Stop)
                     "test-chain-id" []
  = (inr tt,
     [Transport.mk_call Transport.op_request "DELETE"
                        "/v1/chains/test-chain-id" None None]).
Proof.
  apply (@delete_ignores_the_response
           (Examples.constant_transport (PList [PInt 1]) Stop)
           [] "test-chain-id" (PList [PInt 1])).
  intros c. reflexivity.
Defined.

(** X6: the body of [run] and of [stream] has the keys [inputs] and
    [stream], in that order, then [config] when a configuration is given
    and no key for it otherwise; without [stream], [run] returns the
    execution that [ChainExecution] reads from the response, and raises
    [ValidationError] when the class refuses the response, a [status]
    outside [running], [completed], [failed] among the reasons. *)
Theorem run_sends_inputs_and_reads_one_execution {pydantic : Pydantic}
        (transport : Transport.t) (log : list Transport.call)
        (chain_id : string) (inputs : dict) (config : option dict)
        (stream_flag : bool) (response : pyval) :
  (forall c, Transport.request transport log c = inr response) ->
  dict_keys (ChainClient.run_data inputs stream_flag config)
  = ["inputs"; "stream"] ++ given "config" config
  /\ dict_lookup (ChainClient.run_data inputs stream_flag config) "stream"
     = Some (PBool stream_flag)
  /\ (forall execution,
        construct ChainExecution.parse response = inr execution ->
        fst (ChainClient.run transport chain_id inputs config false log)
        = inr (inl execution))
  /\ (forall e,
        construct ChainExecution.parse response = inl e ->
        fst (ChainClient.run transport chain_id inputs config false log)
        = inl (new_exc ValidationError
                 ("Invalid chain execution response: " ++ message e)))
  /\ (forall kwargs status,
        response = PDict kwargs ->
        dict_lookup kwargs "status" = Some (PStr status) ->
        ~ In status ["running"; "completed"; "failed"] ->
        fails (construct ChainExecution.parse response)).
Proof.
  intros Ht.
  split; [destruct config; reflexivity |].
  split; [destruct config; reflexivity |].
  split; [| split].
  - intros execution Hp.
    unfold ChainClient.run, io_bind, io_ret, lift, transport_request.
    rewrite Ht, Hp. reflexivity.
  - intros e Hp.
    unfold ChainClient.run, io_bind, io_ret, lift, transport_request.
    rewrite Ht, Hp. reflexivity.
  - intros kwargs status -> Hl Hn. cbn.
    unfold ChainExecution.parse.
    destruct (required kwargs "chain_id" validate_str) as [e | c];
      [eexists; reflexivity |].
    cbn. unfold required at 1. rewrite Hl.
    rewrite validate_literal_outside by exact Hn.
    eexists. reflexivity.
Qed.

Lemma run_sends_inputs_and_reads_one_execution_witness :
  let response :=
    PDict [("chain_id", PStr "test-chain-id"); ("status", PStr "completed");
           ("outputs", PDict [("step1.response", PStr "Hello, world!")])] in
  fst (ChainClient.run (pydantic := Examples.exact_validators)
         (Examples.constant_transport response Stop)
         "test-chain-id" [("prompt", PStr "Hello")] None false [])
  = inr (inl (ChainExecution.mk "test-chain-id" ChainExecution.completed []
                [("step1.response", PStr "Hello, world!")] None None))
  /\ fails (construct (pydantic := Examples.exact_validators)
              (ChainExecution.parse (pydantic := Examples.exact_validators))
              (PDict [("chain_id", PStr "c1"); ("status", PStr "pending")])).
Proof.
  intros response. split.
  - apply (proj1 (proj2 (proj2
      (@run_sends_inputs_and_reads_one_execution Examples.exact_validators
         (Examples.constant_transport response Stop) []
         "test-chain-id" [("prompt", PStr "Hello")] None false response
         (fun _ => eq_refl))))).
    reflexivity.
  - refine (proj2 (proj2 (proj2 (proj2
      (@run_sends_inputs_and_reads_one_execution Examples.exact_validators
         (Examples.constant_transport
            (PDict [("chain_id", PStr "c1"); ("status", PStr "pending")]) Stop)
         [] "c1" [] None false
         (PDict [("chain_id", PStr "c1"); ("status", PStr "pending")])
         (fun _ => eq_refl)))))
      [("chain_id", PStr "c1"); ("status", PStr "pending")] "pending"
      eq_refl eq_refl _).
    simpl. intros [F | [F | [F | []]]]; discriminate.
Defined.

(** ** The payloads of steps and dependencies *)

Section Payloads.
Context {pydantic : Pydantic}.

Lemma dict_set_fresh (d : dict) (k : string) (v : pyval) :
  ~ In k (dict_keys d) -> dict_set d k v = d ++ [(k, v)].
Proof.
  induction d as [| [k' v'] d IH]; intros Hn; [reflexivity |].
  cbn in *. destruct (String.eqb_spec k k') as [-> | _].
  - exfalso. apply Hn. left. reflexivity.
  - rewrite IH; [reflexivity |]. intros Hin. apply Hn. right. exact Hin.
Qed.

Lemma format_steps_entries steps :
  forall acc formatted,
    NoDup (dict_keys acc ++ map fst steps) ->
    ChainClient.format_steps steps acc = inr formatted ->
    exists outs, formatted = acc ++ outs /\ Forall2 step_entry steps outs.
Proof.
  induction steps as [| [k step] rest IH]; intros acc formatted Hn; cbn.
  - intros [= <-]. exists []. split; [symmetry; apply app_nil_r | constructor].
  - destruct (ChainClient.format_step step) as [e | entry] eqn:E; cbn;
      [discriminate |].
    intros Hf.
    assert (Hk : ~ In k (dict_keys acc)).
    { intros Hin. apply NoDup_remove_2 in Hn. apply Hn.
      apply in_or_app. left. exact Hin. }
    rewrite dict_set_fresh in Hf by exact Hk.
    destruct (IH (acc ++ [(k, PDict entry)]) formatted) as [outs [-> Ho]].
    + unfold dict_keys. rewrite map_app, <- app_assoc. exact Hn.
    + exact Hf.
    + exists ((k, PDict entry) :: outs). split.
      * rewrite <- app_assoc. reflexivity.
      * constructor; [| exact Ho]. split; [reflexivity |].
        exists entry. split; [exact E | reflexivity].
Qed.

Lemma format_dependencies_entries dependencies :
  forall acc formatted,
    ChainClient.format_dependencies dependencies acc = inr formatted ->
    exists outs,
      formatted = acc ++ outs /\ Forall2 dependency_entry dependencies outs.
Proof.
  induction dependencies as [| dependency rest IH]; intros acc formatted; cbn.
  - intros [= <-]. exists []. split; [symmetry; apply app_nil_r | constructor].
  - destruct (ChainClient.format_dependency dependency) as [e | entry] eqn:E;
      cbn; [discriminate |].
    intros Hf. destruct (IH _ _ Hf) as [outs [-> Ho]].
    exists (PDict entry :: outs). split.
    + rewrite <- app_assoc. reflexivity.
    + constructor; [| exact Ho]. exists entry. split; [exact E | reflexivity].
Qed.

Lemma step_payload_round_trip (s : ChainStep.t) :
  ChainStep.parse (ChainStep.to_dict s true) = inr s.
Proof.
  destruct s as [i t n d ins outs cfg].
  unfold ChainStep.parse, ChainStep.to_dict, required, optional, defaulted,
         validate_dict_of, str_dict.
  destruct n as [n |], d as [d |]; cbn;
    rewrite !validate_str_str; cbn;
    rewrite ?validate_str_str, !validate_dict_dict; cbn;
    rewrite traverse_str_dict; reflexivity.
Qed.

Lemma dependency_payload_round_trip (d : ChainDependency.t) :
  ChainDependency.parse (ChainDependency.to_dict d true) = inr d.
Proof.
  destruct d as [a b ty c].
  unfold ChainDependency.parse, ChainDependency.to_dict, required, optional,
         defaulted.
  destruct ty, c as [c |]; cbn; rewrite !validate_str_str; cbn;
    rewrite ?validate_dict_dict; reflexivity.
Qed.

Lemma traverse_none {A B} (f : A -> option B) (l : list A) (a : A) :
  In a l -> f a = None -> traverse f l = None.
Proof.
  induction l as [| x l IH]; intros Hin Hf; [destruct Hin |].
  cbn. destruct Hin as [-> | Hin].
  - rewrite Hf. reflexivity.
  - destruct (f x); [| reflexivity]. rewrite (IH Hin Hf). reflexivity.
Qed.

End Payloads.

(** X7: the payload of [steps] has one entry for each step of the
    argument, under the key the argument gives it and in the order of the
    argument, and the payload of [dependencies] has one entry for each
    dependency, in order; the key of a step is taken from the argument
    alone and is not compared with the [id] inside the step. *)
Theorem payload_keeps_keys_and_order {pydantic : Pydantic}
        (steps : list (string * ChainClient.step_arg))
        (dependencies : list ChainClient.dependency_arg) :
  (forall formatted,
     NoDup (map fst steps) ->
     ChainClient.format_steps steps [] = inr formatted ->
     dict_keys formatted = map fst steps
     /\ Forall2 step_entry steps formatted)
  /\
  (forall formatted,
     ChainClient.format_dependencies dependencies [] = inr formatted ->
     length formatted = length dependencies
     /\ Forall2 dependency_entry dependencies formatted).
Proof.
  split.
  - intros formatted Hn Hf.
    destruct (format_steps_entries steps [] Hn Hf) as [outs [-> Ho]].
    split; [| exact Ho]. cbn.
    clear Hn Hf. induction Ho as [| kv out l l' [Hk _] _ IH];
      [reflexivity |].
    cbn. rewrite Hk. f_equal. exact IH.
  - intros formatted Hf.
    destruct (format_dependencies_entries dependencies [] Hf)
      as [outs [-> Ho]].
    split; [| exact Ho]. cbn. symmetry. eapply Forall2_length. exact Ho.
Qed.

Lemma payload_keeps_keys_and_order_witness :
  let steps :=
    [ ("first", ChainClient.step_value
                  (PDict [("id", PStr "other-id"); ("type", PStr "llm")]));
      ("second", ChainClient.step_entity
                   (ChainStep.mk "step2" "text_processor" None None [] [] [])) ] in
  exists formatted,
    ChainClient.format_steps (pydantic := Examples.exact_validators) steps []
    = inr formatted
    /\ dict_keys formatted = ["first"; "second"].
Proof.
  intros steps. eexists. split; [reflexivity |].
  refine (proj1 (proj1
    (@payload_keeps_keys_and_order Examples.exact_validators steps [])
    _ _ eq_refl)).
  repeat constructor; simpl; intuition discriminate.
Defined.

(** X8: the payload of a step, and of a dependency, is read back by its
    model class as the entity it came from, so sending a payload again as
    a raw mapping gives the same payload. *)
Theorem payload_round_trip {pydantic : Pydantic}
        (s : ChainStep.t) (d : ChainDependency.t) :
  ChainStep.parse (ChainStep.to_dict s true) = inr s
  /\ ChainDependency.parse (ChainDependency.to_dict d true) = inr d
  /\ ChainClient.format_step
       (ChainClient.step_value (PDict (ChainStep.to_dict s true)))
     = inr (ChainStep.to_dict s true)
  /\ ChainClient.format_dependency
       (ChainClient.dependency_value (PDict (ChainDependency.to_dict d true)))
     = inr (ChainDependency.to_dict d true).
Proof.
  split; [apply step_payload_round_trip |].
  split; [apply dependency_payload_round_trip |].
  split.
  - cbn [ChainClient.format_step construct].
    rewrite step_payload_round_trip. reflexivity.
  - cbn [ChainClient.format_dependency construct].
    rewrite dependency_payload_round_trip. reflexivity.
Qed.

(** X9: [Chain] reads its steps and dependencies element by element, and
    one element that its class refuses makes [Chain] refuse the whole
    response; [get], [create] and [update] then raise [ValidationError]. *)
Theorem chain_with_a_bad_element_is_refused {pydantic : Pydantic}
        (kwargs : dict) :
  (forall steps key step_kwargs,
     dict_lookup kwargs "steps" = Some (PDict steps) ->
     In (key, PDict step_kwargs) steps ->
     fails (ChainStep.parse step_kwargs) ->
     fails (Chain.parse kwargs)
     /\ exists msg,
          ChainClient.parse_chain (PDict kwargs)
          = inl (new_exc ValidationError msg))
  /\
  (forall dependencies dependency_kwargs,
     dict_lookup kwargs "dependencies" = Some (PList dependencies) ->
     In (PDict dependency_kwargs) dependencies ->
     fails (ChainDependency.parse dependency_kwargs) ->
     fails (Chain.parse kwargs)
     /\ exists msg,
          ChainClient.parse_chain (PDict kwargs)
          = inl (new_exc ValidationError msg)).
Proof.
  assert (Hwrap : fails (Chain.parse kwargs) ->
                  fails (Chain.parse kwargs)
                  /\ exists msg, ChainClient.parse_chain (PDict kwargs)
                                 = inl (new_exc ValidationError msg)).
  { intros Hf. split; [exact Hf |]. destruct Hf as [e He].
    unfold ChainClient.parse_chain. cbn. rewrite He. eexists. reflexivity. }
  split.
  - intros steps key step_kwargs Hl Hin [e He]. apply Hwrap.
    unfold Chain.parse.
    destruct (required kwargs "id" validate_str); [eexists; reflexivity |].
    cbn. destruct (optional kwargs "name" validate_str);
      [eexists; reflexivity |].
    cbn. destruct (optional kwargs "description" validate_str);
      [eexists; reflexivity |].
    cbn. unfold defaulted at 1. rewrite Hl.
    unfold validate_dict_of. rewrite validate_dict_dict.
    rewrite (traverse_none _ steps (key, PDict step_kwargs) Hin).
    + eexists. reflexivity.
    + cbn. unfold validate_model. rewrite validate_dict_dict, He. reflexivity.
  - intros dependencies dependency_kwargs Hl Hin [e He]. apply Hwrap.
    unfold Chain.parse.
    destruct (required kwargs "id" validate_str); [eexists; reflexivity |].
    cbn. destruct (optional kwargs "name" validate_str);
      [eexists; reflexivity |].
    cbn. destruct (optional kwargs "description" validate_str);
      [eexists; reflexivity |].
    cbn. destruct (defaulted kwargs "steps" _ []); [eexists; reflexivity |].
    cbn. unfold defaulted at 1. rewrite Hl.
    unfold validate_list_of. rewrite validate_list_list.
    rewrite (traverse_none _ dependencies (PDict dependency_kwargs) Hin).
    + eexists. reflexivity.
    + unfold validate_model. rewrite validate_dict_dict, He. reflexivity.
Qed.

Lemma chain_with_a_bad_element_is_refused_witness :
  fails (Chain.parse (pydantic := Examples.exact_validators)
           [ ("id", PStr "test-chain-id");
             ("steps", PDict [ ("step1", PDict [("id", PStr "step1");
                                                ("type", PStr "llm")]);
                               ("step2", PDict [("id", PStr "step2")]) ]) ]).
Proof.
  refine (proj1 (proj1
    (@chain_with_a_bad_element_is_refused Examples.exact_validators
       [ ("id", PStr "test-chain-id");
         ("steps", PDict [ ("step1", PDict [("id", PStr "step1");
                                            ("type", PStr "llm")]);
                           ("step2", PDict [("id", PStr "step2")]) ]) ])
    _ "step2" [("id", PStr "step2")] eq_refl _ _)).
  - simpl. right. left. reflexivity.
  - eexists. reflexivity.
Defined.

(* ===================================================================== *)
(** * Further properties of the HTTP transport *)
(* ===================================================================== *)

Section HttpLemmas.
Context {runtime : PythonRuntime}.

Lemma frames_until_done before frames :
  Forall2 decodes before frames ->
  forall rest,
    HTTPTransport.frames (before ++ rest)
    = yield_all frames (HTTPTransport.frames rest).
Proof.
  induction 1 as [| text frame before frames [Hd Hj] _ IH]; intros rest;
    [reflexivity |].
  cbn [app HTTPTransport.frames].
  destruct (String.eqb_spec text "[DONE]") as [-> | _]; [congruence |].
  rewrite Hj, IH. reflexivity.
Qed.

Lemma readable_body_gives_message response :
  readable_error_body response ->
  exists m, HTTPTransport.error_message_of response = inr m.
Proof.
  intros [Hn | [d [Hj [Hl | [e Hl]]]]].
  - eexists. apply error_message_of_text. exact Hn.
  - eexists. eapply error_message_of_no_error; eassumption.
  - eexists. eapply error_message_of_object; eassumption.
Qed.

Lemma handler_message response m :
  HTTPTransport.error_message_of response = inr m ->
  message (HTTPTransport._handle_error_response response)
  = (message_prefix (Response.status_code response) ++ py_str m)%string.
Proof.
  intros Hm. unfold HTTPTransport._handle_error_response, message_prefix.
  rewrite Hm.
  destruct (Response.status_code response =? 401)%Z; [reflexivity |].
  destruct (Response.status_code response =? 429)%Z; [reflexivity |].
  destruct (Response.status_code response >=? 500)%Z; reflexivity.
Qed.

End HttpLemmas.

(** X10: the HTTP stream yields the decoded frames in order and ends at
    the first [[DONE]] event; what the server sends after it is neither
    decoded nor yielded.  A body that ends without the sentinel ends the
    stream in the same way. *)
Theorem done_sentinel_ends_the_stream {runtime : PythonRuntime}
        (response : Response.t) (before after : list string)
        (frames : list pyval) :
  (Response.status_code response < 400)%Z ->
  Forall2 decodes before frames ->
  (Response.events response = before ++ "[DONE]" :: after ->
   HTTPTransport.stream (inr response) = yield_all frames Stop)
  /\
  (Response.events response = before ->
   HTTPTransport.stream (inr response) = yield_all frames Stop).
Proof.
  intros Hs Hd. rewrite (http_stream_frames _ Hs). split; intros ->.
  - rewrite (frames_until_done Hd). reflexivity.
  - rewrite <- (app_nil_r before), (frames_until_done Hd). reflexivity.
Qed.

Lemma done_sentinel_ends_the_stream_witness :
  HTTPTransport.stream (runtime := Examples.table_runtime)
    (inr (Response.mk 200 ""
            [Examples.step_completed_text; "[DONE]"; "not json"]))
  = Yield Examples.step_completed_frame Stop.
Proof.
  refine (proj1
    (@done_sentinel_ends_the_stream Examples.table_runtime
       (Response.mk 200 ""
          [Examples.step_completed_text; "[DONE]"; "not json"])
       [Examples.step_completed_text] ["not json"]
       [Examples.step_completed_frame] _ _) eq_refl).
  - simpl. lia.
  - constructor; [| constructor]. split; [discriminate | reflexivity].
Defined.

(** X11: a streaming request that is answered with an error status
    raises the exception of the error handler before any frame, whatever
    events the body holds; and a [RequestException] of the session becomes
    an [APIError] without status, in [request] and in [stream] alike. *)
Theorem stream_raises_before_any_frame {runtime : PythonRuntime}
        (response : Response.t) (failure : string) (stream_flag : bool) :
  ((Response.status_code response >= 400)%Z ->
   HTTPTransport.stream (inr response)
   = Raise (HTTPTransport._handle_error_response response)
   /\ yielded (HTTPTransport.stream (inr response)) = [])
  /\ HTTPTransport.request (inl failure) stream_flag
     = inl (new_APIError APIError ("Request failed: " ++ failure) None)
  /\ HTTPTransport.stream (inl failure)
     = Raise (new_APIError APIError ("Request failed: " ++ failure) None).
Proof.
  split; [| split; reflexivity].
  intros Hs. unfold HTTPTransport.stream. cbn.
  destruct (Response.status_code response >=? 400)%Z eqn:E.
  - split; reflexivity.
  - rewrite Z.geb_leb in E. apply Z.leb_gt in E. lia.
Qed.

Lemma stream_raises_before_any_frame_witness :
  HTTPTransport.stream (runtime := Examples.table_runtime)
    (inr (Response.mk 503 "down" [Examples.step_completed_text]))
  = Raise (new_APIError ServerError "Server error: down" None).
Proof.
  refine (proj1 (proj1
    (@stream_raises_before_any_frame Examples.table_runtime
       (Response.mk 503 "down" [Examples.step_completed_text]) "" false) _)).
  simpl. lia.
Defined.

(** X12: for a status below 400, [request] returns the decoded body and
    never the response object; a body that does not decode makes it raise
    instead of returning; with [stream=True] it returns the response
    object for every status, an error status included, and raises
    nothing. *)
Theorem request_returns_the_decoded_body {runtime : PythonRuntime}
        (response : Response.t) :
  ((Response.status_code response < 400)%Z ->
   (forall v,
      json_loads (Response.text response) = Some v ->
      HTTPTransport.request (inr response) false = inr (inl v))
   /\ (json_loads (Response.text response) = None ->
       exists e,
         HTTPTransport.request (inr response) false = inl e
         /\ exc_type e = if json_error_is_request_exception
                         then APIError else JSONDecodeError))
  /\ HTTPTransport.request (inr response) true = inr (inr response).
Proof.
  split; [| reflexivity].
  intros Hs.
  assert (E : (Response.status_code response >=? 400)%Z = false).
  { rewrite Z.geb_leb. apply Z.leb_gt. exact Hs. }
  split.
  - intros v Hj. unfold HTTPTransport.request, HTTPTransport.json.
    rewrite E, Hj. reflexivity.
  - intros Hj. unfold HTTPTransport.request, HTTPTransport.json.
    rewrite E, Hj. cbn.
    destruct json_error_is_request_exception; eexists; split; reflexivity.
Qed.

Lemma request_returns_the_decoded_body_witness :
  HTTPTransport.request (runtime := Examples.table_runtime)
    (inr (Response.mk 200 "{}" [])) false
  = inr (inl (PDict [])).
Proof.
  refine (proj1 (proj1
    (@request_returns_the_decoded_body Examples.table_runtime
       (Response.mk 200 "{}" [])) _) (PDict []) eq_refl).
  simpl. lia.
Defined.

(** X13: when the body of an error response is one the handler can read
    (text that is not JSON, or an object whose ["error"] is absent or an
    object), [request] raises the class that the status selects: 401
    [AuthenticationError], 429 [RateLimitError], 500 and above
    [ServerError], any other status from 400 on a plain [APIError] that
    carries the status. *)
Theorem status_selects_the_class {runtime : PythonRuntime}
        (response : Response.t) :
  (Response.status_code response >= 400)%Z ->
  readable_error_body response ->
  exists e,
    HTTPTransport.request (inr response) false = inl e
    /\ isinstance e APIError = true
    /\ (Response.status_code response = 401%Z ->
        exc_type e = AuthenticationError)
    /\ (Response.status_code response = 429%Z ->
        exc_type e = RateLimitError)
    /\ ((Response.status_code response >= 500)%Z ->
        exc_type e = ServerError)
    /\ (Response.status_code response <> 401%Z ->
        Response.status_code response <> 429%Z ->
        (Response.status_code response < 500)%Z ->
        exc_type e = APIError
        /\ status_code e = Some (Response.status_code response)).
Proof.
  intros Hs Hr.
  destruct (readable_body_gives_message Hr) as [m Hm].
  exists (HTTPTransport._handle_error_response response).
  split; [apply request_raises_handler; exact Hs |].
  destruct (handler_selects_class response Hm) as [Hc [Hi _]].
  split; [exact Hi |].
  unfold HTTPTransport._handle_error_response in *. rewrite Hm in *.
  clear Hc Hi.
  destruct (Z.eqb_spec (Response.status_code response) 401) as [E1 | E1].
  { repeat split; try reflexivity; intros; lia. }
  destruct (Z.eqb_spec (Response.status_code response) 429) as [E2 | E2].
  { repeat split; try reflexivity; intros; lia. }
  destruct (Response.status_code response >=? 500)%Z eqn:E3.
  { rewrite Z.geb_leb in E3. apply Z.leb_le in E3.
    repeat split; try reflexivity; intros; lia. }
  rewrite Z.geb_leb in E3. apply Z.leb_gt in E3.
  repeat split; try reflexivity; intros; lia.
Qed.

Lemma status_selects_the_class_witness :
  exists e,
    HTTPTransport.request (runtime := Examples.table_runtime)
      (inr (Response.mk 404 "{}" [])) false = inl e
    /\ exc_type e = APIError /\ status_code e = Some 404%Z.
Proof.
  destruct (@status_selects_the_class Examples.table_runtime
              (Response.mk 404 "{}" []))
    as [e [He [_ [_ [_ [_ Hg]]]]]].
  - simpl. lia.
  - right. exists []. split; [reflexivity | left; reflexivity].
  - exists e. split; [exact He |]. apply Hg; simpl; lia.
Defined.

(** X14: the message of the exception is the text of the branch followed
    by the message of the body: the text of a body that is not JSON, the
    ["message"] string of the ["error"] object, and ["Unknown error"]
    when the body is empty, has no ["error"], or its ["error"] has no
    ["message"]. *)
Theorem error_message_text {runtime : PythonRuntime}
        (response : Response.t) :
  (json_loads (Response.text response) = None ->
   message (HTTPTransport._handle_error_response response)
   = (message_prefix (Response.status_code response)
      ++ str_or (Response.text response) "Unknown error")%string)
  /\
  (forall d e m,
     json_loads (Response.text response) = Some (PDict d) ->
     dict_lookup d "error" = Some (PDict e) ->
     dict_lookup e "message" = Some (PStr m) ->
     message (HTTPTransport._handle_error_response response)
     = (message_prefix (Response.status_code response) ++ m)%string)
  /\
  (forall d,
     json_loads (Response.text response) = Some (PDict d) ->
     dict_lookup d "error" = None
     \/ (exists e, dict_lookup d "error" = Some (PDict e)
                   /\ dict_lookup e "message" = None) ->
     message (HTTPTransport._handle_error_response response)
     = (message_prefix (Response.status_code response)
        ++ "Unknown error")%string).
Proof.
  split; [| split].
  - intros Hj.
    rewrite (handler_message _ (error_message_of_text _ Hj)), py_str_str.
    reflexivity.
  - intros d e m Hj Hl Hm.
    rewrite (handler_message _ (error_message_of_object _ Hj Hl)).
    unfold dict_get. rewrite Hm, py_str_str. reflexivity.
  - intros d Hj [Hl | [e [Hl Hm]]].
    + rewrite (handler_message _ (error_message_of_no_error _ Hj Hl)),
        py_str_str. reflexivity.
    + rewrite (handler_message _ (error_message_of_object _ Hj Hl)).
      unfold dict_get. rewrite Hm, py_str_str. reflexivity.
Qed.

Lemma error_message_text_witness :
  message (HTTPTransport._handle_error_response
             (runtime := Examples.table_runtime) (Response.mk 500 "" []))
  = "Server error: Unknown error"
  /\ message (HTTPTransport._handle_error_response
                (runtime := Examples.table_runtime) (Response.mk 404 "{}" []))
     = "API error: Unknown error".
Proof.
  split.
  - apply (proj1 (@error_message_text Examples.table_runtime
                    (Response.mk 500 "" []))).
    reflexivity.
  - apply (proj2 (proj2 (@error_message_text Examples.table_runtime
                           (Response.mk 404 "{}" []))) []).
    + reflexivity.
    + left. reflexivity.
Defined.

(* ===================================================================== *)
(** * Further properties of streaming *)
(* ===================================================================== *)

(** X15: whatever the transport's sequence is, the events that [stream]
    yields are the readings of a prefix of the frames, one event for each
    frame and in order; [stream] ends normally only when the transport
    ended normally and every frame was yielded as an event; and when it
    raises, it raises the transport's own exception or a
    [ValidationError]. *)
Theorem stream_yields_a_prefix {pydantic : Pydantic}
        (transport : Transport.t) (log : list Transport.call)
        (chain_id : string) (inputs : dict) (config : option dict) :
  let frames :=
    Transport.stream transport log (stream_call chain_id inputs config) in
  let events :=
    fst (ChainClient.stream transport chain_id inputs config log) in
  Forall2 frame_of (firstn (length (yielded events)) (yielded frames))
          (yielded events)
  /\ (outcome events = None ->
      outcome frames = None
      /\ length (yielded events) = length (yielded frames))
  /\ (forall e, outcome events = Some e ->
                outcome frames = Some e \/ is_validation_error e).
Proof.
  intros frames events. unfold events. rewrite stream_unfold. cbn [fst].
  fold frames. clear events. generalize frames as g. clear frames.
  induction g as [| e | frame rest [IH1 [IH2 IH3]]].
  - cbn. repeat split; [constructor | discriminate].
  - cbn. split; [constructor |]. split; [discriminate |].
    intros e' [= <-]. left. reflexivity.
  - cbn [ChainClient.events_of].
    destruct (construct ChainExecutionEvent.parse frame) as [e | ev] eqn:E;
      cbn.
    + split; [constructor |]. split; [discriminate |].
      intros e' [= <-]. right. eexists. reflexivity.
    + split; [constructor; [exact E | exact IH1] |].
      split.
      * intros Ho. destruct (IH2 Ho) as [H1 H2]. split; [exact H1 |].
        f_equal. exact H2.
      * exact IH3.
Qed.

Lemma stream_yields_a_prefix_witness :
  let events :=
    fst (ChainClient.stream (pydantic := Examples.exact_validators)
           (Examples.constant_transport PNone
              (Yield Examples.step_completed_frame
                 (Yield (PDict [("chain_id", PStr "c1")])
                    (Yield Examples.chain_completed_frame Stop))))
           "c1" [] None []) in
  length (yielded events) = 1
  /\ exists e, outcome events = Some e /\ is_validation_error e.
Proof.
  intros events. split; [reflexivity |].
  destruct (@stream_yields_a_prefix Examples.exact_validators
              (Examples.constant_transport PNone
                 (Yield Examples.step_completed_frame
                    (Yield (PDict [("chain_id", PStr "c1")])
                       (Yield Examples.chain_completed_frame Stop))))
              [] "c1" [] None) as [_ [_ H3]].
  eexists. split; [reflexivity |].
  destruct (H3 _ eq_refl) as [F | Hv]; [discriminate F | exact Hv].
Defined.

(* ===================================================================== *)
(** * Properties of the configuration and of the main client *)
(* ===================================================================== *)

Lemma dict_lookup_set_same (d : dict) (k : string) (v : pyval) :
  dict_lookup (dict_set d k v) k = Some v.
Proof.
  induction d as [| [k' v'] d IH]; cbn.
  - rewrite String.eqb_refl. reflexivity.
  - destruct (String.eqb_spec k k') as [-> | Hn]; cbn.
    + rewrite String.eqb_refl. reflexivity.
    + destruct (String.eqb_spec k k'); [contradiction | exact IH].
Qed.

Lemma dict_lookup_set_other (d : dict) (k k' : string) (v : pyval) :
  k' <> k -> dict_lookup (dict_set d k v) k' = dict_lookup d k'.
Proof.
  intros Hn. induction d as [| [k0 v0] d IH]; cbn.
  - destruct (String.eqb_spec k' k); [contradiction | reflexivity].
  - destruct (String.eqb_spec k k0) as [-> | Hk]; cbn.
    + destruct (String.eqb_spec k' k0); [contradiction | reflexivity].
    + destruct (String.eqb_spec k' k0); [reflexivity | exact IH].
Qed.

Lemma dict_keys_set (d : dict) (k : string) (v : pyval) :
  exists tail, dict_keys (dict_set d k v) = dict_keys d ++ tail.
Proof.
  induction d as [| [k' v'] d [tail IH]]; cbn.
  - exists [k]. reflexivity.
  - destruct (String.eqb k k'); cbn.
    + exists []. rewrite app_nil_r. reflexivity.
    + exists tail. unfold dict_keys in IH. rewrite IH. reflexivity.
Qed.

Lemma dict_lookup_absent (d : dict) (k : string) :
  ~ In k (dict_keys d) -> dict_lookup d k = None.
Proof.
  induction d as [| [k' v'] d IH]; intros Hn; [reflexivity |].
  cbn in *. destruct (String.eqb_spec k k') as [-> | _].
  - exfalso. apply Hn. left. reflexivity.
  - apply IH. intros Hin. apply Hn. right. exact Hin.
Qed.

Section ConfigurationLemmas.
Context {system : System}.

Lemma run_try_invariant (P : Configuration.t -> Prop) statements :
  Forall (fun statement =>
            forall s s', P s -> statement s = inr s' -> P s') statements ->
  forall self, P self -> P (fst (Configuration.run_try statements self)).
Proof.
  induction 1 as [| statement rest Hs _ IH]; intros self Hp; [exact Hp |].
  cbn. destruct (statement self) as [e | self'] eqn:E; [exact Hp |].
  apply IH. eapply Hs; eassumption.
Qed.

Lemma update_from_file_result name getter setter data self self' :
  Configuration.update_from_file name getter setter data self = inr self' ->
  self' = self
  \/ (truthy (getter self) = false
      /\ exists v, py_getitem data name = inr v /\ self' = setter self v).
Proof.
  unfold Configuration.update_from_file.
  destruct (py_contains data name) as [e | present]; cbn; [discriminate |].
  destruct present; cbn; [| intros [= <-]; left; reflexivity].
  destruct (truthy (getter self)); cbn; [intros [= <-]; left; reflexivity |].
  destruct (py_getitem data name) as [e | v]; cbn; [discriminate |].
  intros [= <-]. right. split; [reflexivity |]. exists v. split; reflexivity.
Qed.

(** What holds before the file is read holds after it, when no
    assignment that the file can cause breaks it. *)
Lemma load_invariant (P : Configuration.t -> Prop) self :
  (forall s v, P s -> truthy (Configuration.api_key s) = false ->
               P (Configuration.set_api_key s v)) ->
  (forall s v, P s -> truthy (Configuration.base_url s) = false ->
               P (Configuration.set_base_url s v)) ->
  (forall s v, P s -> truthy (Configuration.timeout s) = false ->
               P (Configuration.set_timeout s v)) ->
  (forall s v, P s -> truthy (Configuration.max_retries s) = false ->
               P (Configuration.set_max_retries s v)) ->
  (forall s settings, P s -> P (Configuration.set_settings s settings)) ->
  P self -> P (Configuration._load_from_file self).
Proof.
  intros H1 H2 H3 H4 H5 Hp. unfold Configuration._load_from_file.
  destruct (read_config Configuration.config_file_path); try exact Hp.
  apply run_try_invariant; [| exact Hp].
  repeat constructor; intros s s' Hs Hr;
    try (apply update_from_file_result in Hr;
         destruct Hr as [-> | [Ht [v [_ ->]]]]; auto).
  unfold Configuration.update_settings_from_file in Hr.
  destruct (py_items config_data); cbn in Hr; [discriminate |].
  injection Hr as <-. auto.
Qed.

Lemma truthy_str (s : string) : s <> "" -> truthy (PStr s) = true.
Proof. destruct s; [congruence | reflexivity]. Qed.

Lemma truthy_int (z : Z) : z <> 0%Z -> truthy (PInt z) = true.
Proof.
  intros Hz. cbn. destruct (Z.eqb_spec z 0); [contradiction | reflexivity].
Qed.

(** An attribute that is truthy before the file is read keeps its
    value. *)
Lemma load_keeps_truthy self :
  (truthy (Configuration.api_key self) = true ->
   Configuration.api_key (Configuration._load_from_file self)
   = Configuration.api_key self)
  /\ (truthy (Configuration.base_url self) = true ->
      Configuration.base_url (Configuration._load_from_file self)
      = Configuration.base_url self)
  /\ (truthy (Configuration.timeout self) = true ->
      Configuration.timeout (Configuration._load_from_file self)
      = Configuration.timeout self)
  /\ (truthy (Configuration.max_retries self) = true ->
      Configuration.max_retries (Configuration._load_from_file self)
      = Configuration.max_retries self).
Proof.
  repeat split; intros Ht.
  - apply (load_invariant
             (fun s => Configuration.api_key s = Configuration.api_key self));
      cbn; auto.
    intros s v Hs Hf. rewrite Hs in Hf. congruence.
  - apply (load_invariant
             (fun s => Configuration.base_url s = Configuration.base_url self));
      cbn; auto.
    intros s v Hs Hf. rewrite Hs in Hf. congruence.
  - apply (load_invariant
             (fun s => Configuration.timeout s = Configuration.timeout self));
      cbn; auto.
    intros s v Hs Hf. rewrite Hs in Hf. congruence.
  - apply (load_invariant
             (fun s => Configuration.max_retries s
                       = Configuration.max_retries self));
      cbn; auto.
    intros s v Hs Hf. rewrite Hs in Hf. congruence.
Qed.

Lemma str_arg_or_default (x : option string) (d : string) :
  d <> "" -> Configuration.str_arg_or x d <> "".
Proof.
  intros Hd. destruct x as [s |]; cbn; [| exact Hd].
  destruct s; cbn; [exact Hd | discriminate].
Qed.

Lemma int_arg_or_default (x : option Z) (text : string) (d : Z) :
  int_of_str text = inr d ->
  Configuration.int_arg_or x text = inr (int_or x d).
Proof.
  intros Hi. destruct x as [z |]; cbn; [| exact Hi].
  destruct (z =? 0)%Z; [exact Hi | reflexivity].
Qed.

Lemma int_or_nonzero (x : option Z) (d : Z) : d <> 0%Z -> int_or x d <> 0%Z.
Proof.
  intros Hd. destruct x as [z |]; cbn; [| exact Hd].
  destruct (Z.eqb_spec z 0); [exact Hd | assumption].
Qed.

End ConfigurationLemmas.

(** What the arguments or the environment set is what the configuration
    holds after the file was read. *)
Lemma init_keeps_set_values {system : System}
        (api_key base_url : option string) (timeout max_retries : option Z)
        (kwargs : dict) (c : Configuration.t) :
  Configuration.__init__ api_key base_url timeout max_retries kwargs = inr c ->
  (Configuration.str_arg_or api_key (getenv environ "INTELLIROUTER_API_KEY" "")
   <> "" ->
   Configuration.api_key c
   = PStr (Configuration.str_arg_or api_key
             (getenv environ "INTELLIROUTER_API_KEY" "")))
  /\
  (Configuration.str_arg_or base_url
     (getenv environ "INTELLIROUTER_BASE_URL" "http://localhost:8000") <> "" ->
   Configuration.base_url c
   = PStr (Configuration.str_arg_or base_url
             (getenv environ "INTELLIROUTER_BASE_URL" "http://localhost:8000")))
  /\
  (forall z,
     Configuration.int_arg_or timeout
       (getenv environ "INTELLIROUTER_TIMEOUT" "60") = inr z ->
     z <> 0%Z -> Configuration.timeout c = PInt z)
  /\
  (forall z,
     Configuration.int_arg_or max_retries
       (getenv environ "INTELLIROUTER_MAX_RETRIES" "3") = inr z ->
     z <> 0%Z -> Configuration.max_retries c = PInt z).
Proof.
  unfold Configuration.__init__. intros Hc.
  destruct (Configuration.int_arg_or timeout _) as [e | t]; cbn in Hc;
    [discriminate |].
  destruct (Configuration.int_arg_or max_retries _) as [e | r]; cbn in Hc;
    [discriminate |].
  injection Hc as <-.
  match goal with
  | |- context [Configuration._load_from_file ?s] =>
      destruct (load_keeps_truthy s) as [H1 [H2 [H3 H4]]]
  end.
  cbn in H1, H2, H3, H4.
  split; [intros Hn; apply H1, truthy_str, Hn |].
  split; [intros Hn; apply H2, truthy_str, Hn |].
  split.
  - intros z [= <-] Hz. apply H3. cbn.
    destruct (Z.eqb_spec t 0); [contradiction | reflexivity].
  - intros z [= <-] Hz. apply H4. cbn.
    destruct (Z.eqb_spec r 0); [contradiction | reflexivity].
Qed.

(** X16: the configuration file never replaces a value that the
    arguments or the environment gave: whenever the argument, or else the
    environment variable, is a non-empty string (a non-zero integer for
    [timeout] and [max_retries]), the attribute has that value whatever
    the file holds. *)
Theorem file_never_overrides_a_set_value {system : System}
        (api_key base_url : option string) (timeout max_retries : option Z)
        (kwargs : dict) (c : Configuration.t) :
  Configuration.__init__ api_key base_url timeout max_retries kwargs = inr c ->
  (Configuration.str_arg_or api_key (getenv environ "INTELLIROUTER_API_KEY" "")
   <> "" ->
   Configuration.api_key c
   = PStr (Configuration.str_arg_or api_key
             (getenv environ "INTELLIROUTER_API_KEY" "")))
  /\
  (Configuration.str_arg_or base_url
     (getenv environ "INTELLIROUTER_BASE_URL" "http://localhost:8000") <> "" ->
   Configuration.base_url c
   = PStr (Configuration.str_arg_or base_url
             (getenv environ "INTELLIROUTER_BASE_URL" "http://localhost:8000")))
  /\
  (forall z,
     Configuration.int_arg_or timeout
       (getenv environ "INTELLIROUTER_TIMEOUT" "60") = inr z ->
     z <> 0%Z -> Configuration.timeout c = PInt z)
  /\
  (forall z,
     Configuration.int_arg_or max_retries
       (getenv environ "INTELLIROUTER_MAX_RETRIES" "3") = inr z ->
     z <> 0%Z -> Configuration.max_retries c = PInt z).
Proof. apply init_keeps_set_values. Qed.

Lemma file_never_overrides_a_set_value_witness :
  exists c,
    Configuration.__init__ (system := SystemExamples.bare_system)
      (Some "test-api-key") (Some "http://test-url.com") None None [] = inr c
    /\ Configuration.api_key c = PStr "test-api-key"
    /\ Configuration.base_url c = PStr "http://test-url.com".
Proof.
  eexists. split; [reflexivity |].
  destruct (@file_never_overrides_a_set_value SystemExamples.bare_system
              (Some "test-api-key") (Some "http://test-url.com") None None []
              _ eq_refl) as [H1 [H2 _]].
  split; [apply H1 | apply H2]; discriminate.
Defined.

(** X17: with the three environment variables for them unset, the
    configuration is constructed and [base_url], [timeout] and
    [max_retries] are the arguments, or the defaults
    [http://localhost:8000], [60] and [3] where an argument is missing,
    empty or zero: the configuration file cannot set them. *)
Theorem file_cannot_set_url_or_limits {system : System}
        (api_key base_url : option string) (timeout max_retries : option Z)
        (kwargs : dict) :
  getenv environ "INTELLIROUTER_BASE_URL" "http://localhost:8000"
  = "http://localhost:8000" ->
  getenv environ "INTELLIROUTER_TIMEOUT" "60" = "60" ->
  getenv environ "INTELLIROUTER_MAX_RETRIES" "3" = "3" ->
  exists c,
    Configuration.__init__ api_key base_url timeout max_retries kwargs = inr c
    /\ Configuration.base_url c
       = PStr (Configuration.str_arg_or base_url "http://localhost:8000")
    /\ Configuration.timeout c = PInt (int_or timeout 60)
    /\ Configuration.max_retries c = PInt (int_or max_retries 3).
Proof.
  intros Hu Ht Hr.
  assert (Hti := int_arg_or_default timeout "60" int_of_str_60).
  assert (Hri := int_arg_or_default max_retries "3" int_of_str_3).
  assert (Hc : exists c, Configuration.__init__ api_key base_url timeout
                           max_retries kwargs = inr c).
  { unfold Configuration.__init__. rewrite Ht, Hr, Hti, Hri. cbn.
    eexists. reflexivity. }
  destruct Hc as [c Hc]. exists c. split; [exact Hc |].
  destruct (init_keeps_set_values _ _ _ _ _ Hc)
    as [_ [H2 [H3 H4]]].
  rewrite Hu in H2. rewrite Ht in H3. rewrite Hr in H4.
  split; [apply H2, str_arg_or_default; discriminate |].
  split.
  - apply H3; [exact Hti | apply int_or_nonzero; discriminate].
  - apply H4; [exact Hri | apply int_or_nonzero; discriminate].
Qed.

Lemma file_cannot_set_url_or_limits_witness :
  exists c,
    Configuration.__init__ (system := SystemExamples.bare_system)
      None None None (Some 0%Z) [] = inr c
    /\ Configuration.base_url c = PStr "http://localhost:8000"
    /\ Configuration.timeout c = PInt 60
    /\ Configuration.max_retries c = PInt 3.
Proof.
  apply (@file_cannot_set_url_or_limits SystemExamples.bare_system
           None None None (Some 0%Z) []); reflexivity.
Defined.

Section FileLemmas.
Context {system : System}.

(** With a JSON object in the file, no statement of the [try] block
    raises, and the settings take every entry of the object outside the
    four attribute names. *)
Lemma load_object self d :
  read_config Configuration.config_file_path = file_content (PDict d) ->
  exists s,
    Configuration._load_from_file self
    = Configuration.set_settings s
        (Configuration.update_settings d (Configuration._settings self))
    /\ (truthy (Configuration.api_key self) = false ->
        forall v, dict_lookup d "api_key" = Some v ->
                  Configuration.api_key s = v).
Proof.
  intros Hr. unfold Configuration._load_from_file. rewrite Hr.
  unfold Configuration.update_from_file,
         Configuration.update_settings_from_file.
  cbn [Configuration.run_try py_contains py_getitem py_items bind ret fst].
  destruct self as [a b t r st]. cbn.
  destruct (dict_lookup d "api_key") as [va |], (truthy a); cbn;
    destruct (dict_lookup d "base_url") as [vb |], (truthy b); cbn;
    destruct (dict_lookup d "timeout") as [vt |], (truthy t); cbn;
    destruct (dict_lookup d "max_retries") as [vr |], (truthy r); cbn;
    eexists; (split; [reflexivity |]); cbn;
    intros Hf v Hv; congruence.
Qed.

Lemma update_settings_lookup items :
  NoDup (map fst items) ->
  forall settings k,
    dict_lookup (Configuration.update_settings items settings) k
    = if existsb (String.eqb k) Configuration.attribute_names
      then dict_lookup settings k
      else match dict_lookup items k with
           | Some v => Some v
           | None => dict_lookup settings k
           end.
Proof.
  induction items as [| [key value] rest IH]; intros Hn settings k.
  - cbn [Configuration.update_settings dict_lookup].
    destruct (existsb _ _); reflexivity.
  - inversion Hn as [| ? ? Hnotin Hrest]; subst.
    cbn [Configuration.update_settings dict_lookup].
    destruct (existsb (String.eqb key) Configuration.attribute_names) eqn:Ek.
    + rewrite (IH Hrest).
      destruct (existsb (String.eqb k) Configuration.attribute_names) eqn:E;
        [reflexivity |].
      destruct (String.eqb_spec k key) as [-> | _]; [congruence | reflexivity].
    + rewrite (IH Hrest).
      destruct (existsb (String.eqb k) Configuration.attribute_names) eqn:E.
      * apply dict_lookup_set_other. intros ->. congruence.
      * destruct (String.eqb_spec k key) as [-> | Hk].
        -- rewrite (dict_lookup_absent rest key Hnotin).
           apply dict_lookup_set_same.
        -- rewrite (dict_lookup_set_other _ _ Hk). reflexivity.
Qed.

End FileLemmas.

(** X18: when neither the argument nor the environment gives an API key
    and the configuration file holds a JSON object with ["api_key"], the
    key of the configuration is the value in the file. *)
Theorem file_supplies_the_missing_api_key {system : System}
        (api_key base_url : option string) (timeout max_retries : option Z)
        (kwargs d : dict) (v : pyval) (c : Configuration.t) :
  Configuration.__init__ api_key base_url timeout max_retries kwargs = inr c ->
  Configuration.str_arg_or api_key (getenv environ "INTELLIROUTER_API_KEY" "")
  = "" ->
  read_config Configuration.config_file_path = file_content (PDict d) ->
  dict_lookup d "api_key" = Some v ->
  Configuration.api_key c = v.
Proof.
  unfold Configuration.__init__. intros Hc Hk Hr Hl.
  destruct (Configuration.int_arg_or timeout _) as [e | t]; cbn in Hc;
    [discriminate |].
  destruct (Configuration.int_arg_or max_retries _) as [e | r]; cbn in Hc;
    [discriminate |].
  injection Hc as <-. rewrite Hk.
  match goal with
  | |- context [Configuration._load_from_file ?s] =>
      destruct (load_object s Hr) as [s' [Hs Ha]]
  end.
  rewrite Hs. cbn. apply Ha; [reflexivity | exact Hl].
Qed.

Lemma file_supplies_the_missing_api_key_witness :
  exists c,
    Configuration.__init__ (system := SystemExamples.bare_system)
      None None None None [] = inr c
    /\ Configuration.api_key c = PStr "file-key".
Proof.
  eexists. split; [reflexivity |].
  apply (@file_supplies_the_missing_api_key SystemExamples.bare_system
           None None None None []
           [ ("api_key", PStr "file-key");
             ("base_url", PStr "http://file.example");
             ("region", PStr "eu") ]
           (PStr "file-key") _ eq_refl eq_refl eq_refl eq_refl).
Defined.

(** X19: a configuration file that is missing, cannot be read, or whose
    content is JSON but not an object (a list, a string, a number,
    [null]) changes nothing: every attribute and every setting stays as it
    was before the file was read. *)
Theorem file_that_is_not_an_object_changes_nothing {system : System}
        (self : Configuration.t) :
  (read_config Configuration.config_file_path = file_absent
   \/ (exists e, read_config Configuration.config_file_path
                 = file_unreadable e)
   \/ (exists config_data,
         read_config Configuration.config_file_path
         = file_content config_data
         /\ forall d, config_data <> PDict d)) ->
  Configuration._load_from_file self = self.
Proof.
  intros [Hr | [[e Hr] | [config_data [Hr Hn]]]];
    unfold Configuration._load_from_file; rewrite Hr; try reflexivity.
  assert (Hg : forall name, exists e, py_getitem config_data name = inl e).
  { intros name. destruct config_data; cbn; try (eexists; reflexivity).
    exfalso. eapply Hn. reflexivity. }
  apply (run_try_invariant (fun s => s = self)); [| reflexivity].
  repeat constructor; intros s s' -> Hs;
    try (apply update_from_file_result in Hs;
         destruct Hs as [-> | [_ [v [Hv _]]]]; [reflexivity |];
         match type of Hv with
         | py_getitem _ ?name = _ => destruct (Hg name) as [e He]
         end; congruence).
  unfold Configuration.update_settings_from_file in Hs.
  destruct config_data; cbn in Hs; try discriminate.
  exfalso. eapply Hn. reflexivity.
Qed.

Lemma file_that_is_not_an_object_changes_nothing_witness :
  exists c,
    Configuration.__init__ (system := SystemExamples.env_system)
      (Some "") None None None [("region", PStr "us")] = inr c
    /\ c = Configuration.mk (PStr "env-key") (PStr "http://localhost:8000")
             (PInt 30) (PInt 3) [("region", PStr "us")].
Proof.
  eexists. split; [reflexivity |].
  apply (@file_that_is_not_an_object_changes_nothing
           SystemExamples.env_system
           (Configuration.mk (PStr "env-key") (PStr "http://localhost:8000")
              (PInt 30) (PInt 3) [("region", PStr "us")])).
  right. right. exists (PStr "api_key"). split; [reflexivity | discriminate].
Defined.

(** X20: from a configuration file that holds a JSON object, every
    entry whose key is not one of the four attribute names becomes a
    setting, replacing a keyword argument of the same name; the four
    attribute names never become settings through the file. *)
Theorem file_entries_become_settings {system : System}
        (self : Configuration.t) (d : dict) (default : pyval) :
  read_config Configuration.config_file_path = file_content (PDict d) ->
  NoDup (map fst d) ->
  (forall k v,
     ~ In k Configuration.attribute_names ->
     dict_lookup d k = Some v ->
     Configuration.get (Configuration._load_from_file self) k default = v)
  /\
  (forall k,
     In k Configuration.attribute_names \/ dict_lookup d k = None ->
     Configuration.get (Configuration._load_from_file self) k default
     = Configuration.get self k default).
Proof.
  intros Hr Hn. destruct (load_object self Hr) as [s [Hs _]].
  rewrite Hs. unfold Configuration.get, dict_get. cbn.
  split.
  - intros k v Hk Hl. rewrite update_settings_lookup by exact Hn.
    destruct (existsb (String.eqb k) Configuration.attribute_names) eqn:E.
    + exfalso. apply existsb_exists in E. destruct E as [x [Hin Hx]].
      apply String.eqb_eq in Hx. subst x. exact (Hk Hin).
    + rewrite Hl. reflexivity.
  - intros k Hk. rewrite update_settings_lookup by exact Hn.
    destruct (existsb (String.eqb k) Configuration.attribute_names) eqn:E;
      [reflexivity |].
    destruct Hk as [Hin | Hl].
    + exfalso. assert (Ht : existsb (String.eqb k)
                                     Configuration.attribute_names = true).
      { apply existsb_exists. exists k. split; [exact Hin |].
        apply String.eqb_refl. }
      congruence.
    + rewrite Hl. reflexivity.
Qed.

Lemma file_entries_become_settings_witness :
  exists c,
    Configuration.__init__ (system := SystemExamples.bare_system)
      (Some "k") None None None [("region", PStr "us")] = inr c
    /\ Configuration.get c "region" PNone = PStr "eu"
    /\ Configuration.get c "api_key" PNone = PNone.
Proof.
  eexists. split; [reflexivity |].
  destruct (@file_entries_become_settings SystemExamples.bare_system
              (Configuration.mk (PStr "k") (PStr "http://localhost:8000")
                 (PInt 60) (PInt 3) [("region", PStr "us")])
              [ ("api_key", PStr "file-key");
                ("base_url", PStr "http://file.example");
                ("region", PStr "eu") ]
              PNone eq_refl) as [H1 H2].
  - repeat constructor; simpl; intuition discriminate.
  - split.
    + apply H1; [| reflexivity].
      simpl. intuition discriminate.
    + apply (H2 "api_key"). left. simpl. left. reflexivity.
Defined.

(** X21: [set] followed by [get] of the same key returns the value that
    was set, whatever the default; the other keys and the four attributes
    are untouched; [get] of a key that was never set returns the
    default. *)
Theorem set_then_get (self : Configuration.t) (key : string)
        (value default : pyval) :
  Configuration.get (Configuration.set self key value) key default = value
  /\ (forall other,
        other <> key ->
        Configuration.get (Configuration.set self key value) other default
        = Configuration.get self other default)
  /\ Configuration.api_key (Configuration.set self key value)
     = Configuration.api_key self
  /\ Configuration.base_url (Configuration.set self key value)
     = Configuration.base_url self
  /\ Configuration.timeout (Configuration.set self key value)
     = Configuration.timeout self
  /\ Configuration.max_retries (Configuration.set self key value)
     = Configuration.max_retries self
  /\ (~ In key (dict_keys (Configuration._settings self)) ->
      Configuration.get self key default = default).
Proof.
  unfold Configuration.get, Configuration.set, dict_get. cbn.
  split; [rewrite dict_lookup_set_same; reflexivity |].
  split.
  { intros other Hn. rewrite (dict_lookup_set_other _ _ Hn). reflexivity. }
  repeat split.
  intros Hn. rewrite (dict_lookup_absent _ _ Hn). reflexivity.
Qed.

Lemma set_then_get_witness :
  Configuration.get
    (Configuration.mk (PStr "k") (PStr "u") (PInt 60) (PInt 3) [])
    "region" (PStr "none") = PStr "none".
Proof.
  apply (proj2 (proj2 (proj2 (proj2 (proj2 (proj2
    (set_then_get
       (Configuration.mk (PStr "k") (PStr "u") (PInt 60) (PInt 3) [])
       "region" PNone (PStr "none")))))))).
  simpl. intros [].
Defined.

Section ToDictLemmas.

Lemma unpack_keys settings :
  forall d, exists tail,
    dict_keys (Configuration.unpack_into d settings) = dict_keys d ++ tail.
Proof.
  induction settings as [| [k v] rest IH]; intros d;
    cbn [Configuration.unpack_into].
  - exists []. rewrite app_nil_r. reflexivity.
  - destruct (IH (dict_set d k v)) as [tail Ht].
    destruct (dict_keys_set d k v) as [tail' Ht'].
    exists (tail' ++ tail). rewrite Ht, Ht', app_assoc. reflexivity.
Qed.

Lemma unpack_lookup_absent settings k :
  ~ In k (dict_keys settings) ->
  forall d,
    dict_lookup (Configuration.unpack_into d settings) k = dict_lookup d k.
Proof.
  induction settings as [| [k' v] rest IH]; intros Hn d; [reflexivity |].
  cbn in *. rewrite IH.
  - apply dict_lookup_set_other. intros ->. apply Hn. left. reflexivity.
  - intros Hin. apply Hn. right. exact Hin.
Qed.

Lemma unpack_lookup_present settings k v :
  NoDup (dict_keys settings) ->
  dict_lookup settings k = Some v ->
  forall d, dict_lookup (Configuration.unpack_into d settings) k = Some v.
Proof.
  induction settings as [| [k' v'] rest IH]; intros Hn Hl d;
    [discriminate |].
  cbn in *. inversion Hn as [| ? ? Hnotin Hrest]; subst.
  destruct (String.eqb_spec k k') as [-> | Hk].
  - injection Hl as ->.
    rewrite unpack_lookup_absent by exact Hnotin. apply dict_lookup_set_same.
  - apply IH; assumption.
Qed.

End ToDictLemmas.

(** X22: [to_dict] always starts with the four attributes, in the order
    [api_key], [base_url], [timeout], [max_retries], followed by the
    settings; each attribute has its own value unless a setting has the
    same name, in which case the value of the setting is the one in the
    result. *)
Theorem to_dict_lists_attributes_first (self : Configuration.t) :
  firstn 4 (dict_keys (Configuration.to_dict self))
  = ["api_key"; "base_url"; "timeout"; "max_retries"]
  /\
  (forall k,
     ~ In k (dict_keys (Configuration._settings self)) ->
     dict_lookup (Configuration.to_dict self) k
     = dict_lookup [ ("api_key", Configuration.api_key self);
                     ("base_url", Configuration.base_url self);
                     ("timeout", Configuration.timeout self);
                     ("max_retries", Configuration.max_retries self) ] k)
  /\
  (forall k v,
     NoDup (dict_keys (Configuration._settings self)) ->
     dict_lookup (Configuration._settings self) k = Some v ->
     dict_lookup (Configuration.to_dict self) k = Some v).
Proof.
  unfold Configuration.to_dict. split; [| split].
  - match goal with
    | |- context [Configuration.unpack_into ?d ?s] =>
        destruct (unpack_keys s d) as [tail Ht]
    end.
    rewrite Ht. reflexivity.
  - intros k Hn. apply unpack_lookup_absent. exact Hn.
  - intros k v Hn Hl. apply unpack_lookup_present; assumption.
Qed.

Lemma to_dict_lists_attributes_first_witness :
  let c := Configuration.set
             (Configuration.mk (PStr "k") (PStr "u") (PInt 60) (PInt 3)
                               [("region", PStr "eu")])
             "timeout" (PInt 5) in
  dict_lookup (Configuration.to_dict c) "timeout" = Some (PInt 5)
  /\ dict_lookup (Configuration.to_dict c) "api_key" = Some (PStr "k")
  /\ Configuration.timeout c = PInt 60.
Proof.
  intros c.
  destruct (to_dict_lists_attributes_first c) as [_ [H2 H3]].
  split; [| split; [| reflexivity]].
  - apply H3; [| reflexivity].
    repeat constructor; simpl; intuition discriminate.
  - apply (H2 "api_key"). simpl. intuition discriminate.
Defined.

(** X23: an environment value for [INTELLIROUTER_TIMEOUT] (or
    [INTELLIROUTER_MAX_RETRIES]) that [int] refuses makes the
    construction of the configuration raise that error when the argument
    is missing or zero; with a non-zero argument the text of the variable
    is not read at all. *)
Theorem bad_number_in_the_environment {system : System}
        (api_key base_url : option string) (timeout max_retries : option Z)
        (kwargs : dict) (e : exc) :
  int_of_str (getenv environ "INTELLIROUTER_TIMEOUT" "60") = inl e ->
  (timeout = None \/ timeout = Some 0%Z ->
   Configuration.__init__ api_key base_url timeout max_retries kwargs = inl e)
  /\
  (forall t r,
     timeout = Some t -> t <> 0%Z ->
     max_retries = Some r -> r <> 0%Z ->
     exists c,
       Configuration.__init__ api_key base_url timeout max_retries kwargs
       = inr c
       /\ Configuration.timeout c = PInt t
       /\ Configuration.max_retries c = PInt r).
Proof.
  intros He. split.
  - intros [-> | ->]; unfold Configuration.__init__; cbn; rewrite He;
      reflexivity.
  - intros t r -> Ht -> Hr.
    assert (Hc : exists c, Configuration.__init__ api_key base_url (Some t)
                             (Some r) kwargs = inr c).
    { unfold Configuration.__init__. cbn.
      destruct (Z.eqb_spec t 0); [contradiction |].
      destruct (Z.eqb_spec r 0); [contradiction |].
      cbn. eexists. reflexivity. }
    destruct Hc as [c Hc]. exists c. split; [exact Hc |].
    destruct (init_keeps_set_values _ _ _ _ _ Hc)
      as [_ [_ [H3 H4]]].
    split.
    + apply H3; [| exact Ht]. cbn.
      destruct (Z.eqb_spec t 0); [contradiction | reflexivity].
    + apply H4; [| exact Hr]. cbn.
      destruct (Z.eqb_spec r 0); [contradiction | reflexivity].
Qed.

Lemma bad_number_in_the_environment_witness :
  Configuration.__init__ (system := SystemExamples.misconfigured_system)
    (Some "k") None None None []
  = inl (new_exc ValueError "invalid literal for int() with base 10: 'soon'")
  /\ exists c,
       Configuration.__init__ (system := SystemExamples.misconfigured_system)
         (Some "k") None (Some 10%Z) (Some 2%Z) [] = inr c
       /\ Configuration.timeout c = PInt 10
       /\ Configuration.max_retries c = PInt 2.
Proof.
  split.
  - apply (proj1
      (@bad_number_in_the_environment SystemExamples.misconfigured_system
         (Some "k") None None None [] _ eq_refl)).
    left. reflexivity.
  - apply (proj2
      (@bad_number_in_the_environment SystemExamples.misconfigured_system
         (Some "k") None (Some 10%Z) (Some 2%Z) [] _ eq_refl)
      10%Z 2%Z eq_refl ltac:(discriminate) eq_refl ltac:(discriminate)).
Defined.

(** X24: the main client uses a configuration object that is passed to
    it as it is, without reading the [api_key] and [base_url] arguments,
    and builds one from these two arguments otherwise; in both cases it
    raises [ConfigurationError] exactly when the [api_key] of its
    configuration is empty or otherwise falsy, as it is when neither the
    argument nor the environment has a key and there is no configuration
    file; when it is constructed, its transport is the one passed in, or
    else the HTTP transport of its configuration; an error of the
    configuration's own construction passes through. *)
Theorem client_requires_an_api_key {system : System}
        (http_transport : Configuration.t -> Transport.t)
        (api_key base_url : option string)
        (transport : option Transport.t) :
  (forall config,
     truthy (Configuration.api_key config) = false ->
     IntelliRouter.__init__ http_transport api_key base_url (Some config)
                            transport
     = inl (new_exc ConfigurationError IntelliRouter.api_key_required))
  /\
  (forall config,
     truthy (Configuration.api_key config) = true ->
     IntelliRouter.__init__ http_transport api_key base_url (Some config)
                            transport
     = inr (IntelliRouter.mk config
              (match transport with
               | Some transport => transport
               | None => http_transport config
               end)))
  /\
  (forall e,
     Configuration.__init__ api_key base_url None None [] = inl e ->
     IntelliRouter.__init__ http_transport api_key base_url None transport
     = inl e)
  /\
  (forall config,
     Configuration.__init__ api_key base_url None None [] = inr config ->
     IntelliRouter.__init__ http_transport api_key base_url None transport
     = if truthy (Configuration.api_key config)
       then inr (IntelliRouter.mk config
                   (match transport with
                    | Some transport => transport
                    | None => http_transport config
                    end))
       else inl (new_exc ConfigurationError IntelliRouter.api_key_required))
  /\
  (forall config,
     Configuration.__init__ api_key base_url None None [] = inr config ->
     Configuration.str_arg_or api_key
       (getenv environ "INTELLIROUTER_API_KEY" "") = "" ->
     read_config Configuration.config_file_path = file_absent ->
     IntelliRouter.__init__ http_transport api_key base_url None transport
     = inl (new_exc ConfigurationError IntelliRouter.api_key_required))
  /\
  (forall key config,
     api_key = Some key -> key <> "" ->
     Configuration.__init__ api_key base_url None None [] = inr config ->
     exists client,
       IntelliRouter.__init__ http_transport api_key base_url None transport
       = inr client
       /\ IntelliRouter.config client = config
       /\ Configuration.api_key config = PStr key).
Proof.
  split; [| split; [| split; [| split; [| split]]]].
  - intros config Ht. unfold IntelliRouter.__init__. cbn. rewrite Ht.
    reflexivity.
  - intros config Ht. unfold IntelliRouter.__init__. cbn. rewrite Ht.
    reflexivity.
  - intros e He. unfold IntelliRouter.__init__. rewrite He. reflexivity.
  - intros config Hc. unfold IntelliRouter.__init__. rewrite Hc. cbn.
    destruct (truthy (Configuration.api_key config)); reflexivity.
  - intros config Hc Hk Hr. unfold IntelliRouter.__init__. rewrite Hc. cbn.
    unfold Configuration.__init__ in Hc. rewrite Hk in Hc.
    cbn in Hc.
    destruct (int_of_str (getenv environ "INTELLIROUTER_TIMEOUT" "60"))
      as [e | t]; cbn in Hc; [discriminate |].
    destruct (int_of_str (getenv environ "INTELLIROUTER_MAX_RETRIES" "3"))
      as [e | r]; cbn in Hc; [discriminate |].
    unfold Configuration._load_from_file in Hc. rewrite Hr in Hc.
    injection Hc as <-. reflexivity.
  - intros key config -> Hk Hc.
    destruct (init_keeps_set_values _ _ _ _ _ Hc) as [H1 _].
    cbn in H1. assert (Ha : Configuration.api_key config = PStr key).
    { destruct key; [congruence |]. apply H1. discriminate. }
    unfold IntelliRouter.__init__. rewrite Hc. cbn. rewrite Ha.
    rewrite (truthy_str Hk). cbn. eexists.
    split; [reflexivity |]. split; reflexivity.
Qed.

Lemma client_requires_an_api_key_witness :
  IntelliRouter.__init__ (system := SystemExamples.env_system)
    (fun _ => Examples.constant_transport PNone Stop)
    (Some "ignored") None
    (Some (Configuration.mk (PStr "") (PStr "u") (PInt 60) (PInt 3) []))
    None
  = inl (new_exc ConfigurationError IntelliRouter.api_key_required)
  /\ exists client,
       IntelliRouter.__init__ (system := SystemExamples.bare_system)
         (fun _ => Examples.constant_transport PNone Stop)
         (Some "test-api-key") None None None
       = inr client
       /\ Configuration.api_key (IntelliRouter.config client)
          = PStr "test-api-key".
Proof.
  split.
  - apply (proj1 (@client_requires_an_api_key SystemExamples.env_system
                    (fun _ => Examples.constant_transport PNone Stop)
                    (Some "ignored") None None)).
    reflexivity.
  - destruct (proj2 (proj2 (proj2 (proj2 (proj2
      (@client_requires_an_api_key SystemExamples.bare_system
         (fun _ => Examples.constant_transport PNone Stop)
         (Some "test-api-key") None None)))))
      "test-api-key" _ eq_refl ltac:(discriminate) eq_refl)
      as [client [Hc [Hcfg Hk]]].
    exists client. split; [exact Hc |]. rewrite Hcfg. exact Hk.
Defined.

(* ===================================================================== *)
(** * The request body of [create] and [update] *)
(* ===================================================================== *)

Section RequestBody.
Context {pydantic : Pydantic}.

Lemma format_step_serialized step payload :
  ChainClient.format_step step = inr payload <-> serialized_step step payload.
Proof.
  split.
  - destruct step as [s | v]; cbn.
    + intros [= <-]. constructor.
    + destruct v; cbn; try discriminate.
      destruct (ChainStep.parse d) as [e | s] eqn:E; cbn; [discriminate |].
      intros [= <-]. constructor. exact E.
  - intros [s | kwargs s Hp]; cbn; [reflexivity |].
    rewrite Hp. reflexivity.
Qed.

Lemma format_dependency_serialized dependency payload :
  ChainClient.format_dependency dependency = inr payload
  <-> serialized_dependency dependency payload.
Proof.
  split.
  - destruct dependency as [s | v]; cbn.
    + intros [= <-]. constructor.
    + destruct v; cbn; try discriminate.
      destruct (ChainDependency.parse d) as [e | s] eqn:E; cbn;
        [discriminate |].
      intros [= <-]. constructor. exact E.
  - intros [s | kwargs s Hp]; cbn; [reflexivity |].
    rewrite Hp. reflexivity.
Qed.

Lemma formatted_steps_serialized steps formatted :
  NoDup (map fst steps) ->
  ChainClient.format_steps steps [] = inr formatted ->
  serialized_steps (Some steps) (Some (PDict formatted)).
Proof.
  intros Hn Hf.
  destruct (@format_steps_entries _ steps [] formatted Hn Hf)
    as [outs [-> Ho]].
  exists outs. split; [reflexivity |].
  eapply Forall2_impl; [| exact Ho].
  intros kv out [Hk [entry0 [He Hs]]]. split; [exact Hk |].
  exists entry0. split; [apply format_step_serialized; exact He | exact Hs].
Qed.

Lemma formatted_dependencies_serialized dependencies formatted :
  ChainClient.format_dependencies dependencies [] = inr formatted ->
  serialized_dependencies (Some dependencies) (Some (PList formatted)).
Proof.
  intros Hf.
  destruct (@format_dependencies_entries _ dependencies [] formatted Hf)
    as [outs [-> Ho]].
  exists outs. split; [reflexivity |].
  eapply Forall2_impl; [| exact Ho].
  intros dependency out [entry0 [He Hs]].
  exists entry0. split; [apply format_dependency_serialized; exact He | exact Hs].
Qed.

(** What [prepare] returns is the body of what was supplied. *)
Lemma prepare_body (first_value : option pyval) description steps
      dependencies config data :
  unique_keys steps ->
  ChainClient.prepare (entry "name" first_value) description steps
                      dependencies config = inr data ->
  supplied_body (entry "name" first_value) description steps dependencies
                config data.
Proof.
  intros Hu Hp. unfold ChainClient.prepare in Hp.
  assert (Hs : exists steps_value,
             serialized_steps steps steps_value
             /\ (steps = None -> steps_value = None)
             /\ forall l, steps = Some l ->
                  exists fs, ChainClient.format_steps l [] = inr fs
                             /\ steps_value = Some (PDict fs)).
  { destruct steps as [l |].
    - destruct (ChainClient.format_steps l []) as [e | fs] eqn:Es;
        [cbn in Hp; discriminate |].
      exists (Some (PDict fs)).
      split; [apply formatted_steps_serialized; assumption |].
      split; [discriminate |].
      intros l' [= <-]. exists fs. split; [exact Es | reflexivity].
    - exists None. split; [reflexivity |]. split; [reflexivity | discriminate]. }
  assert (Hd : exists dependencies_value,
             serialized_dependencies dependencies dependencies_value
             /\ (dependencies = None -> dependencies_value = None)
             /\ forall l, dependencies = Some l ->
                  exists fd, ChainClient.format_dependencies l [] = inr fd
                             /\ dependencies_value = Some (PList fd)).
  { destruct dependencies as [l |].
    - destruct (ChainClient.format_dependencies l []) as [e | fd] eqn:Ed.
      + destruct steps as [ls |]; cbn in Hp;
          [destruct (ChainClient.format_steps ls []); cbn in Hp |];
          discriminate.
      + exists (Some (PList fd)).
        split; [apply formatted_dependencies_serialized; assumption |].
        split; [discriminate |].
        intros l' [= <-]. exists fd. split; [exact Ed | reflexivity].
    - exists None. split; [reflexivity |]. split; [reflexivity | discriminate]. }
  destruct Hs as [steps_value [Hs [Hsn Hss]]].
  destruct Hd as [dependencies_value [Hd [Hdn Hds]]].
  exists steps_value, dependencies_value.
  split; [exact Hs |]. split; [exact Hd |].
  destruct steps as [ls |];
    [destruct (Hss ls eq_refl) as [fs [Efs ->]]; rewrite Efs in Hp
    | rewrite (Hsn eq_refl)];
    (destruct dependencies as [ld |];
     [destruct (Hds ld eq_refl) as [fd [Efd ->]]; rewrite Efd in Hp
     | rewrite (Hdn eq_refl)]);
    destruct first_value, description, config; cbn in Hp;
    injection Hp as <-; reflexivity.
Qed.

Lemma set_name_entry (name : option string) :
  ChainClient.set_if_given [] "name" name PStr
  = entry "name" (option_map PStr name).
Proof. destruct name; reflexivity. Qed.

Lemma supplied_body_keys first description steps dependencies config data :
  supplied_body first description steps dependencies config data ->
  dict_keys data
  = dict_keys first ++ given "description" description
      ++ given "steps" steps ++ given "dependencies" dependencies
      ++ given "config" config.
Proof.
  intros [sv [dv [Hs [Hd ->]]]]. unfold dict_keys. rewrite !map_app.
  f_equal. f_equal; [destruct description; reflexivity |].
  f_equal; [destruct steps; cbn in Hs;
            [destruct Hs as [fs [-> _]] | subst sv]; reflexivity |].
  f_equal; [destruct dependencies; cbn in Hd;
            [destruct Hd as [fd [-> _]] | subst dv]; reflexivity |].
  destruct config; reflexivity.
Qed.

Lemma valid_data_is_prepared first description steps dependencies config :
  has_invalid_element steps dependencies = false ->
  exists data,
    ChainClient.prepare first description steps dependencies config
    = inr data.
Proof.
  intros Hv.
  destruct (ChainClient.prepare first description steps dependencies config)
    as [e | data] eqn:E; [| exists data; reflexivity].
  exfalso. assert (Hf : fails (ChainClient.prepare first description steps
                                 dependencies config))
    by (exists e; exact E).
  apply prepare_invalid in Hf. congruence.
Qed.

Lemma prepare_same_arguments data description steps steps' dependencies
      dependencies' config :
  same_steps steps steps' ->
  same_dependencies dependencies dependencies' ->
  ChainClient.prepare data description steps dependencies config
  = ChainClient.prepare data description steps' dependencies' config.
Proof.
  intros Hs Hd. unfold ChainClient.prepare.
  destruct steps as [l |], steps' as [l' |]; cbn in Hs; try contradiction;
    destruct dependencies as [m |], dependencies' as [m' |]; cbn in Hd;
    try contradiction;
    rewrite ?(format_steps_same Hs), ?(format_dependencies_same Hd);
    reflexivity.
Qed.

Lemma same_steps_unique_keys steps steps' :
  same_steps steps steps' -> unique_keys steps -> unique_keys steps'.
Proof.
  destruct steps as [l |], steps' as [l' |]; cbn; try contradiction; auto.
  intros Hs Hn.
  assert (Hk : map fst l = map fst l').
  { clear Hn. induction Hs as [| x y l l' [Hx _] _ IH]; [reflexivity |].
    cbn. rewrite Hx, IH. reflexivity. }
  rewrite <- Hk. exact Hn.
Qed.

Lemma step_parse_defaults kwargs s :
  ChainStep.parse kwargs = inr s ->
  (dict_lookup kwargs "inputs" = None -> ChainStep.inputs s = [])
  /\ (dict_lookup kwargs "outputs" = None -> ChainStep.outputs s = [])
  /\ (dict_lookup kwargs "config" = None -> ChainStep.config s = []).
Proof.
  unfold ChainStep.parse.
  destruct (required kwargs "id" validate_str) as [e | x1]; cbn;
    [discriminate |].
  destruct (required kwargs "type" validate_str) as [e | x2]; cbn;
    [discriminate |].
  destruct (optional kwargs "name" validate_str) as [e | x3]; cbn;
    [discriminate |].
  destruct (optional kwargs "description" validate_str) as [e | x4]; cbn;
    [discriminate |].
  destruct (defaulted kwargs "inputs" validate_dict []) as [e | i] eqn:Ei;
    cbn; [discriminate |].
  destruct (defaulted kwargs "outputs" (validate_dict_of validate_str) [])
    as [e | o] eqn:Eo; cbn; [discriminate |].
  destruct (defaulted kwargs "config" validate_dict []) as [e | c] eqn:Ec;
    cbn; [discriminate |].
  intros [= <-]. cbn. unfold defaulted in Ei, Eo, Ec.
  repeat split; intros Hl.
  - rewrite Hl in Ei. cbv in Ei. congruence.
  - rewrite Hl in Eo. cbv in Eo. congruence.
  - rewrite Hl in Ec. cbv in Ec. congruence.
Qed.

Lemma step_to_dict_mappings (s : ChainStep.t) :
  dict_lookup (ChainStep.to_dict s true) "inputs"
  = Some (PDict (ChainStep.inputs s))
  /\ dict_lookup (ChainStep.to_dict s true) "outputs"
     = Some (str_dict (ChainStep.outputs s))
  /\ dict_lookup (ChainStep.to_dict s true) "config"
     = Some (PDict (ChainStep.config s)).
Proof.
  destruct s as [i t n d ins outs cfg]. unfold ChainStep.to_dict.
  destruct n, d; cbn; repeat split.
Qed.

End RequestBody.

(** C1, as the specification states it: every element that violates the
    entity contract stops the call before any request.  By the contract
    of the data model a conditional dependency needs a condition; the
    dependency class does not check it, and [create] sends the request. *)
Lemma conditional_dependency_without_condition_is_sent :
  ~ (exists msg,
       ChainClient.create (pydantic := Examples.exact_validators)
         (Examples.constant_transport (PDict [("id", PStr "c1")]) Stop)
         "chain" None None
         (Some [ ChainClient.dependency_value
                   (PDict [ ("dependent_step", PStr "step2");
                            ("required_step", PStr "step1");
                            ("type", PStr "conditional") ]) ])
         None []
       = (inl (new_exc ValidationError msg), [])).
Proof. intros [msg Hc]. cbv in Hc. discriminate. Qed.

(** C1, amended: when the [steps] or the [dependencies] argument of
    [create] or [update] holds an element that its model class refuses or
    that is neither an entity nor a mapping, the method raises
    [ValidationError] and the transport is not called: the log of calls
    comes back unchanged.  A step mapping without [id] or without [type],
    a dependency whose [type] is outside the two literals, and a value
    that is not a mapping are such elements; a conditional dependency
    without a condition is not, and when no element is refused the
    request is sent. *)
Theorem invalid_element_raises_before_any_request {pydantic : Pydantic}
        (transport : Transport.t) (log : list Transport.call)
        (chain_id name : string) (new_name description : option string)
        (steps : option (list (string * ChainClient.step_arg)))
        (dependencies : option (list ChainClient.dependency_arg))
        (config : option dict) :
  (has_invalid_element steps dependencies = true ->
   (exists msg,
      ChainClient.create transport name description steps dependencies
                         config log
      = (inl (new_exc ValidationError msg), log))
   /\
   (exists msg,
      ChainClient.update transport chain_id new_name description steps
                         dependencies config log
      = (inl (new_exc ValidationError msg), log)))
  /\
  (has_invalid_element steps dependencies = false ->
   (exists data,
      snd (ChainClient.create transport name description steps dependencies
                              config log)
      = log ++ [Transport.mk_call Transport.op_request "POST" "/v1/chains"
                                  None (Some data)])
   /\
   (exists data,
      snd (ChainClient.update transport chain_id new_name description steps
                              dependencies config log)
      = log ++ [Transport.mk_call Transport.op_request "PATCH"
                                  ("/v1/chains/" ++ chain_id) None
                                  (Some data)]))
  /\
  (forall kwargs,
     dict_lookup kwargs "id" = None \/ dict_lookup kwargs "type" = None ->
     invalid_step (ChainClient.step_value (PDict kwargs)) = true)
  /\
  (forall kwargs ty,
     dict_lookup kwargs "type" = Some (PStr ty) ->
     ty <> "simple" -> ty <> "conditional" ->
     invalid_dependency (ChainClient.dependency_value (PDict kwargs)) = true)
  /\
  (forall v, (forall kwargs, v <> PDict kwargs) ->
     invalid_step (ChainClient.step_value v) = true
     /\ invalid_dependency (ChainClient.dependency_value v) = true)
  /\
  (forall s d,
     invalid_step (ChainClient.step_entity s) = false
     /\ invalid_dependency (ChainClient.dependency_entity d) = false)
  /\
  (forall a b,
     invalid_dependency
       (ChainClient.dependency_value
          (PDict [ ("dependent_step", PStr a); ("required_step", PStr b);
                   ("type", PStr "conditional") ])) = false).
Proof.
  split.
  { intros Hi. split.
    - unfold ChainClient.create, ChainClient.create_data.
      apply invalid_data_stops. exact Hi.
    - unfold ChainClient.update, ChainClient.update_data.
      apply invalid_data_stops. exact Hi. }
  split.
  { intros Hv. split.
    - destruct (@valid_data_is_prepared _ [("name", PStr name)] description
                  steps dependencies config Hv) as [data Hd].
      exists data. rewrite create_log with (data := data) by exact Hd.
      reflexivity.
    - destruct (@valid_data_is_prepared _
                  (ChainClient.set_if_given [] "name" new_name PStr)
                  description steps dependencies config Hv) as [data Hd].
      exists data. rewrite update_log with (data := data) by exact Hd.
      reflexivity. }
  destruct contract_violations_are_invalid as [H1 [H2 H3]].
  split; [exact H1 |]. split; [exact H2 |]. split; [exact H3 |].
  split; [intros s d; split; reflexivity |].
  intros a b. cbn.
  rewrite (@dependency_of_steps_and_type _ a b "conditional"
             ChainDependency.conditional eq_refl).
  reflexivity.
Qed.

Lemma invalid_element_raises_before_any_request_witness :
  let transport := Examples.constant_transport (PDict [("id", PStr "c1")]) Stop in
  let steps :=
    Some [ ("step1", ChainClient.step_value
                       (PDict [("id", PStr "step1"); ("type", PStr "llm")]));
           ("step2", ChainClient.step_value
                       (PDict [("type", PStr "llm")])) ] in
  let dependencies :=
    Some [ ChainClient.dependency_value
             (PDict [("dependent_step", PStr "step2");
                     ("required_step", PStr "step1");
                     ("type", PStr "sequential")]) ] in
  (exists msg,
     ChainClient.create (pydantic := Examples.exact_validators)
       transport "chain" None steps dependencies None []
     = (inl (new_exc ValidationError msg), []))
  /\
  (exists msg,
     ChainClient.update (pydantic := Examples.exact_validators)
       transport "c1" None None steps dependencies None []
     = (inl (new_exc ValidationError msg), [])).
Proof.
  intros transport steps dependencies.
  apply (proj1
    (@invalid_element_raises_before_any_request
       Examples.exact_validators transport [] "c1" "chain" None None
       steps dependencies None)).
  reflexivity.
Defined.

(** C3, on the code: a mapping field of a step that the caller did not
    set ([inputs], [outputs] or [config]) is in the payload as an empty
    mapping, because [.dict(exclude_none=True)] drops [None] values and
    the default of these fields is an empty [dict]; the payload that is
    sent for a step without [config] has a ["config"] key. *)
Theorem unset_mapping_fields_are_serialized {pydantic : Pydantic}
        (kwargs payload : dict) :
  ChainClient.format_step (ChainClient.step_value (PDict kwargs))
  = inr payload ->
  (dict_lookup kwargs "inputs" = None ->
   dict_lookup payload "inputs" = Some (PDict []))
  /\ (dict_lookup kwargs "outputs" = None ->
      dict_lookup payload "outputs" = Some (PDict []))
  /\ (dict_lookup kwargs "config" = None ->
      dict_lookup payload "config" = Some (PDict [])).
Proof.
  intros Hf. apply format_step_serialized in Hf.
  inversion Hf as [| kwargs' s Hp]; subst.
  destruct (@step_parse_defaults _ _ _ Hp) as [Hi [Ho Hc]].
  destruct (step_to_dict_mappings s) as [Li [Lo Lc]].
  repeat split; intros Hl.
  - rewrite Li, (Hi Hl). reflexivity.
  - rewrite Lo, (Ho Hl). reflexivity.
  - rewrite Lc, (Hc Hl). reflexivity.
Qed.

Lemma unset_mapping_fields_are_serialized_witness :
  exists payload,
    ChainClient.format_step (pydantic := Examples.exact_validators)
      (ChainClient.step_value
         (PDict [ ("id", PStr "step1"); ("type", PStr "llm");
                  ("name", PStr "Test Step");
                  ("description", PStr "A test step");
                  ("inputs", PDict [("prompt", PStr "string")]);
                  ("outputs", PDict [("response", PStr "string")]) ]))
    = inr payload
    /\ dict_lookup payload "config" = Some (PDict []).
Proof.
  eexists. split; [reflexivity |].
  apply (proj2 (proj2
    (@unset_mapping_fields_are_serialized Examples.exact_validators
       [ ("id", PStr "step1"); ("type", PStr "llm");
         ("name", PStr "Test Step");
         ("description", PStr "A test step");
         ("inputs", PDict [("prompt", PStr "string")]);
         ("outputs", PDict [("response", PStr "string")]) ]
       _ eq_refl))).
  reflexivity.
Defined.

(** C4: a [create] call whose steps and dependencies are all valid sends
    one POST whose body is the entry for ["name"] followed by exactly
    what was supplied, each under its key and with its value: the
    description, the payload of every step under the step's key, the
    payload of every dependency, the configuration; an argument left out
    has no key.  [update] sends one PATCH with the same body but for
    ["name"], which is there only when given; with only [description] the
    body is the mapping with that one key. *)
Theorem request_body_has_the_supplied_fields {pydantic : Pydantic}
        (transport : Transport.t) (log : list Transport.call)
        (chain_id name new_description : string)
        (new_name description : option string)
        (steps : option (list (string * ChainClient.step_arg)))
        (dependencies : option (list ChainClient.dependency_arg))
        (config : option dict) :
  has_invalid_element steps dependencies = false ->
  unique_keys steps ->
  (exists data,
     ChainClient.create_data name description steps dependencies config
     = inr data /\
     supplied_body [("name", PStr name)] description steps dependencies
                   config data /\
     dict_lookup data "name" = Some (PStr name) /\
     dict_keys data
     = "name" :: given "description" description ++ given "steps" steps
              ++ given "dependencies" dependencies ++ given "config" config /\
     snd (ChainClient.create transport name description steps dependencies
                             config log)
     = log ++ [Transport.mk_call Transport.op_request "POST" "/v1/chains"
                                 None (Some data)])
  /\
  (exists data,
     ChainClient.update_data new_name description steps dependencies config
     = inr data /\
     supplied_body (entry "name" (option_map PStr new_name)) description
                   steps dependencies config data /\
     snd (ChainClient.update transport chain_id new_name description steps
                             dependencies config log)
     = log ++ [Transport.mk_call Transport.op_request "PATCH"
                                 ("/v1/chains/" ++ chain_id) None
                                 (Some data)])
  /\
  snd (ChainClient.update transport chain_id None (Some new_description)
                          None None None log)
  = log ++ [Transport.mk_call Transport.op_request "PATCH"
                              ("/v1/chains/" ++ chain_id) None
                              (Some [("description", PStr new_description)])].
Proof.
  intros Hv Hu. split; [| split].
  - destruct (@valid_data_is_prepared _ [("name", PStr name)] description
                steps dependencies config Hv) as [data Hd].
    exists data. split; [exact Hd |].
    assert (Hb : supplied_body (entry "name" (Some (PStr name))) description
                               steps dependencies config data)
      by (apply prepare_body; assumption).
    split; [exact Hb |].
    split.
    { destruct Hb as [sv [dv [_ [_ ->]]]]. reflexivity. }
    split; [rewrite supplied_body_keys with (1 := Hb); reflexivity |].
    rewrite create_log with (data := data) by exact Hd. reflexivity.
  - destruct (@valid_data_is_prepared _
                (ChainClient.set_if_given [] "name" new_name PStr)
                description steps dependencies config Hv) as [data Hd].
    exists data. split; [exact Hd |].
    split.
    + rewrite set_name_entry in Hd. apply prepare_body; assumption.
    + rewrite update_log with (data := data) by exact Hd. reflexivity.
  - unfold ChainClient.update, io_bind, lift, transport_request. cbn.
    destruct (Transport.request transport log _); reflexivity.
Qed.

Lemma request_body_has_the_supplied_fields_witness :
  let transport := Examples.constant_transport (PDict [("id", PStr "c1")]) Stop in
  let steps :=
    Some [ ("step1", ChainClient.step_value
                       (PDict [("id", PStr "step1"); ("type", PStr "llm")])) ] in
  (exists data,
     ChainClient.create_data (pydantic := Examples.exact_validators)
       "Test Chain" (Some "A test chain") steps None None = inr data /\
     supplied_body (pydantic := Examples.exact_validators)
       [("name", PStr "Test Chain")] (Some "A test chain") steps None None
       data /\
     dict_lookup data "name" = Some (PStr "Test Chain") /\
     dict_keys data = ["name"; "description"; "steps"] /\
     snd (ChainClient.create (pydantic := Examples.exact_validators)
            transport "Test Chain" (Some "A test chain") steps None None [])
     = [Transport.mk_call Transport.op_request "POST" "/v1/chains"
                          None (Some data)])
  /\
  snd (ChainClient.update (pydantic := Examples.exact_validators)
         transport "test-chain-id" None (Some "Updated description")
         None None None [])
  = [Transport.mk_call Transport.op_request "PATCH"
                       "/v1/chains/test-chain-id" None
                       (Some [("description", PStr "Updated description")])].
Proof.
  intros transport steps.
  destruct (@request_body_has_the_supplied_fields Examples.exact_validators
              transport [] "test-chain-id" "Test Chain" "Updated description"
              None (Some "A test chain") steps None None)
    as [Hc [_ Hu]].
  - reflexivity.
  - simpl. repeat constructor. simpl. intros [].
  - split; [exact Hc | exact Hu].
Defined.

(** C8: a step given as an entity and a step given as a mapping that the
    model class reads as that entity have the same payload, the
    [.dict(exclude_none=True)] of the entity, which the entity reaches
    without being parsed again; so have a dependency in its two forms.
    Hence two [create] calls, or two [update] calls, whose steps and
    dependencies differ only in that form, whichever of the two arguments
    they supply, prepare the same data, send the same request and end
    alike, and the data they send holds these payloads. *)
Theorem entity_and_mapping_give_the_same_payload {pydantic : Pydantic}
        (transport : Transport.t) (log : list Transport.call)
        (chain_id name : string) (new_name description : option string)
        (steps steps' : option (list (string * ChainClient.step_arg)))
        (dependencies dependencies' : option (list ChainClient.dependency_arg))
        (config : option dict) :
  same_steps steps steps' ->
  same_dependencies dependencies dependencies' ->
  (forall s kwargs,
     ChainStep.parse kwargs = inr s ->
     ChainClient.format_step (ChainClient.step_entity s)
     = inr (ChainStep.to_dict s true)
     /\ ChainClient.format_step (ChainClient.step_value (PDict kwargs))
        = inr (ChainStep.to_dict s true))
  /\
  (forall d kwargs,
     ChainDependency.parse kwargs = inr d ->
     ChainClient.format_dependency (ChainClient.dependency_entity d)
     = inr (ChainDependency.to_dict d true)
     /\ ChainClient.format_dependency
          (ChainClient.dependency_value (PDict kwargs))
        = inr (ChainDependency.to_dict d true))
  /\
  ChainClient.create_data name description steps dependencies config
  = ChainClient.create_data name description steps' dependencies' config
  /\
  ChainClient.update_data new_name description steps dependencies config
  = ChainClient.update_data new_name description steps' dependencies' config
  /\
  ChainClient.create transport name description steps dependencies config log
  = ChainClient.create transport name description steps' dependencies'
                       config log
  /\
  ChainClient.update transport chain_id new_name description steps
                     dependencies config log
  = ChainClient.update transport chain_id new_name description steps'
                       dependencies' config log
  /\
  (has_invalid_element steps dependencies = false ->
   unique_keys steps ->
   exists data,
     ChainClient.create_data name description steps dependencies config
     = inr data
     /\ ChainClient.create_data name description steps' dependencies' config
        = inr data
     /\ supplied_body [("name", PStr name)] description steps dependencies
                      config data
     /\ supplied_body [("name", PStr name)] description steps' dependencies'
                      config data).
Proof.
  intros Hs Hd.
  assert (Hc : ChainClient.prepare [("name", PStr name)] description steps
                                   dependencies config
               = ChainClient.prepare [("name", PStr name)] description steps'
                                     dependencies' config)
    by (apply prepare_same_arguments; assumption).
  assert (Hu : ChainClient.prepare
                 (ChainClient.set_if_given [] "name" new_name PStr)
                 description steps dependencies config
               = ChainClient.prepare
                   (ChainClient.set_if_given [] "name" new_name PStr)
                   description steps' dependencies' config)
    by (apply prepare_same_arguments; assumption).
  split.
  { intros s kwargs Hp. split; [reflexivity |].
    cbn. rewrite Hp. reflexivity. }
  split.
  { intros d kwargs Hp. split; [reflexivity |].
    cbn. rewrite Hp. reflexivity. }
  split; [exact Hc |]. split; [exact Hu |].
  split.
  { unfold ChainClient.create, ChainClient.create_data. rewrite Hc.
    reflexivity. }
  split.
  { unfold ChainClient.update, ChainClient.update_data. rewrite Hu.
    reflexivity. }
  intros Hv Hk.
  destruct (@valid_data_is_prepared _ [("name", PStr name)] description
              steps dependencies config Hv) as [data Hp].
  exists data. unfold ChainClient.create_data.
  split; [exact Hp |]. split; [rewrite <- Hc; exact Hp |].
  split.
  - change [("name", PStr name)] with (entry "name" (Some (PStr name))).
    apply prepare_body; assumption.
  - rewrite Hc in Hp.
    change [("name", PStr name)] with (entry "name" (Some (PStr name))).
    apply prepare_body; [| exact Hp].
    eapply same_steps_unique_keys; eassumption.
Qed.

Lemma entity_and_mapping_give_the_same_payload_witness :
  let transport := Examples.constant_transport (PDict [("id", PStr "c1")]) Stop in
  let step := ChainStep.mk "step1" "llm" None None [] [] [] in
  ChainClient.create (pydantic := Examples.exact_validators) transport
    "chain" None
    (Some [("step1", ChainClient.step_entity step)]) None None []
  = ChainClient.create (pydantic := Examples.exact_validators) transport
      "chain" None
      (Some [("step1", ChainClient.step_value
                         (PDict [("id", PStr "step1"); ("type", PStr "llm")]))])
      None None [].
Proof.
  intros transport step.
  refine (proj1 (proj2 (proj2 (proj2 (proj2
    (@entity_and_mapping_give_the_same_payload Examples.exact_validators
       transport [] "c1" "chain" None None
       (Some [("step1", ChainClient.step_entity step)])
       (Some [("step1", ChainClient.step_value
                          (PDict [("id", PStr "step1"); ("type", PStr "llm")]))])
       None None None _ _)))))).
  - simpl. constructor; [| constructor]. split; [reflexivity |].
    apply same_step_parsed. reflexivity.
  - exact I.
Defined.
